(** * Face-Det: the emotion dashboard of [main.py]

    A shallow embedding of the Streamlit script: the analysis function
    [analyze_emotions], the card renderer [display_cards] and the four tab
    blocks (Upload, Capture, Live, Home/export), over an explicit session
    state.  Python floats are IEEE binary64 numbers, so they are modelled by
    the kernel's primitive floats; Python ints by [Z]; [str] by [string].
    What the script gets from OpenCV, the detector, the clock and the camera
    is collected in the class [Externals]; pandas' CSV writer and the text
    form of floats are modelled in [Pandas], [Csv] and [PyFloat]. *)

From Stdlib Require Import ZArith NArith List String Ascii Bool Lia Floats.
From Stdlib Require Import DecimalString DecimalPos DecimalZ Sorted.
Import ListNotations.

Local Open Scope string_scope.
Local Open Scope Z_scope.

(** ** Python numbers *)

Module PyNum.

(** Comparisons of two floats, as [<], [>] and [>=] evaluate them. *)
Definition lt (a b : float) : bool := PrimFloat.ltb a b.
Definition gt (a b : float) : bool := PrimFloat.ltb b a.
Definition ge (a b : float) : bool := PrimFloat.leb b a.

(** A float that takes part in an ordering: anything but NaN. *)
Definition ordered (a : float) : Prop := PrimFloat.is_nan a = false.

(** Nearest integer to [n / d] for [0 <= n], [0 < d], ties to even. *)
Definition rhe_div (n d : Z) : Z :=
  let q := n / d in
  match (2 * (n mod d)) ?= d with
  | Lt => q
  | Gt => q + 1
  | Eq => if Z.even q then q else q + 1
  end.

(** [m * 2^e * 10^digits] rounded to an integer, ties to even: the decimal
    digits that correctly rounded conversion keeps. *)
Definition scaled_rhe (digits : Z) (m : positive) (e : Z) : Z :=
  let n := Zpos m * 10 ^ digits in
  if 0 <=? e then n * 2 ^ e else rhe_div n (2 ^ (- e)).

(** [m * 2^e] with its fraction dropped. *)
Definition scaled_trunc (m : positive) (e : Z) : Z :=
  if 0 <=? e then Zpos m * 2 ^ e else Zpos m / 2 ^ (- e).

Definition signed_zero (s : bool) : float :=
  if s then neg_zero else zero.

(** The binary64 number nearest to [(-1)^s * n / d] (ties to even), for
    [0 <= n] and [0 < d]: what [strtod] returns for a decimal literal. *)
Definition nearest_float (s : bool) (n d : Z) : float :=
  if n =? 0 then signed_zero s else
  let e0 := Z.max (-1074) (Z.log2 n - Z.log2 d - 53) in
  let floor_at e := if 0 <=? e then n / (d * 2 ^ e) else (n * 2 ^ (- e)) / d in
  let round_at e := if 0 <=? e then rhe_div n (d * 2 ^ e) else rhe_div (n * 2 ^ (- e)) d in
  let e := if 2 ^ 53 <=? floor_at e0 then e0 + 1 else e0 in
  match round_at e with
  | Zpos m => SF2Prim (S754_finite s m e)
  | _ => signed_zero s
  end.

(** [round(x, ndigits)] for [0 <= ndigits]: the decimal rounding of the exact
    value of [x] (ties to even), read back as a float.  Zeros, infinities
    and NaN are returned as they are. *)
Definition round_ndigits (x : float) (ndigits : Z) : float :=
  match Prim2SF x with
  | S754_finite s m e => nearest_float s (scaled_rhe ndigits m e) (10 ^ ndigits)
  | _ => x
  end.

(** The exact value of a finite float as a fraction [(numerator,
    denominator)], the denominator a power of two; [(0, 1)] for the others. *)
Definition exact (x : float) : Z * Z :=
  match Prim2SF x with
  | S754_finite s m e =>
      let n := if 0 <=? e then Zpos m * 2 ^ e else Zpos m in
      let d := if 0 <=? e then 1 else 2 ^ (- e) in
      (if s then - n else n, d)
  | _ => (0, 1)
  end.

(** The integer nearest to the exact value, ties to even: [round(x)]. *)
Definition nearest_integer (x : float) : Z :=
  let (n, d) := exact x in
  if n <? 0 then - rhe_div (- n) d else rhe_div n d.

(** A key that orders the numbers among the floats as [SFcompare] does. *)
Definition key (x : spec_float) : Z * Z * Z :=
  match x with
  | S754_zero _ | S754_nan => (0, 0, 0)
  | S754_infinity s => (if s then -2 else 2, 0, 0)
  | S754_finite s m e => if s then (-1, - e, Zneg m) else (1, e, Zpos m)
  end.

Definition lex (a b : Z * Z * Z) : comparison :=
  match fst (fst a) ?= fst (fst b) with
  | Eq => match snd (fst a) ?= snd (fst b) with
          | Eq => snd a ?= snd b
          | c => c
          end
  | c => c
  end.

End PyNum.

(** ** Exceptions *)

Inductive exn : Type :=
| ValueError (msg : string)
| OverflowError (msg : string)
| LibraryError (msg : string).

Module PyInt.

(** [int(x)] on a float: truncation toward zero; NaN and the infinities
    raise. *)
Definition of_float (x : float) : exn + Z :=
  match Prim2SF x with
  | S754_zero _ => inr 0
  | S754_finite s m e =>
      let a := PyNum.scaled_trunc m e in inr (if s then - a else a)
  | S754_infinity _ => inl (OverflowError "cannot convert float infinity to integer")
  | S754_nan => inl (ValueError "cannot convert float NaN to integer")
  end.

(** [int(x)] where it is defined, [0] elsewhere. *)
Definition trunc (x : float) : Z :=
  match of_float x with
  | inr k => k
  | inl _ => 0
  end.

(** [str(n)] for an int. *)
Definition to_string (n : Z) : string := NilZero.string_of_int (Z.to_int n).

(** [int(s)] restricted to plain decimal text. *)
Definition of_string (s : string) : option Z :=
  option_map Z.of_int (NilZero.int_of_string s).

End PyInt.

(** ** Python strings *)

Module PyStr.

Definition upper_char (c : ascii) : ascii :=
  let n := nat_of_ascii c in
  if ((97 <=? n) && (n <=? 122))%nat then ascii_of_nat (n - 32) else c.

Definition lower_char (c : ascii) : ascii :=
  let n := nat_of_ascii c in
  if ((65 <=? n) && (n <=? 90))%nat then ascii_of_nat (n + 32) else c.

Fixpoint lower (s : string) : string :=
  match s with
  | EmptyString => EmptyString
  | String c t => String (lower_char c) (lower t)
  end.

(** [s.capitalize()]: first character upper case, the rest lower case.
    Letters outside ASCII are left as they are. *)
Definition capitalize (s : string) : string :=
  match s with
  | EmptyString => EmptyString
  | String c t => String (upper_char c) (lower t)
  end.

Fixpoint repeat_char (c : ascii) (n : nat) : string :=
  match n with
  | O => EmptyString
  | S k => String c (repeat_char c k)
  end.

(** [s.zfill(width)] for unsigned digit strings. *)
Definition zfill (width : nat) (s : string) : string :=
  repeat_char "0"%char (width - String.length s) ++ s.

Definition sign_prefix (s : bool) : string := if s then "-" else "".

(** The digits of [k = round(|x| * 10^digits)] laid out in fixed point. *)
Definition fixed_point (digits : nat) (k : Z) : string :=
  let p := 10 ^ Z.of_nat digits in
  match digits with
  | O => PyInt.to_string k
  | _ => PyInt.to_string (k / p) ++ "." ++ zfill digits (PyInt.to_string (k mod p))
  end.

(** [format(x, ".<digits>f")]: correctly rounded fixed-point text. *)
Definition format_f (digits : nat) (x : float) : string :=
  match Prim2SF x with
  | S754_nan => "nan"
  | S754_infinity s => sign_prefix s ++ "inf"
  | S754_zero s => sign_prefix s ++ fixed_point digits 0
  | S754_finite s m e =>
      sign_prefix s ++ fixed_point digits (PyNum.scaled_rhe (Z.of_nat digits) m e)
  end.

End PyStr.

Definition is_digit (c : ascii) : bool :=
  let n := nat_of_ascii c in ((48 <=? n) && (n <=? 57))%nat.

(** ** Floats as text *)

Module PyFloat.

(** [10^k <= n / d], for [0 < d]. *)
Definition pow10_le (k n d : Z) : bool :=
  if 0 <=? k then 10 ^ k * d <=? n else d <=? n * 10 ^ (- k).

(** Raise the estimate [k] while [10^(k+1) <= n / d]. *)
Fixpoint raise_log10 (fuel : nat) (k n d : Z) : Z :=
  match fuel with
  | O => k
  | S fuel' => if pow10_le (k + 1) n d then raise_log10 fuel' (k + 1) n d else k
  end.

(** The [k] with [10^k <= n / d < 10^(k+1)], for [0 < n] and [0 < d]. *)
Definition floor_log10 (n d : Z) : Z :=
  raise_log10 4 ((Z.log2 n - Z.log2 d - 1) * 30103 / 100000 - 1) n d.

(** [n / d / 10^p] as a fraction. *)
Definition shifted (n d p : Z) : Z * Z :=
  if 0 <=? p then (n, d * 10 ^ p) else (n * 10 ^ (- p), d).

(** The float nearest to [c * 10^p]. *)
Definition of_decimal (s : bool) (c p : Z) : float :=
  if 0 <=? p then PyNum.nearest_float s (c * 10 ^ p) 1
  else PyNum.nearest_float s c (10 ^ (- p)).

(** Does the decimal [c * 10^p] read back as [x]? *)
Definition reads_back (x : float) (c p : Z) : bool :=
  PrimFloat.eqb (of_decimal false c p) x.

(** The shortest decimal [c * 10^p] that reads back as [x = n / d > 0],
    looked for with [nd], [nd + 1], ... digits; with 17 digits the nearest
    decimal is taken. *)
Fixpoint shortest (fuel : nat) (nd : Z) (x : float) (n d k : Z) : Z * Z :=
  let p := k - nd + 1 in
  let (a, b) := shifted n d p in
  let near := PyNum.rhe_div a b in
  let low := a / b in
  let other := if near =? low then low + 1 else low in
  match fuel with
  | O => (near, p)
  | S fuel' =>
      if reads_back x near p then (near, p)
      else if reads_back x other p then (other, p)
      else shortest fuel' (nd + 1) x n d k
  end.

(** Drop the zeros a decimal ends with. *)
Fixpoint strip_zeros (fuel : nat) (c p : Z) : Z * Z :=
  match fuel with
  | O => (c, p)
  | S fuel' =>
      if (c mod 10 =? 0) && negb (c =? 0) then strip_zeros fuel' (c / 10) (p + 1)
      else (c, p)
  end.

(** The digits of the shortest decimal for the finite [m * 2^e], and the
    position of the decimal point relative to their start. *)
Definition digits_of (x : float) (m : positive) (e : Z) : string * Z :=
  let n := if 0 <=? e then Zpos m * 2 ^ e else Zpos m in
  let d := if 0 <=? e then 1 else 2 ^ (- e) in
  let (c0, p0) := shortest 16 1 (PrimFloat.abs x) n d (floor_log10 n d) in
  let (c, p) := strip_zeros 17 c0 p0 in
  let ds := PyInt.to_string c in
  (ds, Z.of_nat (String.length ds) + p).

Definition zeros (n : Z) : string := PyStr.repeat_char "0"%char (Z.to_nat n).

(** Digits [ds] with the point after the first [decpt] of them:
    [repr] style, fixed notation when [-4 < decpt <= 16]. *)
Definition layout (ds : string) (decpt : Z) : string :=
  let nd := Z.of_nat (String.length ds) in
  if (-4 <? decpt) && (decpt <=? 16) then
    if decpt <=? 0 then "0." ++ zeros (- decpt) ++ ds
    else if nd <=? decpt then ds ++ zeros (decpt - nd) ++ ".0"
    else substring 0 (Z.to_nat decpt) ds ++ "." ++
         substring (Z.to_nat decpt) (Z.to_nat (nd - decpt)) ds
  else
    let ex := decpt - 1 in
    substring 0 1 ds ++
    (if 1 <? nd then "." ++ substring 1 (Z.to_nat (nd - 1)) ds else "") ++
    "e" ++ (if ex <? 0 then "-" else "+") ++
    PyStr.zfill 2 (PyInt.to_string (Z.abs ex)).

(** [repr(x)]: the shortest text that reads back as [x]. *)
Definition repr (x : float) : string :=
  match Prim2SF x with
  | S754_nan => "nan"
  | S754_infinity s => PyStr.sign_prefix s ++ "inf"
  | S754_zero s => PyStr.sign_prefix s ++ "0.0"
  | S754_finite s m e =>
      let (ds, decpt) := digits_of x m e in
      PyStr.sign_prefix s ++ layout ds decpt
  end.

(** Split [s] at the first character for which [f] holds. *)
Fixpoint break_at (f : ascii -> bool) (s : string) : string * option string :=
  match s with
  | EmptyString => (EmptyString, None)
  | String c t =>
      if f c then (EmptyString, Some t)
      else let (a, b) := break_at f t in (String c a, b)
  end.

Definition all_digits (s : string) : bool :=
  forallb is_digit (list_ascii_of_string s).

(** Unsigned decimal text to a number. *)
Definition digits_value (s : string) : option Z :=
  if all_digits s then
    match s with
    | EmptyString => Some 0
    | _ => PyInt.of_string s
    end
  else None.

(** The exponent part: [None] when there is none is 0. *)
Definition exponent_value (ex : option string) : option Z :=
  match ex with
  | None => Some 0
  | Some (String "-" t) =>
      if negb (String.eqb t "") then option_map Z.opp (digits_value t) else None
  | Some (String "+" t) =>
      if negb (String.eqb t "") then digits_value t else None
  | Some t => if negb (String.eqb t "") then digits_value t else None
  end.

(** Unsigned decimal text with an optional fraction and exponent. *)
Definition magnitude (s : bool) (t : string) : option float :=
  let (mant, ex) := break_at (fun c => Ascii.eqb c "e" || Ascii.eqb c "E") t in
  let (ip, fp) := break_at (fun c => Ascii.eqb c ".") mant in
  let fr := match fp with Some f => f | None => EmptyString end in
  if (String.length ip + String.length fr =? 0)%nat then None else
  match digits_value (ip ++ fr), exponent_value ex with
  | Some c, Some e10 => Some (of_decimal s c (e10 - Z.of_nat (String.length fr)))
  | _, _ => None
  end.

(** [float(s)] for the texts [repr] writes: optional sign, then [inf],
    [nan], or decimal digits with optional fraction and exponent. *)
Definition of_string (s : string) : option float :=
  let (sign, t) :=
    match s with
    | String "-" t => (true, t)
    | String "+" t => (false, t)
    | _ => (false, s)
    end in
  if String.eqb t "inf" then Some (if sign then neg_infinity else infinity)
  else if String.eqb t "nan" then Some nan
  else magnitude sign t.

End PyFloat.

(** ** Data model *)

Definition bytes := list Byte.byte.

Record Box := { box_x : Z; box_y : Z; box_w : Z; box_h : Z }.

(** One face of the detector's output.  [emotions] is a dict; its items are
    listed in iteration (insertion) order, which is what [max] scans. *)
Record DetectionResult := {
  box : Box;
  emotions : list (string * float)
}.

(** The dict appended to [st.session_state.history]. *)
Module Entry.
Record t := {
  timestamp : string;
  face : Z;
  emotion : string;
  confidence : float
}.
End Entry.

(** The dict appended to [cards]. *)
Module Card.
Record t := {
  index : Z;
  emotion : string;
  confidence : float;
  message : string
}.
End Card.

(** What [datetime.now()] returns. *)
Record DateTime := {
  year : Z; month : Z; day : Z;
  hour : Z; minute : Z; second : Z;
  microsecond : Z
}.

(** [d.strftime("%Y-%m-%d %H:%M:%S")]. *)
Definition strftime_ymd_hms (d : DateTime) : string :=
  PyStr.zfill 4 (PyInt.to_string (year d)) ++ "-" ++
  PyStr.zfill 2 (PyInt.to_string (month d)) ++ "-" ++
  PyStr.zfill 2 (PyInt.to_string (day d)) ++ " " ++
  PyStr.zfill 2 (PyInt.to_string (hour d)) ++ ":" ++
  PyStr.zfill 2 (PyInt.to_string (minute d)) ++ ":" ++
  PyStr.zfill 2 (PyInt.to_string (second d)).

(** The ranges of the fields of a [datetime]. *)
Definition valid_datetime (d : DateTime) : Prop :=
  1 <= year d <= 9999 /\ 1 <= month d <= 12 /\ 1 <= day d <= 31 /\
  0 <= hour d <= 23 /\ 0 <= minute d <= 59 /\ 0 <= second d <= 59 /\
  0 <= microsecond d <= 999999.

(** [s] has the shape [pattern]: a [d] in the pattern stands for one decimal
    digit, any other character for itself. *)
Fixpoint shape_matches (pattern s : string) : bool :=
  match pattern, s with
  | EmptyString, EmptyString => true
  | String p pattern', String c s' =>
      (if Ascii.eqb p "d" then is_digit c else Ascii.eqb p c)
      && shape_matches pattern' s'
  | _, _ => false
  end.

(** [P] holds of [0], ..., [n - 1]. *)
Fixpoint forall_below (n : nat) (P : Z -> bool) : bool :=
  match n with
  | O => true
  | S k => P (Z.of_nat k) && forall_below k P
  end.

(** Text of the form [2026-10-12 14:03:05]. *)
Definition timestamp_shape (s : string) : bool :=
  shape_matches "dddd-dd-dd dd:dd:dd" s.

(** The last decimal digit of [n], as a character. *)
Definition digit_char (n : Z) : ascii := ascii_of_nat (48 + Z.to_nat (n mod 10)).

(** The last two and the last four decimal digits of [n]. *)
Definition decimal2 (n : Z) : string :=
  String (digit_char (n / 10)) (String (digit_char n) EmptyString).

Definition decimal4 (n : Z) : string :=
  String (digit_char (n / 1000)) (String (digit_char (n / 100)) (decimal2 n)).

(** The format [%Y-%m-%d %H:%M:%S] as the specification describes it,
    written out digit by digit: four digits of the year, two of the month
    and of the day, a space, and two each of hour, minute and second.
    Nothing of the text comes from the microseconds. *)
Definition ymd_hms_text (d : DateTime) : string :=
  decimal4 (year d) ++ "-" ++ decimal2 (month d) ++ "-" ++ decimal2 (day d) ++ " " ++
  decimal2 (hour d) ++ ":" ++ decimal2 (minute d) ++ ":" ++ decimal2 (second d).

(** ** Emotion message text *)

Definition messages : list (string * string) :=
  [ ("happy", "😊 You're radiating joy!");
    ("sad", "😢 It's okay to feel down sometimes.");
    ("angry", "😠 Breathe deep. You're strong.");
    ("fear", "😨 You're safe and supported.");
    ("surprise", "😮 Something unexpected?");
    ("neutral", "😐 Steady and balanced.");
    ("disgust", "😖 Something doesn't feel right.") ].

Fixpoint dict_get {V : Type} (d : list (string * V)) (k : string) : option V :=
  match d with
  | [] => None
  | (k', v) :: rest => if String.eqb k' k then Some v else dict_get rest k
  end.

(** [get_message] (main.py, lines 34-43): the text for a known emotion, and
    a text built from the name for any other. *)
Definition get_message (emotion : string) : string :=
  match dict_get messages emotion with
  | Some m => m
  | None => "😐 You seem " ++ emotion ++ "."
  end.

(** ** [max(emotions.items(), key=lambda x: x[1])] *)

(** [max] keeps the first item and replaces it only by a strictly greater
    one, so among equal maxima the first wins. *)
Fixpoint max_scan (best : string * float) (rest : list (string * float)) : string * float :=
  match rest with
  | [] => best
  | item :: tl =>
      if PyNum.gt (snd item) (snd best) then max_scan item tl else max_scan best tl
  end.

Definition max_item (items : list (string * float)) : exn + (string * float) :=
  match items with
  | [] => inl (ValueError "max() arg is an empty sequence")
  | first :: tl => inr (max_scan first tl)
  end.

(** ** Comma-separated text *)

Module Csv.

Definition comma : ascii := ","%char.
Definition dquote : ascii := ascii_of_nat 34.
Definition lf : ascii := ascii_of_nat 10.
Definition cr : ascii := ascii_of_nat 13.

Definition special (c : ascii) : bool :=
  Ascii.eqb c comma || Ascii.eqb c dquote || Ascii.eqb c lf || Ascii.eqb c cr.

Fixpoint has_special (s : string) : bool :=
  match s with
  | EmptyString => false
  | String c t => special c || has_special t
  end.

(** Every quote character doubled. *)
Fixpoint escape (s : string) : string :=
  match s with
  | EmptyString => EmptyString
  | String c t =>
      if Ascii.eqb c dquote then String dquote (String dquote (escape t))
      else String c (escape t)
  end.

(** A field as the writer puts it down: quoted only when it has to be. *)
Definition field (s : string) : string :=
  if has_special s then String dquote (escape s ++ String dquote EmptyString) else s.

Fixpoint join (fields : list string) : string :=
  match fields with
  | [] => EmptyString
  | [f] => f
  | f :: rest => f ++ String comma (join rest)
  end.

(** One line of the file. *)
Definition row (fields : list string) : string :=
  join (map field fields) ++ String lf EmptyString.

Fixpoint rows (rs : list (list string)) : string :=
  match rs with
  | [] => EmptyString
  | r :: rest => row r ++ rows rest
  end.

Inductive State := FieldStart | Unquoted | Quoted | QuoteSeen.

Definition cons_row (r : list string) (rest : option (list (list string)))
  : option (list (list string)) :=
  option_map (cons r) rest.

(** The reader: [st] is where it stands, [fld] the field read so far, [r]
    the fields of the line read so far. *)
Fixpoint read (st : State) (fld : string) (r : list string) (s : string)
  : option (list (list string)) :=
  match s with
  | EmptyString =>
      match st, r with
      | FieldStart, [] => Some []
      | Quoted, _ => None
      | _, _ => Some [(r ++ [fld])%list]
      end
  | String c t =>
      match st with
      | FieldStart =>
          if Ascii.eqb c dquote then read Quoted EmptyString r t
          else if Ascii.eqb c comma then read FieldStart EmptyString (r ++ [EmptyString]) t
          else if Ascii.eqb c lf then
            cons_row (r ++ [EmptyString]) (read FieldStart EmptyString [] t)
          else read Unquoted (String c EmptyString) r t
      | Unquoted =>
          if Ascii.eqb c comma then read FieldStart EmptyString (r ++ [fld]) t
          else if Ascii.eqb c lf then
            cons_row (r ++ [fld]) (read FieldStart EmptyString [] t)
          else read Unquoted (fld ++ String c EmptyString) r t
      | Quoted =>
          if Ascii.eqb c dquote then read QuoteSeen fld r t
          else read Quoted (fld ++ String c EmptyString) r t
      | QuoteSeen =>
          if Ascii.eqb c dquote then read Quoted (fld ++ String dquote EmptyString) r t
          else if Ascii.eqb c comma then read FieldStart EmptyString (r ++ [fld]) t
          else if Ascii.eqb c lf then
            cons_row (r ++ [fld]) (read FieldStart EmptyString [] t)
          else None
      end
  end.

(** Where the reader goes on after a field that ended with [sep]. *)
Definition after (sep : ascii) (r : list string) (rest : string)
  : option (list (list string)) :=
  if Ascii.eqb sep comma then read FieldStart EmptyString r rest
  else cons_row r (read FieldStart EmptyString [] rest).

(** The lines of a file, each a list of fields. *)
Definition parse (s : string) : option (list (list string)) :=
  read FieldStart EmptyString [] s.

End Csv.

(** ** The table that is exported *)

Module Pandas.

Inductive Cell := Str (s : string) | Int (n : Z) | Float (x : float).

Record DataFrame := { columns : list string; rows : list (list Cell) }.

(** A float in a CSV file: [repr], and nothing for NaN. *)
Definition float_text (x : float) : string :=
  if PrimFloat.is_nan x then EmptyString else PyFloat.repr x.

Definition cell_text (c : Cell) : string :=
  match c with
  | Str s => s
  | Int n => PyInt.to_string n
  | Float x => float_text x
  end.

(** [df.to_csv(index=False)] as text: the header line, then one line per
    row. *)
Definition to_csv (df : DataFrame) : string :=
  Csv.rows (columns df :: map (map cell_text) (rows df)).

End Pandas.

Definition history_columns : list string :=
  ["timestamp"; "face"; "emotion"; "confidence"].

(** [pd.DataFrame(history)] for a list of entry dicts: the columns are the
    keys of the dicts, in their order. *)
Definition history_frame (h : list Entry.t) : Pandas.DataFrame :=
  {| Pandas.columns := match h with [] => [] | _ :: _ => history_columns end;
     Pandas.rows :=
       map (fun e => [ Pandas.Str (Entry.timestamp e);
                       Pandas.Int (Entry.face e);
                       Pandas.Str (Entry.emotion e);
                       Pandas.Float (Entry.confidence e) ]) h |}.

(** The four fields of the line written for an entry. *)
Definition fields_of_entry (e : Entry.t) : list string :=
  [ Entry.timestamp e;
    PyInt.to_string (Entry.face e);
    Entry.emotion e;
    Pandas.float_text (Entry.confidence e) ].

(** The text written for the confidence reads back as the same float
    (as [float(repr(x)) == x] promises for every float but NaN). *)
Definition reads_back (e : Entry.t) : Prop :=
  PyFloat.of_string (Pandas.float_text (Entry.confidence e))
  = Some (Entry.confidence e).

(** An entry whose confidence is what the analysis logs for a percentage:
    [round(conf, 2)] for a number [conf] from 0 to 100. *)
Definition percent_entry (e : Entry.t) : Prop :=
  exists conf : float,
    PyNum.ge conf 0 = true /\ PyNum.ge 100 conf = true /\
    Entry.confidence e = PyNum.round_ndigits conf 2.

(** The text written for [k / 100] reads back as the same float. *)
Definition hundredth_reads_back (k : Z) : bool :=
  let x := PyNum.nearest_float false k 100 in
  match PyFloat.of_string (Pandas.float_text x) with
  | Some y => PrimFloat.Leibniz.eqb y x
  | None => false
  end.

(** Reading an entry back from the four fields of a line. *)
Definition entry_of_fields (fields : list string) : option Entry.t :=
  match fields with
  | [ts; fc; em; cf] =>
      match PyInt.of_string fc, PyFloat.of_string cf with
      | Some n, Some x =>
          Some {| Entry.timestamp := ts; Entry.face := n;
                  Entry.emotion := em; Entry.confidence := x |}
      | _, _ => None
      end
  | _ => None
  end.

Fixpoint entries_of_lines (ls : list (list string)) : option (list Entry.t) :=
  match ls with
  | [] => Some []
  | l :: rest =>
      match entry_of_fields l, entries_of_lines rest with
      | Some e, Some es => Some (e :: es)
      | _, _ => None
      end
  end.

(** Re-parsing an exported file: the header line must name the four
    columns in their order; every other line gives one entry. *)
Definition parse_history (text : string) : option (list Entry.t) :=
  match Csv.parse text with
  | Some (header :: ls) =>
      if list_eq_dec string_dec header history_columns then entries_of_lines ls
      else None
  | _ => None
  end.

(** ** Frames and drawing *)

Inductive Font := FONT_HERSHEY_SIMPLEX.

(** The two OpenCV calls that write into a frame. *)
Inductive DrawOp : Type :=
| Rectangle (pt1 pt2 : Z * Z) (color : Z * Z * Z) (thickness : Z)
| PutText (text : string) (org : Z * Z) (font : Font) (scale : float)
          (color : Z * Z * Z) (thickness : Z).

(** A numpy frame over pixel data of type [matrix]: the pixels it was
    created with and, in order, the drawing calls that have written into it
    since. *)
Record Frame (matrix : Type) := {
  pixels : matrix;
  overlay : list DrawOp
}.

Arguments pixels {matrix} _.
Arguments overlay {matrix} _.

Definition fresh_frame {matrix : Type} (m : matrix) : Frame matrix :=
  {| pixels := m; overlay := [] |}.

(** ** What the script gets from outside *)

Class Externals (matrix : Type) := {
  (** [cv2.imdecode(np.frombuffer(b, np.uint8), cv2.IMREAD_COLOR)]: [None]
      when the bytes are not an image; OpenCV raises on an empty buffer. *)
  imdecode : bytes -> exn + option matrix;
  (** [cv2.imencode(".jpg", frame)[1].tobytes()] *)
  imencode_jpg : Frame matrix -> bytes;
  (** [detector.detect_emotions(img)], on whatever [imdecode] returned. *)
  detect_emotions : option matrix -> exn + list DetectionResult;
  (** The wall clock counts microseconds; [calendar t] is the local date and
      time at instant [t]. *)
  calendar : N -> DateTime;
  (** Time that has passed, unobserved, before the k-th clock event of the
      session (a reading or a sleep). *)
  elapse : nat -> N;
  (** The k-th [cap.read()] of the session: a frame, or a failed read. *)
  camera : nat -> option matrix
}.

(** ** What the page shows *)

Inductive Tab := Home | Upload | Capture | Live.

(** Where an element goes: the page itself, or one of the [st.empty()]
    placeholders of the Live tab. *)
Inductive Container := Page | FrameSpace | CardSpace.

Inductive Widget (matrix : Type) : Type :=
| Subheader (text : string)
| Markdown (text : string) (unsafe_allow_html : bool)
| Image (img : option (Frame matrix))
| CardWidget (title description variant : string)
| ErrorBox (text : string)
| SuccessBox (text : string)
| ExceptionBox (e : exn).

Arguments Subheader {matrix} _.
Arguments Markdown {matrix} _ _.
Arguments Image {matrix} _.
Arguments CardWidget {matrix} _ _ _.
Arguments ErrorBox {matrix} _.
Arguments SuccessBox {matrix} _.
Arguments ExceptionBox {matrix} _.

(** What the script does to camera 0, and its sleeps. *)
Inductive Event := CamOpen | CamRead (ok : bool) | CamRelease | Sleep (seconds : N).

(** ** Camera protocol *)






(** ** Session state and the world around it *)

Record World (matrix : Type) := {
  history : list Entry.t;                 (* st.session_state.history *)
  time : N;                               (* wall clock, microseconds *)
  clock_events : nat;
  events : list Event;                    (* oldest event first *)
  cam_reads : nat;
  container : Container;                  (* where st.* calls render now *)
  ui : list (Container * Widget matrix);  (* render calls, oldest first *)
  files : string -> option string         (* the working directory *)
}.

Arguments history {matrix} _.
Arguments time {matrix} _.
Arguments clock_events {matrix} _.
Arguments events {matrix} _.
Arguments cam_reads {matrix} _.
Arguments container {matrix} _.
Arguments ui {matrix} _.
Arguments files {matrix} _.

Set Warnings "-inexact-float".

Section Dashboard.

Context {matrix : Type} `{Externals matrix}.

Abbreviation World := (World matrix).
Abbreviation Frame := (Frame matrix).
Abbreviation Widget := (Widget matrix).

Definition with_history (h : list Entry.t) (w : World) : World :=
  {| history := h; time := time w; clock_events := clock_events w;
     events := events w; cam_reads := cam_reads w;
     container := container w; ui := ui w; files := files w |}.

Definition with_clock (t : N) (k : nat) (w : World) : World :=
  {| history := history w; time := t; clock_events := k;
     events := events w; cam_reads := cam_reads w;
     container := container w; ui := ui w; files := files w |}.

Definition with_events (l : list Event) (n : nat) (w : World) : World :=
  {| history := history w; time := time w; clock_events := clock_events w;
     events := l; cam_reads := n;
     container := container w; ui := ui w; files := files w |}.

Definition with_container (c : Container) (w : World) : World :=
  {| history := history w; time := time w; clock_events := clock_events w;
     events := events w; cam_reads := cam_reads w;
     container := c; ui := ui w; files := files w |}.

Definition with_ui (u : list (Container * Widget)) (w : World) : World :=
  {| history := history w; time := time w; clock_events := clock_events w;
     events := events w; cam_reads := cam_reads w;
     container := container w; ui := u; files := files w |}.

Definition with_files (f : string -> option string) (w : World) : World :=
  {| history := history w; time := time w; clock_events := clock_events w;
     events := events w; cam_reads := cam_reads w;
     container := container w; ui := ui w; files := f |}.

(** A computation either returns or raises; what it did to the world before
    raising stays done. *)
Definition M (A : Type) : Type := World -> (exn + A) * World.

Definition ret {A} (a : A) : M A := fun w => (inr a, w).

Definition bind {A B} (c : M A) (k : A -> M B) : M B :=
  fun w =>
    match c w with
    | (inr a, w') => k a w'
    | (inl e, w') => (inl e, w')
    end.

Definition lift {A} (r : exn + A) : M A := fun w => (r, w).

Definition update (f : World -> World) : M unit := fun w => (inr tt, f w).

Notation "x <- c ;; k" := (bind c (fun x => k))
  (at level 61, c at next level, right associativity).
Notation "c ;;; k" := (bind c (fun _ => k))
  (at level 61, right associativity).

(** *** Clock *)

Definition us_per_second : N := 1000000.

(** Let the time pass that the environment says has passed. *)
Definition observe (w : World) : World :=
  with_clock (time w + elapse (clock_events w))%N (S (clock_events w)) w.

(** [time.time()], in microseconds. *)
Definition time_time : M N :=
  fun w => let w' := observe w in (inr (time w'), w').

(** [datetime.now()] *)
Definition datetime_now : M DateTime :=
  fun w => let w' := observe w in (inr (calendar (time w')), w').

(** [time.sleep(seconds)]: at least that long. *)
Definition time_sleep (seconds : N) : M unit :=
  fun w =>
    let w' := observe w in
    (inr tt,
     with_events (events w' ++ [Sleep seconds]) (cam_reads w')
       (with_clock (time w' + seconds * us_per_second)%N (clock_events w') w')).

(** *** Emotion analyzer *)

Definition default_threshold : float := 50.

Definition history_append (e : Entry.t) : M unit :=
  update (fun w => with_history (history w ++ [e]) w).

(** The label of [cv2.putText]: [f"{mood.capitalize()} ({conf:.1f}%)"]. *)
Definition face_label (mood : string) (conf : float) : string :=
  PyStr.capitalize mood ++ " (" ++ PyStr.format_f 1 conf ++ "%)".

(** The two drawing calls for one face. *)
Definition face_drawing (b : Box) (mood : string) (conf : float) : list DrawOp :=
  let x := box_x b in
  let y := box_y b in
  let w := box_w b in
  let h := box_h b in
  [ Rectangle (x, y) (x + w, y + h) (0, 255, 0) 2;
    PutText (face_label mood conf) (x, y - 10) FONT_HERSHEY_SIMPLEX 0.6
            (255, 255, 255) 2 ].

(** [if frame is not None:] draw into it. *)
Definition annotate (frame : option Frame) (b : Box) (mood : string) (conf : float)
  : option Frame :=
  match frame with
  | None => None
  | Some f =>
      Some {| pixels := pixels f; overlay := overlay f ++ face_drawing b mood conf |}
  end.

(** The [for i, result in enumerate(results)] loop; [i] is the position of
    the head of [results], [cards] and [frame] are the values built so far. *)
Fixpoint for_results (threshold : float) (i : Z) (results : list DetectionResult)
         (frame : option Frame) (cards : list Card.t)
  : M (list Card.t * option Frame) :=
  match results with
  | [] => ret (cards, frame)
  | result :: rest =>
      item <- lift (max_item (emotions result)) ;;
      let mood := fst item in
      let conf := (snd item * 100)%float in
      if PyNum.lt conf threshold then
        for_results threshold (i + 1) rest frame cards
      else
        now <- datetime_now ;;
        history_append {| Entry.timestamp := strftime_ymd_hms now;
                          Entry.face := i + 1;
                          Entry.emotion := mood;
                          Entry.confidence := PyNum.round_ndigits conf 2 |} ;;;
        for_results threshold (i + 1) rest
          (annotate frame (box result) mood conf)
          (cards ++ [ {| Card.index := i + 1;
                         Card.emotion := mood;
                         Card.confidence := conf;
                         Card.message := get_message mood |} ])
  end.

(** [analyze_emotions] (main.py, lines 48-82). *)
Definition analyze_emotions (image_bytes : bytes) (frame : option Frame)
           (threshold : float) : M (list Card.t * option Frame) :=
  img <- lift (imdecode image_bytes) ;;
  results <- lift (detect_emotions img) ;;
  for_results threshold 0 results frame [].

(** *** Display emotion cards *)

Definition render (x : Widget) : M unit :=
  update (fun w => with_ui (ui w ++ [(container w, x)]) w).

Definition nl : string := String (ascii_of_nat 10) EmptyString.

(** The confidence bar, as the f-string of [display_cards] lays it out. *)
Definition confidence_bar (width : Z) (label : string) : string :=
  nl ++
  "            <div style='background:#eee;border-radius:6px;overflow:hidden;width:100%;'>"
  ++ nl ++
  "              <div style='background:#90caf9;width:" ++ PyInt.to_string width ++
    "%;padding:6px;color:black;text-align:center;'>" ++ nl ++
  "                Confidence: " ++ label ++ "%" ++ nl ++
  "              </div>" ++ nl ++
  "            </div>" ++ nl ++
  "            ".

(** The four elements shown for a card whose bar is [width] percent wide. *)
Definition card_widgets (c : Card.t) (width : Z) : list Widget :=
  [ Markdown "---" false;
    Markdown ("**Emotion:** `" ++ PyStr.capitalize (Card.emotion c) ++ "`") false;
    Markdown (confidence_bar width (PyStr.format_f 1 (Card.confidence c))) true;
    CardWidget ("Face " ++ PyInt.to_string (Card.index c)) (Card.message c) "ghost" ].

(** The body of [for c in cards]. *)
Definition display_card (c : Card.t) : M unit :=
  render (Markdown "---" false) ;;;
  render (Markdown ("**Emotion:** `" ++ PyStr.capitalize (Card.emotion c) ++ "`") false) ;;;
  width <- lift (PyInt.of_float (Card.confidence c)) ;;
  render (Markdown (confidence_bar width (PyStr.format_f 1 (Card.confidence c))) true) ;;;
  render (CardWidget ("Face " ++ PyInt.to_string (Card.index c)) (Card.message c) "ghost").

(** [display_cards] (main.py, lines 87-101). *)
Fixpoint display_cards (cards : list Card.t) : M unit :=
  match cards with
  | [] => ret tt
  | c :: rest => display_card c ;;; display_cards rest
  end.

(** [with placeholder: body]: elements go to the placeholder while [body]
    runs, and to the previous container afterwards, also when it raises. *)
Definition within {A} (c : Container) (body : M A) : M A :=
  fun w =>
    let (r, w') := body (with_container c w) in
    (r, with_container (container w) w').

(** *** Camera 0 *)

Definition log_event (e : Event) : M unit :=
  update (fun w => with_events (events w ++ [e]) (cam_reads w) w).

(** [cap = cv2.VideoCapture(0)] *)
Definition video_capture : M unit := log_event CamOpen.

(** [ret, frame = cap.read()]; [None] stands for a false [ret]. *)
Definition cap_read : M (option Frame) :=
  fun w =>
    let r := camera (cam_reads w) in
    let ok := match r with Some _ => true | None => false end in
    (inr (option_map fresh_frame r),
     with_events (events w ++ [CamRead ok]) (S (cam_reads w)) w).

(** [cap.release()] *)
Definition cap_release : M unit := log_event CamRelease.

(** *** Upload tab (main.py, lines 106-114) *)

Definition upload_tab (uploaded : option bytes) : M unit :=
  render (Subheader "🖼 Upload Image") ;;;
  match uploaded with
  | None => ret tt
  | Some image_bytes =>
      img <- lift (imdecode image_bytes) ;;
      let frame := option_map fresh_frame img in
      r <- analyze_emotions image_bytes frame default_threshold ;;
      render (Image (snd r)) ;;;
      display_cards (fst r)
  end.

(** *** Capture tab (main.py, lines 119-133) *)

Definition capture_tab (snap : bool) : M unit :=
  render (Subheader "📷 Capture Image") ;;;
  if snap then
    video_capture ;;;
    time_sleep 1 ;;;
    frame <- cap_read ;;
    cap_release ;;;
    match frame with
    | Some f =>
        let image_bytes := imencode_jpg f in
        r <- analyze_emotions image_bytes (Some f) default_threshold ;;
        render (Image (snd r)) ;;;
        display_cards (fst r)
    | None => render (ErrorBox "Failed to capture image.")
    end
  else ret tt.

(** *** Live tab (main.py, lines 138-161) *)

(** How the [while] loop was left. *)
Inductive LoopExit := BudgetElapsed | ReadFailed | Unfinished.

Definition live_budget : N := 60 * us_per_second.

(** What one pass of the loop does with the frame it has read. *)
Definition live_frame (f : Frame) : M unit :=
  let image_bytes := imencode_jpg f in
  r <- analyze_emotions image_bytes (Some f) default_threshold ;;
  within FrameSpace (render (Image (snd r))) ;;;
  within CardSpace (display_cards (fst r)) ;;;
  time_sleep 5.

(** The [while time.time() - start < 60] loop.  [fuel] bounds the number of
    times the condition is evaluated; [Unfinished] is returned when it is
    used up. *)
Fixpoint live_loop (fuel : nat) (start : N) : M LoopExit :=
  match fuel with
  | O => ret Unfinished
  | S fuel' =>
      t <- time_time ;;
      if (t - start <? live_budget)%N then
        frame <- cap_read ;;
        match frame with
        | None => render (ErrorBox "Webcam error.") ;;; ret ReadFailed
        | Some f =>
            live_frame f ;;;
            live_loop fuel' start
        end
      else ret BudgetElapsed
  end.

(** Every pass sleeps 5 of the 60 seconds, so the condition is evaluated at
    most 13 times. *)
Definition live_fuel : nat := 13.

(** [cv2.destroyAllWindows()] has no window to close and is left out. *)
Definition live_tab (start_live : bool) : M unit :=
  render (Subheader "🎥 Live Webcam Feed (60 sec)") ;;;
  if start_live then
    video_capture ;;;
    start <- time_time ;;
    live_loop live_fuel start ;;;
    cap_release ;;;
    render (SuccessBox "✅ Live analysis ended.")
  else ret tt.

(** *** Home tab and export (main.py, lines 166-173) *)

Definition export_path : string := "emotion_history.csv".

(** Opening a file for writing and writing [text]: whatever the file held
    is gone. *)
Definition write_file (path text : string) : M unit :=
  update (fun w =>
    with_files (fun q => if String.eqb q path then Some text else files w q) w).

Definition home_tab (export : bool) : M unit :=
  render (Markdown "### 🧭 Dashboard" false) ;;;
  render (Markdown
    "Select a tab to analyze emotions via image, webcam capture, or live feed."
    false) ;;;
  h <- (fun w => (inr (history w), w)) ;;
  if 0 <? Z.of_nat (List.length h) then
    if export then
      let df := history_frame h in
      write_file export_path (Pandas.to_csv df) ;;;
      render (SuccessBox "✅ Exported as emotion_history.csv")
    else ret tt
  else ret tt.

(** *** The script *)

(** What the widgets return in one run of the script. *)
Record Inputs := {
  dark_mode : bool;
  tab : Tab;
  uploaded : option bytes;
  snap : bool;
  start_live : bool;
  export : bool
}.

Definition dark_style : string :=
  "<style>body{background-color:#121212; color:white;}</style>".

(** The top level of main.py: the dark-mode toggle (lines 17-19) and the
    [if]/[elif] chain over the selected tab.  The page configuration, the
    construction of the detector and the creation of an empty history in a
    new session (lines 15, 24-27) are part of the starting world. *)
Definition script (i : Inputs) : M unit :=
  (if dark_mode i then render (Markdown dark_style true) else ret tt) ;;;
  match tab i with
  | Upload => upload_tab (uploaded i)
  | Capture => capture_tab (snap i)
  | Live => live_tab (start_live i)
  | Home => home_tab (export i)
  end.

(** One interaction under Streamlit, which runs the script from the top.
    An exception that escapes the script ends that run and is shown on the
    page; the session, with its state, goes on. *)
Definition run (i : Inputs) (w : World) : World :=
  match script i w with
  | (inr _, w') => w'
  | (inl e, w') => with_ui (ui w' ++ [(Page, ExceptionBox e)]) w'
  end.

End Dashboard.

(** ** The analysis as a function of the detector's output *)

Section Outcome.

Context {matrix : Type} `{Externals matrix}.

(** What decoding and detection make of the bytes of an image. *)
Definition detection (image_bytes : bytes) : exn + list DetectionResult :=
  match imdecode image_bytes with
  | inl e => inl e
  | inr img => detect_emotions img
  end.

(** The elements rendered before the tab block. *)
Definition preamble (i : Inputs) : list (Widget matrix) :=
  if dark_mode i then [Markdown dark_style true] else [].

(** The bytes cannot be decoded to a pixel matrix, and [e] is the exception
    this ends in: OpenCV raises it, or OpenCV returns [None] and the
    detector, handed no image, raises it. *)
Definition undecodable (image_bytes : bytes) (e : exn) : Prop :=
  imdecode image_bytes = inl e \/
  (imdecode image_bytes = inr None /\ detect_emotions None = inl e).

(** The item [max] picks among the emotions of a face (a face with no
    emotion at all makes [max] raise; the default then stands for nothing). *)
Definition top (r : DetectionResult) : string * float :=
  match emotions r with
  | [] => (EmptyString, zero)
  | first :: tl => max_scan first tl
  end.

(** Top-emotion confidence: the largest probability times 100. *)
Definition top_confidence (r : DetectionResult) : float :=
  (snd (top r) * 100)%float.

(** The confidence meets the threshold: [confidence >= threshold]. *)
Definition meets (threshold : float) (r : DetectionResult) : bool :=
  PyNum.ge (top_confidence r) threshold.

(** [enumerate(l, start=i)] *)
Fixpoint enumerate_from {A : Type} (i : Z) (l : list A) : list (Z * A) :=
  match l with
  | [] => []
  | x :: tl => (i, x) :: enumerate_from (i + 1) tl
  end.

(** The faces that meet the threshold, each with its 0-based position. *)
Definition qualifying (threshold : float) (i : Z) (results : list DetectionResult)
  : list (Z * DetectionResult) :=
  filter (fun ir => meets threshold (snd ir)) (enumerate_from i results).

Definition card_of (ir : Z * DetectionResult) : Card.t :=
  {| Card.index := fst ir + 1;
     Card.emotion := fst (top (snd ir));
     Card.confidence := top_confidence (snd ir);
     Card.message := get_message (fst (top (snd ir))) |}.

Definition entry_of (now : DateTime) (ir : Z * DetectionResult) : Entry.t :=
  {| Entry.timestamp := strftime_ymd_hms now;
     Entry.face := fst ir + 1;
     Entry.emotion := fst (top (snd ir));
     Entry.confidence := PyNum.round_ndigits (top_confidence (snd ir)) 2 |}.

(** Reading the clock and logging one face. *)
Definition log_face (w : World matrix) (ir : Z * DetectionResult) : World matrix :=
  let w' := observe w in
  with_history (history w' ++ [entry_of (calendar (time w')) ir]) w'.

(** What the clock shows at the [k]-th reading taken after [w] (counting
    from 0). *)
Definition reading (w : World matrix) (k : nat) : N :=
  time (Nat.iter (S k) observe w).

(** The entries that logging the faces [faces], in order, adds from [w]. *)
Fixpoint new_entries (w : World matrix) (faces : list (Z * DetectionResult))
  : list Entry.t :=
  match faces with
  | [] => []
  | ir :: tl =>
      entry_of (calendar (time (observe w))) ir :: new_entries (log_face w ir) tl
  end.

(** The drawing calls made for one face. *)
Definition drawing_of (ir : Z * DetectionResult) : list DrawOp :=
  face_drawing (box (snd ir)) (fst (top (snd ir))) (top_confidence (snd ir)).

Definition draw_face (frame : option (Frame matrix)) (ir : Z * DetectionResult)
  : option (Frame matrix) :=
  annotate frame (box (snd ir)) (fst (top (snd ir))) (top_confidence (snd ir)).

(** One happy face. *)
Definition happy_face : DetectionResult :=
  {| box := {| box_x := 10; box_y := 10; box_w := 50; box_h := 50 |};
     emotions := [("happy", 0.82); ("sad", 0.10); ("neutral", 0.08)]%float |}.

(** A face whose top probability is 0.57. *)
Definition face_57 : DetectionResult :=
  {| box := {| box_x := 10; box_y := 10; box_w := 50; box_h := 50 |};
     emotions := [("happy", 0.57); ("neutral", 0.43)]%float |}.

(** Three faces of which the second stays below the default threshold. *)
Definition three_faces : list DetectionResult :=
  [ {| box := {| box_x := 10; box_y := 10; box_w := 50; box_h := 50 |};
       emotions := [("happy", 0.82); ("sad", 0.10); ("neutral", 0.08)]%float |};
    {| box := {| box_x := 80; box_y := 12; box_w := 40; box_h := 40 |};
       emotions := [("happy", 0.30); ("sad", 0.35); ("neutral", 0.35)]%float |};
    {| box := {| box_x := 150; box_y := 9; box_w := 45; box_h := 45 |};
       emotions := [("angry", 0.61); ("fear", 0.39)]%float |} ].

(** A face as the detector describes it: some emotions, each with a
    probability that is a number. *)
Definition well_formed (r : DetectionResult) : Prop :=
  emotions r <> [] /\ Forall (fun kv => PyNum.ordered (snd kv)) (emotions r).

(** A face the page can show: [int] accepts its confidence. *)
Definition presentable (r : DetectionResult) : Prop :=
  exists k : Z, PyInt.of_float (top_confidence r) = inr k.

(** Every frame the camera delivers can be analysed and shown: encoded and
    decoded again, the detector returns well-formed, presentable faces. *)
Definition camera_analysable : Prop :=
  forall f : Frame matrix,
  exists results,
    detection (imencode_jpg f) = inr results /\
    Forall well_formed results /\ Forall presentable results.

(** A step that leaves camera, page target and files alone and lets the
    clock run. *)
Definition quiet (w w' : World matrix) : Prop :=
  events w' = events w /\ cam_reads w' = cam_reads w /\
  container w' = container w /\ files w' = files w /\
  (time w <= time w')%N.

(** Whether it returns or raises, the computation [c] takes every world to
    one that is related to it by [R]. *)
Definition respects {A : Type} (R : World matrix -> World matrix -> Prop)
           (c : M (matrix := matrix) A) : Prop :=
  forall w, R w (snd (c w)).

(** Camera log and read counter are the same. *)
Definition same_camera (w w' : World matrix) : Prop :=
  events w' = events w /\ cam_reads w' = cam_reads w.

(** The clock has not gone back. *)
Definition not_earlier (w w' : World matrix) : Prop := (time w <= time w')%N.

(** The events of [n] passes of the Live loop. *)
Fixpoint passes (n : nat) : list Event :=
  match n with
  | O => []
  | S k => CamRead true :: Sleep 5 :: passes k
  end.

(** The events that leaving the loop adds. *)
Definition leaving (exit : LoopExit) : list Event :=
  match exit with
  | ReadFailed => [CamRead false]
  | _ => []
  end.

End Outcome.

(** ** A concrete environment *)

(** A session that has just started, at clock instant [t]. *)
Definition fresh_session (matrix : Type) (t : N) : World matrix :=
  {| history := []; time := t; clock_events := 0;
     events := []; cam_reads := 0;
     container := Page; ui := []; files := fun _ => None |}.

(** 12 October 2026, 14:00:00, plus [t] microseconds (within the hour). *)
Definition demo_calendar (t : N) : DateTime :=
  let s := Z.of_N (t / 1000000) in
  {| year := 2026; month := 10; day := 12;
     hour := 14; minute := (s / 60) mod 60; second := s mod 60;
     microsecond := Z.of_N (t mod 1000000) |}.

(** The first and last two bytes of a JPEG file. *)
Definition demo_jpeg : bytes := [Byte.xff; Byte.xd8; Byte.xff; Byte.xd9].

(** An environment over one-pixel images: a byte string that starts like a
    JPEG file decodes, the detector rejects a missing image and finds
    [faces] in any other, 1.5 ms pass before each clock event, and camera
    reads succeed while [cam_ok] says so. *)
Definition demo_externals (faces : list DetectionResult) (cam_ok : nat -> bool)
  : Externals unit :=
  {| imdecode := fun b =>
       match b with
       | [] => inl (LibraryError "imdecode: empty buffer")
       | Byte.xff :: Byte.xd8 :: _ => inr (Some tt)
       | _ => inr None
       end;
     imencode_jpg := fun _ => demo_jpeg;
     detect_emotions := fun img =>
       match img with
       | None => inl (LibraryError "Image not valid.")
       | Some _ => inr faces
       end;
     calendar := demo_calendar;
     elapse := fun _ => 1500%N;
     camera := fun k => if cam_ok k then Some tt else None |}.

(** A history of two entries. *)
Definition demo_history : list Entry.t :=
  [ {| Entry.timestamp := "2026-10-12 14:03:05"; Entry.face := 1;
       Entry.emotion := "happy"; Entry.confidence := 82 |};
    {| Entry.timestamp := "2026-10-12 14:03:05"; Entry.face := 3;
       Entry.emotion := "angry"; Entry.confidence := 61.37 |} ].

(** Arithmetic on clock values. *)
Ltac clock_lia := unfold live_budget, us_per_second in *; lia.

(** ** The loop on any detector output *)

Section Edges.

Context {matrix : Type} `{Externals matrix}.

(** The test of the loop as it is written: a face is passed over when
    [conf < threshold] evaluates to true, and kept otherwise. *)
Definition kept (threshold : float) (r : DetectionResult) : bool :=
  negb (PyNum.lt (top_confidence r) threshold).

(** The faces the loop keeps, each with its 0-based position. *)
Definition survivors (threshold : float) (i : Z) (results : list DetectionResult)
  : list (Z * DetectionResult) :=
  filter (fun ir => kept threshold (snd ir)) (enumerate_from i results).

(** An entry and a card that describe the same face. *)
Definition mirrors (e : Entry.t) (c : Card.t) : Prop :=
  Entry.face e = Card.index c /\
  Entry.emotion e = Card.emotion c /\
  Entry.confidence e = PyNum.round_ndigits (Card.confidence c) 2.

(** The history of [w'] is that of [w] with entries added at its end. *)
Definition extends_history (w w' : World matrix) : Prop :=
  exists added, history w' = (history w ++ added)%list.

(** An entry as the loop logs it: a timestamp of the shape
    [dddd-dd-dd dd:dd:dd], a face number counted from 1, and a confidence
    that comes out of [round(conf, 2)]. *)
Definition logged_well (e : Entry.t) : Prop :=
  timestamp_shape (Entry.timestamp e) = true /\
  1 <= Entry.face e /\
  exists conf, Entry.confidence e = PyNum.round_ndigits conf 2.

(** The history of [w'] is that of [w] with such entries added at its end. *)
Definition logs_well (w w' : World matrix) : Prop :=
  exists added, history w' = (history w ++ added)%list /\ Forall logged_well added.

(** The files of [w'] are those of [w]. *)
Definition same_files (w w' : World matrix) : Prop := files w' = files w.

(** One run of the script per interaction, the state of one run being that
    of the next. *)
Definition session (inputs : list Inputs) (w : World matrix) : World matrix :=
  fold_left (fun w i => run i w) inputs w.

End Edges.

(** A face on which two emotions tie for the greatest probability. *)
Definition tied_face : DetectionResult :=
  {| box := {| box_x := 80; box_y := 12; box_w := 40; box_h := 40 |};
     emotions := [("happy", 0.30); ("sad", 0.35); ("neutral", 0.35)]%float |}.

(** A face whose first probability is not a number. *)
Definition nan_face : DetectionResult :=
  {| box := {| box_x := 10; box_y := 10; box_w := 50; box_h := 50 |};
     emotions := [("angry", nan); ("happy", 0.2)]%float |}.

(** A face for which the detector lists no emotion. *)
Definition blank_face : DetectionResult :=
  {| box := {| box_x := 10; box_y := 10; box_w := 50; box_h := 50 |};
     emotions := [] |}.

(** ** What the Live tab shows *)

(** The element went into one of the two placeholders of the Live tab. *)
Definition in_placeholder {matrix : Type} (x : Container * Widget matrix) : bool :=
  match fst x with
  | Page => false
  | FrameSpace | CardSpace => true
  end.

(** The element is an image in the frame placeholder. *)
Definition shows_frame {matrix : Type} (x : Container * Widget matrix) : bool :=
  match x with
  | (FrameSpace, Image _) => true
  | _ => false
  end.

(** What the loop tells the user on its way out. *)
Definition failure_notice {matrix : Type} (exit : LoopExit) : list (Widget matrix) :=
  match exit with
  | ReadFailed => [ErrorBox "Webcam error."]
  | _ => []
  end.

(** The elements of the cards for some faces. *)
Definition face_widgets {matrix : Type} (faces : list (Z * DetectionResult))
  : list (Widget matrix) :=
  flat_map (fun ir => card_widgets (card_of ir) (PyInt.trunc (top_confidence (snd ir))))
           faces.

(** ** Computations that do not look at the page *)

Section Blind.

Context {matrix : Type} `{Externals matrix}.

(** [c] does not read what the page shows: started with any other [ui] it
    returns the same, adds the same elements and leaves everything else of
    the world the same. *)
Definition blind {A : Type} (c : M (matrix := matrix) A) : Prop :=
  forall w, exists new,
    forall u, c (with_ui u w) = (fst (c w), with_ui (u ++ new) (snd (c w))).

(** The inputs [i] with the dark-mode toggle set to [mode]. *)
Definition with_dark_mode (mode : bool) (i : Inputs) : Inputs :=
  {| dark_mode := mode; tab := tab i; uploaded := uploaded i;
     snap := snap i; start_live := start_live i; export := export i |}.

End Blind.

(** * Facts *)

(** ** Float comparisons *)

Module PyNumFacts.

Import PyNum.

Lemma SFcompare_swap (x y : spec_float) :
  SFcompare y x = option_map CompOpp (SFcompare x y).
Proof.
  destruct x as [sx|sx| |sx mx ex], y as [sy|sy| |sy my ey]; simpl;
    try reflexivity;
    try (destruct sx; reflexivity);
    try (destruct sy; reflexivity);
    try (destruct sx, sy; reflexivity).
  pose proof (Pos.compare_antisym mx my) as A.
  change (PosDef.Pos.compare_cont Eq my mx
          = CompOpp (PosDef.Pos.compare_cont Eq mx my)) in A.
  destruct sx, sy; simpl; try reflexivity;
    rewrite (Z.compare_antisym ex ey);
    destruct (ex ?= ey) eqn:E; simpl; try reflexivity;
    now rewrite A.
Qed.

Lemma SFcompare_defined (x y : spec_float) :
  x <> S754_nan -> y <> S754_nan -> SFcompare x y <> None.
Proof.
  intros Hx Hy.
  destruct x as [sx|sx| |sx mx ex], y as [sy|sy| |sy my ey]; simpl;
    try congruence.
Qed.

Lemma SFcompare_diag (x : spec_float) :
  SFcompare x x = if match x with S754_nan => true | _ => false end then None else Some Eq.
Proof.
  destruct x as [s|s| |s m e]; simpl; try reflexivity.
  - now destruct s.
  - pose proof (Pos.compare_refl m) as A.
    change (PosDef.Pos.compare_cont Eq m m = Eq) in A.
    rewrite Z.compare_refl, A. now destruct s.
Qed.

Lemma ordered_spec (a : float) : ordered a <-> Prim2SF a <> S754_nan.
Proof.
  unfold ordered, is_nan. rewrite eqb_spec. unfold SFeqb.
  rewrite SFcompare_diag.
  destruct (Prim2SF a); simpl; split; congruence.
Qed.

(** Between two numbers, [not (a < b)] is [a >= b]. *)
Lemma not_lt_is_ge (a b : float) :
  ordered a -> ordered b -> negb (lt a b) = ge a b.
Proof.
  intros Ha Hb. apply ordered_spec in Ha, Hb.
  unfold lt, ge. rewrite ltb_spec, leb_spec. unfold SFltb, SFleb.
  rewrite (SFcompare_swap (Prim2SF a) (Prim2SF b)).
  pose proof (SFcompare_defined _ _ Ha Hb) as Hc.
  destruct (SFcompare (Prim2SF a) (Prim2SF b)) as [[ | | ]|]; simpl;
    congruence.
Qed.


Lemma shr_1_nonneg mrs : 0 <= shr_m mrs -> 0 <= shr_m (shr_1 mrs).
Proof.
  destruct mrs as [m r s]; simpl.
  destruct m as [|[p|p|]|[p|p|]]; simpl; lia.
Qed.

Lemma iter_pos_invariant {A} (P : A -> Prop) (f : A -> A) :
  (forall x, P x -> P (f x)) -> forall n x, P x -> P (iter_pos f n x).
Proof.
  intros Hf n. induction n; intros x Hx; simpl; auto.
Qed.

Lemma shr_fexp_nonneg m e l :
  0 <= m -> 0 <= shr_m (fst (shr_fexp prec emax m e l)).
Proof.
  intros Hm. unfold shr_fexp, shr.
  assert (H0 : 0 <= shr_m (shr_record_of_loc m l)).
  { destruct l as [|[ | | ]]; simpl; exact Hm. }
  destruct (fexp prec emax (Zdigits2 m + e) - e); simpl; try exact H0.
  apply (iter_pos_invariant (fun x => 0 <= shr_m x)); auto using shr_1_nonneg.
Qed.

Lemma round_nearest_even_nonneg m l : 0 <= m -> 0 <= round_nearest_even m l.
Proof.
  intros Hm. destruct l as [|[ | | ]]; simpl; try lia.
  destruct (Z.even m); lia.
Qed.

Lemma binary_round_aux_defined s m e l :
  0 <= m -> binary_round_aux prec emax s m e l <> S754_nan.
Proof.
  intros Hm. unfold binary_round_aux.
  pose proof (shr_fexp_nonneg m e l Hm) as H1.
  destruct (shr_fexp prec emax m e l) as [mrs' e'] eqn:E1. simpl in H1.
  pose proof (shr_fexp_nonneg _ e' loc_Exact
                (round_nearest_even_nonneg _ (loc_of_shr_record mrs') H1)) as H2.
  destruct (shr_fexp prec emax _ e' loc_Exact) as [mrs'' e''] eqn:E2. simpl in H2.
  destruct (shr_m mrs'') eqn:E3; try congruence; try lia.
  destruct (e'' <=? emax - prec); congruence.
Qed.

Lemma SFmul_finite_defined x s m e :
  x <> S754_nan -> SF64mul x (S754_finite s m e) <> S754_nan.
Proof.
  intros Hx. unfold SF64mul, SFmul.
  destruct x as [sx|sx| |sx mx ex]; try congruence.
  apply binary_round_aux_defined. lia.
Qed.

(** Multiplying a number by 100 gives a number. *)
Lemma ordered_times_100 (p : float) : ordered p -> ordered (p * 100)%float.
Proof.
  rewrite !ordered_spec, mul_spec. intros Hp.
  destruct (Prim2SF 100) as [s|s| |s m e] eqn:E; vm_compute in E; try discriminate.
  now apply SFmul_finite_defined.
Qed.

Lemma SFcompare_key (x y : spec_float) :
  x <> S754_nan -> y <> S754_nan -> SFcompare x y = Some (lex (key x) (key y)).
Proof.
  intros Hx Hy.
  destruct x as [sx|sx| |sx mx ex], y as [sy|sy| |sy my ey]; try congruence;
    try (destruct sx; reflexivity); try (destruct sy; reflexivity);
    try (destruct sx, sy; reflexivity).
  destruct sx, sy; try reflexivity; unfold lex; cbn [SFcompare key fst snd].
  rewrite Z.compare_opp, (Z.compare_antisym ex ey).
  destruct (ex ?= ey); reflexivity.
Qed.

Lemma lex_le_trans (a b c : Z * Z * Z) :
  lex a b <> Gt -> lex b c <> Gt -> lex a c <> Gt.
Proof.
  destruct a as [[a1 a2] a3], b as [[b1 b2] b3], c as [[c1 c2] c3].
  unfold lex. cbn [fst snd].
  destruct (Z.compare_spec a1 b1), (Z.compare_spec b1 c1),
    (Z.compare_spec a1 c1); try congruence; try lia;
  destruct (Z.compare_spec a2 b2), (Z.compare_spec b2 c2),
    (Z.compare_spec a2 c2); try congruence; try lia;
  destruct (Z.compare_spec a3 b3), (Z.compare_spec b3 c3),
    (Z.compare_spec a3 c3); try congruence; lia.
Qed.

Lemma ge_key (a b : float) :
  ordered a -> ordered b ->
  (ge a b = true <-> lex (key (Prim2SF b)) (key (Prim2SF a)) <> Gt).
Proof.
  intros Ha Hb. apply ordered_spec in Ha, Hb.
  unfold ge. rewrite leb_spec. unfold SFleb.
  rewrite (SFcompare_key _ _ Hb Ha).
  destruct (lex (key (Prim2SF b)) (key (Prim2SF a))); split; congruence.
Qed.

Lemma ge_refl (a : float) : ordered a -> ge a a = true.
Proof.
  intros Ha. apply ge_key; [exact Ha | exact Ha|].
  destruct (key (Prim2SF a)) as [[k1 k2] k3]. unfold lex. cbn [fst snd].
  now rewrite !Z.compare_refl.
Qed.

Lemma ge_trans (a b c : float) :
  ordered a -> ordered b -> ordered c ->
  ge a b = true -> ge b c = true -> ge a c = true.
Proof.
  intros Ha Hb Hc Hab Hbc.
  apply ge_key in Hab; [|assumption..]. apply ge_key in Hbc; [|assumption..].
  apply ge_key; [assumption..|]. eapply lex_le_trans; eassumption.
Qed.

Lemma gt_ge (a b : float) : gt a b = true -> ge a b = true.
Proof.
  unfold gt, ge. rewrite ltb_spec, leb_spec. unfold SFltb, SFleb.
  destruct (SFcompare (Prim2SF b) (Prim2SF a)) as [[ | | ]|]; congruence.
Qed.

Lemma not_gt_ge (a b : float) :
  ordered a -> ordered b -> gt a b = false -> ge b a = true.
Proof.
  intros Ha Hb Hgt. rewrite <- (not_lt_is_ge b a Hb Ha).
  unfold gt in Hgt. unfold lt. now rewrite Hgt.
Qed.

End PyNumFacts.

(** ** The analysis loop *)

Section AnalysisFacts.

Context {matrix : Type} `{Externals matrix}.

Lemma max_scan_in (best : string * float) (rest : list (string * float)) :
  In (max_scan best rest) (best :: rest).
Proof.
  revert best. induction rest as [|item tl IH]; intros best; simpl.
  - now left.
  - destruct (PyNum.gt (snd item) (snd best)).
    + right. apply IH.
    + destruct (IH best) as [E|I]; [left; exact E | right; right; exact I].
Qed.

Lemma well_formed_top (r : DetectionResult) :
  well_formed r ->
  max_item (emotions r) = inr (top r) /\ PyNum.ordered (top_confidence r).
Proof.
  intros [Hne Hall]. unfold top, top_confidence, top, max_item.
  destruct (emotions r) as [|first tl] eqn:E; [congruence|].
  split; [reflexivity|].
  apply PyNumFacts.ordered_times_100.
  rewrite Forall_forall in Hall. apply (Hall (max_scan first tl)).
  apply max_scan_in.
Qed.

(** [max] returns an item that no other item exceeds. *)
Lemma max_scan_greatest (rest : list (string * float)) :
  forall best,
    Forall (fun kv => PyNum.ordered (snd kv)) (best :: rest) ->
    Forall (fun kv => PyNum.ge (snd (max_scan best rest)) (snd kv) = true)
           (best :: rest).
Proof.
  induction rest as [|item tl IH]; intros best Hall.
  - inversion Hall; subst. constructor; [|constructor].
    now apply PyNumFacts.ge_refl.
  - inversion Hall as [|? ? Hb Hrest]; subst.
    inversion Hrest as [|? ? Hi Htl]; subst.
    cbn [max_scan]. destruct (PyNum.gt (snd item) (snd best)) eqn:Hgt.
    + specialize (IH item Hrest).
      inversion IH as [|? ? Hmi Hmtl]; subst.
      assert (Hm : PyNum.ordered (snd (max_scan item tl))).
      { pose proof (max_scan_in item tl) as Hin.
        rewrite Forall_forall in Hrest. now apply Hrest. }
      constructor; [|constructor; assumption].
      apply (PyNumFacts.ge_trans _ (snd item)); auto. now apply PyNumFacts.gt_ge.
    + assert (Hbt : Forall (fun kv => PyNum.ordered (snd kv)) (best :: tl))
        by now constructor.
      specialize (IH best Hbt).
      inversion IH as [|? ? Hmb Hmtl]; subst.
      assert (Hm : PyNum.ordered (snd (max_scan best tl))).
      { pose proof (max_scan_in best tl) as Hin.
        rewrite Forall_forall in Hbt. now apply Hbt. }
      constructor; [assumption|]. constructor; [|assumption].
      apply (PyNumFacts.ge_trans _ (snd best)); auto. now apply PyNumFacts.not_gt_ge.
Qed.

(** The item [top] picks is one of the face's emotions, and none of them
    has a greater probability. *)
Lemma top_is_greatest (r : DetectionResult) :
  well_formed r ->
  In (top r) (emotions r) /\
  forall kv, In kv (emotions r) -> PyNum.ge (snd (top r)) (snd kv) = true.
Proof.
  intros [Hne Hall]. unfold top.
  destruct (emotions r) as [|first tl]; [congruence|].
  split; [apply max_scan_in|].
  apply Forall_forall. now apply max_scan_greatest.
Qed.

(** What the loop returns, and the world it leaves, in terms of the faces
    that meet the threshold. *)
Lemma for_results_spec (threshold : float) (results : list DetectionResult) :
  PyNum.ordered threshold ->
  Forall well_formed results ->
  forall i frame cards w,
    for_results threshold i results frame cards w =
    (inr ((cards ++ map card_of (qualifying threshold i results))%list,
          fold_left draw_face (qualifying threshold i results) frame),
     fold_left log_face (qualifying threshold i results) w).
Proof.
  intros Ht Hwf. induction Hwf as [|r rest Hr _ IH]; intros i frame cards w.
  - simpl. unfold ret. now rewrite app_nil_r.
  - destruct (well_formed_top r Hr) as [Hmax Hord].
    cbn [for_results]. unfold bind at 1, lift. rewrite Hmax.
    unfold qualifying. cbn [enumerate_from filter snd].
    fold (qualifying threshold (i + 1) rest).
    unfold meets. rewrite <- (PyNumFacts.not_lt_is_ge _ _ Hord Ht).
    fold (top_confidence r).
    destruct (PyNum.lt (top_confidence r) threshold); cbn [negb].
    + apply IH.
    + unfold bind, datetime_now, history_append, update.
      rewrite IH. cbn [map fold_left]. rewrite <- app_assoc. reflexivity.
Qed.

Lemma log_face_fields (w : World matrix) (ir : Z * DetectionResult) :
  time (log_face w ir) = (time w + elapse (clock_events w))%N /\
  clock_events (log_face w ir) = S (clock_events w) /\
  events (log_face w ir) = events w /\
  cam_reads (log_face w ir) = cam_reads w /\
  container (log_face w ir) = container w /\
  ui (log_face w ir) = ui w /\
  files (log_face w ir) = files w.
Proof. repeat split. Qed.

(** Logging faces appends their entries and touches nothing but the clock. *)
Lemma log_faces_spec (faces : list (Z * DetectionResult)) :
  forall w : World matrix,
    history (fold_left log_face faces w) = (history w ++ new_entries w faces)%list /\
    (time w <= time (fold_left log_face faces w))%N /\
    clock_events (fold_left log_face faces w) = (clock_events w + List.length faces)%nat /\
    events (fold_left log_face faces w) = events w /\
    cam_reads (fold_left log_face faces w) = cam_reads w /\
    container (fold_left log_face faces w) = container w /\
    ui (fold_left log_face faces w) = ui w /\
    files (fold_left log_face faces w) = files w.
Proof.
  induction faces as [|ir tl IH]; intros w; cbn [fold_left new_entries List.length].
  - rewrite app_nil_r, Nat.add_0_r. repeat split. apply N.le_refl.
  - destruct (IH (log_face w ir)) as (Hh & Ht & Hc & Hl & Hr & Hk & Hu & Hf).
    rewrite Hh, Hc, Hl, Hr, Hk, Hu, Hf.
    destruct (log_face_fields w ir) as (Et & Ec & _).
    rewrite Et in Ht. rewrite Ec.
    repeat split; try lia.
    unfold log_face at 1. cbn [history with_history].
    now rewrite <- app_assoc.
Qed.

Lemma new_entries_faces (faces : list (Z * DetectionResult)) :
  forall w : World matrix,
    map Entry.face (new_entries w faces) = map Card.index (map card_of faces).
Proof.
  induction faces as [|ir tl IH]; intros w; cbn [new_entries map].
  - reflexivity.
  - now rewrite IH.
Qed.

(** Drawing faces appends their drawing calls to the frame, if there is one. *)
Lemma draw_faces_spec (faces : list (Z * DetectionResult)) :
  forall frame : option (Frame matrix),
    fold_left draw_face faces frame =
    option_map (fun f => {| pixels := pixels f;
                            overlay := overlay f ++ flat_map drawing_of faces |})
               frame.
Proof.
  induction faces as [|ir tl IH]; intros frame; cbn [fold_left flat_map].
  - destruct frame as [[px ov]|]; cbn; [now rewrite app_nil_r | reflexivity].
  - rewrite IH. destruct frame as [[px ov]|]; cbn; [|reflexivity].
    unfold drawing_of at 2. now rewrite <- app_assoc.
Qed.

Lemma enumerate_from_in {A : Type} (l : list A) :
  forall (i k : Z) (x : A),
    In (k, x) (enumerate_from i l) <->
    exists n : nat, nth_error l n = Some x /\ k = i + Z.of_nat n.
Proof.
  induction l as [|y tl IH]; intros i k x; cbn [enumerate_from In].
  - split; [tauto | intros [[|n] [E _]]; discriminate].
  - rewrite IH. split.
    + intros [E | (n & En & Ek)].
      * inversion E; subst. exists 0%nat. split; [reflexivity | lia].
      * exists (S n). split; [exact En | lia].
    + intros ([|n] & En & Ek).
      * left. cbn in En. inversion En. f_equal. lia.
      * right. exists n. split; [exact En | lia].
Qed.

Lemma enumerate_from_length {A : Type} (l : list A) :
  forall i, List.length (enumerate_from i l) = List.length l.
Proof. induction l; intros i; cbn; [reflexivity | now rewrite IHl]. Qed.

Lemma qualifying_in (threshold : float) (results : list DetectionResult)
      (i k : Z) (r : DetectionResult) :
  In (k, r) (qualifying threshold i results) <->
  (exists n : nat, nth_error results n = Some r /\ k = i + Z.of_nat n) /\
  PyNum.ge (top_confidence r) threshold = true.
Proof.
  unfold qualifying. rewrite filter_In, enumerate_from_in. reflexivity.
Qed.

Lemma qualifying_position (threshold : float) (results : list DetectionResult)
      (k : Z) (r : DetectionResult) :
  In (k, r) (qualifying threshold 0 results) ->
  0 <= k /\ nth_error results (Z.to_nat k) = Some r /\
  PyNum.ge (top_confidence r) threshold = true.
Proof.
  rewrite qualifying_in. intros [(n & En & Ek) Hge]. subst k.
  rewrite Z.add_0_l, Nat2Z.id. repeat split; [lia | exact En | exact Hge].
Qed.

Lemma analyze_emotions_spec (image_bytes : bytes) (frame : option (Frame matrix))
      (threshold : float) (results : list DetectionResult) (w : World matrix) :
  detection image_bytes = inr results ->
  Forall well_formed results ->
  PyNum.ordered threshold ->
  analyze_emotions image_bytes frame threshold w =
  (inr (map card_of (qualifying threshold 0 results),
        fold_left draw_face (qualifying threshold 0 results) frame),
   fold_left log_face (qualifying threshold 0 results) w).
Proof.
  intros Hdet Hwf Ht. unfold detection in Hdet.
  unfold analyze_emotions, bind, lift.
  destruct (imdecode image_bytes) as [e|img]; [discriminate|]. rewrite Hdet.
  now rewrite (for_results_spec threshold results Ht Hwf).
Qed.

(** C1: for a detector output of well-formed faces and a threshold that is a
    number, [analyze_emotions] returns a card for the face at position [n]
    if and only if its top-emotion confidence, 100 times the greatest of its
    probabilities, is [>=] the threshold; a face whose confidence is below
    the threshold gets no card, no history entry and no drawing on the frame
    (the frame receives the drawing calls of the faces that meet the
    threshold and no other). *)
Theorem analyze_emotions_card_iff_threshold
    (image_bytes : bytes) (frame : option (Frame matrix)) (threshold : float)
    (results : list DetectionResult) (w : World matrix) :
  detection image_bytes = inr results ->
  Forall well_formed results ->
  PyNum.ordered threshold ->
  exists cards frame' w' added,
    analyze_emotions image_bytes frame threshold w = (inr (cards, frame'), w') /\
    (forall r, In r results ->
       In (top r) (emotions r) /\
       forall kv, In kv (emotions r) -> PyNum.ge (snd (top r)) (snd kv) = true) /\
    history w' = (history w ++ added)%list /\
    map Entry.face added = map Card.index cards /\
    frame' = option_map
               (fun f => {| pixels := pixels f;
                            overlay := overlay f ++
                              flat_map drawing_of (qualifying threshold 0 results) |})
               frame /\
    (forall k r, In (k, r) (qualifying threshold 0 results) ->
                 PyNum.ge (top_confidence r) threshold = true) /\
    (forall (n : nat) (r : DetectionResult),
        nth_error results n = Some r ->
        ((exists c, In c cards /\ Card.index c = Z.of_nat n + 1) <->
         PyNum.ge (top_confidence r) threshold = true) /\
        (PyNum.ge (top_confidence r) threshold = true ->
         In (card_of (Z.of_nat n, r)) cards) /\
        (PyNum.lt (top_confidence r) threshold = true ->
         (forall c, In c cards -> Card.index c <> Z.of_nat n + 1) /\
         (forall e, In e added -> Entry.face e <> Z.of_nat n + 1) /\
         ~ In (Z.of_nat n, r) (qualifying threshold 0 results))).
Proof.
  intros Hdet Hwf Ht.
  set (Q := qualifying threshold 0 results).
  exists (map card_of Q), (fold_left draw_face Q frame),
         (fold_left log_face Q w), (new_entries w Q).
  assert (Hcard : forall (n : nat) r, nth_error results n = Some r ->
            ((exists c, In c (map card_of Q) /\ Card.index c = Z.of_nat n + 1) <->
             PyNum.ge (top_confidence r) threshold = true)).
  { intros n r En. split.
    - intros (c & Hc & Hi). apply in_map_iff in Hc.
      destruct Hc as ([k r'] & <- & Hin). cbn in Hi.
      apply qualifying_position in Hin. destruct Hin as (Hk & Ek & Hge).
      assert (k = Z.of_nat n) by lia. subst k. rewrite Nat2Z.id in Ek.
      congruence.
    - intros Hge. exists (card_of (Z.of_nat n, r)). split; [|reflexivity].
      apply in_map. apply qualifying_in. split; [|exact Hge].
      exists n. split; [exact En | lia]. }
  split; [now apply analyze_emotions_spec|].
  split.
  { intros r Hr. apply top_is_greatest.
    rewrite Forall_forall in Hwf. now apply Hwf. }
  split; [apply log_faces_spec|].
  split; [apply new_entries_faces|].
  split; [apply draw_faces_spec|].
  split; [intros k r Hin; now apply qualifying_position in Hin|].
  intros n r En. split; [now apply Hcard|]. split.
  - intros Hge. apply in_map. apply qualifying_in. split; [|exact Hge].
    exists n. split; [exact En | lia].
  - intros Hlt.
    assert (Hr : well_formed r).
    { rewrite Forall_forall in Hwf. apply Hwf. eapply nth_error_In, En. }
    assert (Hnge : PyNum.ge (top_confidence r) threshold = false).
    { rewrite <- (PyNumFacts.not_lt_is_ge _ _ (proj2 (well_formed_top r Hr)) Ht).
      now rewrite Hlt. }
    assert (Hno : forall c, In c (map card_of Q) -> Card.index c <> Z.of_nat n + 1).
    { intros c Hc Hi. destruct (Hcard n r En) as [Hex _].
      rewrite Hex in Hnge; [discriminate | now exists c]. }
    split; [exact Hno|]. split.
    + intros e He Hf.
      assert (Hin : In (Entry.face e) (map Card.index (map card_of Q))).
      { rewrite <- (new_entries_faces Q w). now apply in_map. }
      apply in_map_iff in Hin. destruct Hin as (c & Ec & Hc).
      apply (Hno c Hc). congruence.
    + intros Hin. apply qualifying_position in Hin. destruct Hin as (_ & _ & Hge).
      congruence.
Qed.

Lemma filter_length_forallb {A : Type} (f : A -> bool) (l : list A) :
  (List.length (filter f l) <= List.length l)%nat /\
  (List.length (filter f l) = List.length l <-> forallb f l = true).
Proof.
  induction l as [|x tl [IHle IHeq]]; cbn.
  - split; [lia | tauto].
  - destruct (f x); cbn.
    + split; [lia|]. rewrite <- IHeq. split; lia.
    + split; [lia|]. split; [lia | discriminate].
Qed.

Lemma forallb_enumerate_from {A : Type} (f : A -> bool) (l : list A) :
  forall i, forallb (fun ix => f (snd ix)) (enumerate_from i l) = forallb f l.
Proof. induction l as [|x tl IH]; intros i; cbn; [reflexivity | now rewrite IH]. Qed.

Lemma qualifying_length (threshold : float) (results : list DetectionResult) (i : Z) :
  (List.length (qualifying threshold i results) <= List.length results)%nat /\
  (List.length (qualifying threshold i results) = List.length results <->
   Forall (fun r => PyNum.ge (top_confidence r) threshold = true) results).
Proof.
  unfold qualifying.
  destruct (filter_length_forallb (fun ir => meets threshold (snd ir))
                                  (enumerate_from i results)) as [Hle Heq].
  rewrite enumerate_from_length in Hle, Heq.
  split; [exact Hle|].
  rewrite Heq, forallb_enumerate_from, forallb_forall, Forall_forall. reflexivity.
Qed.

(** C2: the number of cards is at most the number of detections, and the two
    are equal exactly when every detection's top-emotion confidence is [>=]
    the threshold, the top-emotion confidence of a detection being 100
    times a probability of the detection that none of its probabilities
    exceeds. *)
Theorem analyze_emotions_card_count
    (image_bytes : bytes) (frame : option (Frame matrix)) (threshold : float)
    (results : list DetectionResult) (w : World matrix) :
  detection image_bytes = inr results ->
  Forall well_formed results ->
  PyNum.ordered threshold ->
  exists cards frame' w',
    analyze_emotions image_bytes frame threshold w = (inr (cards, frame'), w') /\
    (forall r, In r results ->
       In (top r) (emotions r) /\
       (forall kv, In kv (emotions r) -> PyNum.ge (snd (top r)) (snd kv) = true) /\
       top_confidence r = (snd (top r) * 100)%float) /\
    (List.length cards <= List.length results)%nat /\
    (List.length cards = List.length results <->
     Forall (fun r => PyNum.ge (top_confidence r) threshold = true) results).
Proof.
  intros Hdet Hwf Ht.
  exists (map card_of (qualifying threshold 0 results)),
         (fold_left draw_face (qualifying threshold 0 results) frame),
         (fold_left log_face (qualifying threshold 0 results) w).
  split; [now apply analyze_emotions_spec|].
  split.
  { intros r Hr. rewrite Forall_forall in Hwf.
    destruct (top_is_greatest r (Hwf r Hr)) as [Hin Hmax].
    split; [exact Hin|]. split; [exact Hmax | reflexivity]. }
  rewrite length_map. apply qualifying_length.
Qed.

Lemma enumerate_from_sorted {A : Type} (l : list A) :
  forall i, StronglySorted (fun x y => fst x < fst y) (enumerate_from i l).
Proof.
  induction l as [|x tl IH]; intros i; cbn [enumerate_from]; constructor.
  - apply IH.
  - apply Forall_forall. intros [k y] Hin.
    apply enumerate_from_in in Hin. destruct Hin as (n & _ & Ek). cbn. lia.
Qed.

Lemma StronglySorted_filter {A : Type} (R : A -> A -> Prop) (f : A -> bool)
      (l : list A) :
  StronglySorted R l -> StronglySorted R (filter f l).
Proof.
  induction 1 as [|x tl Hs IH Hall]; cbn; [constructor|].
  destruct (f x); [|exact IH].
  constructor; [exact IH|].
  rewrite Forall_forall in *. intros y Hy. apply Hall.
  now apply filter_In in Hy.
Qed.

Lemma StronglySorted_map {A B : Type} (R : A -> A -> Prop) (S : B -> B -> Prop)
      (g : A -> B) (l : list A) :
  (forall x y, R x y -> S (g x) (g y)) ->
  StronglySorted R l -> StronglySorted S (map g l).
Proof.
  intros Hg. induction 1 as [|x tl Hs IH Hall]; cbn; constructor; [exact IH|].
  rewrite Forall_forall in *. intros y Hy. apply in_map_iff in Hy.
  destruct Hy as (z & <- & Hz). auto.
Qed.

Lemma qualifying_indices_increasing (threshold : float)
      (results : list DetectionResult) (i : Z) :
  StronglySorted Z.lt (map Card.index (map card_of (qualifying threshold i results))).
Proof.
  rewrite map_map.
  apply (StronglySorted_map (fun x y => fst x < fst y)).
  - intros x y Hxy. cbn. lia.
  - apply StronglySorted_filter, enumerate_from_sorted.
Qed.

(** C9: a card's index, and the face number of its history entry, is the
    1-based position of the face in the detector's output, so the indices of
    one call increase strictly; they are not renumbered, and a face that is
    dropped leaves a gap (indices 1 and 3 for [three_faces]). *)
Theorem card_index_is_detector_position :
  (forall (image_bytes : bytes) (frame : option (Frame matrix)) (threshold : float)
          (results : list DetectionResult) (w : World matrix),
      detection image_bytes = inr results ->
      Forall well_formed results ->
      PyNum.ordered threshold ->
      exists cards frame' w' added,
        analyze_emotions image_bytes frame threshold w = (inr (cards, frame'), w') /\
        history w' = (history w ++ added)%list /\
        map Entry.face added = map Card.index cards /\
        StronglySorted Z.lt (map Card.index cards) /\
        (forall c, In c cards ->
           exists (n : nat) (r : DetectionResult),
             nth_error results n = Some r /\
             Card.index c = Z.of_nat n + 1 /\
             c = card_of (Z.of_nat n, r))) /\
  (forall (image_bytes : bytes) (frame : option (Frame matrix)) (w : World matrix),
      detection image_bytes = inr three_faces ->
      exists cards frame' w' added,
        analyze_emotions image_bytes frame default_threshold w
          = (inr (cards, frame'), w') /\
        history w' = (history w ++ added)%list /\
        map Card.index cards = [1; 3] /\
        map Entry.face added = [1; 3]).
Proof.
  split.
  - intros image_bytes frame threshold results w Hdet Hwf Ht.
    set (Q := qualifying threshold 0 results).
    exists (map card_of Q), (fold_left draw_face Q frame),
           (fold_left log_face Q w), (new_entries w Q).
    split; [now apply analyze_emotions_spec|].
    split; [apply log_faces_spec|].
    split; [apply new_entries_faces|].
    split; [apply qualifying_indices_increasing|].
    intros c Hc. apply in_map_iff in Hc. destruct Hc as ([k r] & <- & Hin).
    apply qualifying_position in Hin. destruct Hin as (Hk & Ek & _).
    exists (Z.to_nat k), r. rewrite Z2Nat.id by exact Hk.
    repeat split. exact Ek.
  - intros image_bytes frame w Hdet.
    set (Q := qualifying default_threshold 0 three_faces).
    exists (map card_of Q), (fold_left draw_face Q frame),
           (fold_left log_face Q w), (new_entries w Q).
    split.
    { apply analyze_emotions_spec; [exact Hdet | | reflexivity].
      repeat constructor; discriminate. }
    split; [apply log_faces_spec|].
    split; [|rewrite new_entries_faces]; reflexivity.
Qed.

(** C5: one face with emotions happy 0.82, sad 0.10, neutral 0.08 and the
    default threshold 50 give exactly one card (happy, confidence 82.0, the
    joy message) and append exactly one history entry (face 1, happy,
    confidence 82.0), stamped with the clock reading taken for that face. *)
Theorem analyze_emotions_happy_face
    (image_bytes : bytes) (frame : option (Frame matrix)) (w : World matrix) :
  detection image_bytes = inr [happy_face] ->
  exists w',
    analyze_emotions image_bytes frame default_threshold w =
    (inr ([ {| Card.index := 1;
               Card.emotion := "happy";
               Card.confidence := 82;
               Card.message := "😊 You're radiating joy!" |} ],
          draw_face frame (0, happy_face)),
     w') /\
    history w' =
    (history w ++
     [ {| Entry.timestamp :=
            strftime_ymd_hms (calendar (time w + elapse (clock_events w))%N);
          Entry.face := 1;
          Entry.emotion := "happy";
          Entry.confidence := 82 |} ])%list.
Proof.
  intros Hdet.
  exists (log_face w (0, happy_face)).
  split; [|reflexivity].
  rewrite (analyze_emotions_spec image_bytes frame default_threshold [happy_face] w Hdet).
  - reflexivity.
  - repeat constructor; discriminate.
  - reflexivity.
Qed.

End AnalysisFacts.

(** ** Timestamps *)

Lemma forall_below_spec (n : nat) (P : Z -> bool) :
  forall_below n P = true -> forall z, 0 <= z < Z.of_nat n -> P z = true.
Proof.
  induction n as [|k IH]; cbn [forall_below]; intros Hall z Hz; [lia|].
  apply andb_prop in Hall. destruct Hall as [Hk Hrest].
  destruct (Z.eq_dec z (Z.of_nat k)) as [->|Hne]; [exact Hk|].
  apply IH; [exact Hrest | lia].
Qed.

Lemma four_digits (n : Z) :
  0 <= n <= 9999 -> shape_matches "dddd" (PyStr.zfill 4 (PyInt.to_string n)) = true.
Proof.
  intros Hn.
  apply (forall_below_spec (Z.to_nat 10000)
           (fun z => shape_matches "dddd" (PyStr.zfill 4 (PyInt.to_string z))));
    [vm_compute; reflexivity | rewrite Z2Nat.id; lia].
Qed.

Lemma two_digits (n : Z) :
  0 <= n <= 99 -> shape_matches "dd" (PyStr.zfill 2 (PyInt.to_string n)) = true.
Proof.
  intros Hn.
  apply (forall_below_spec (Z.to_nat 100)
           (fun z => shape_matches "dd" (PyStr.zfill 2 (PyInt.to_string z))));
    [vm_compute; reflexivity | rewrite Z2Nat.id; lia].
Qed.

Lemma shape_matches_app (p1 p2 s1 s2 : string) :
  shape_matches p1 s1 = true -> shape_matches p2 s2 = true ->
  shape_matches (p1 ++ p2) (s1 ++ s2) = true.
Proof.
  revert s1. induction p1 as [|p p1 IH]; intros [|c s1]; cbn; try discriminate.
  - auto.
  - intros H1 H2. apply andb_prop in H1. destruct H1 as [Hc H1].
    rewrite Hc. cbn. now apply IH.
Qed.

(** A valid date and time is printed as [dddd-dd-dd dd:dd:dd]. *)
Lemma strftime_shape (d : DateTime) :
  valid_datetime d -> timestamp_shape (strftime_ymd_hms d) = true.
Proof.
  intros (Hy & Hmo & Hd & Hh & Hmi & Hs & _).
  unfold timestamp_shape, strftime_ymd_hms.
  change "dddd-dd-dd dd:dd:dd"
    with ("dddd" ++ "-" ++ "dd" ++ "-" ++ "dd" ++ " " ++ "dd" ++ ":" ++ "dd" ++ ":" ++ "dd").
  repeat (apply shape_matches_app;
          [ first [ apply four_digits; lia | apply two_digits; lia | reflexivity ] | ]).
  apply two_digits; lia.
Qed.

Lemma zfill4_decimal4 (n : Z) :
  0 <= n <= 9999 -> PyStr.zfill 4 (PyInt.to_string n) = decimal4 n.
Proof.
  intros Hn. apply String.eqb_eq.
  apply (forall_below_spec (Z.to_nat 10000)
           (fun z => String.eqb (PyStr.zfill 4 (PyInt.to_string z)) (decimal4 z)));
    [vm_compute; reflexivity | rewrite Z2Nat.id; lia].
Qed.

Lemma zfill2_decimal2 (n : Z) :
  0 <= n <= 99 -> PyStr.zfill 2 (PyInt.to_string n) = decimal2 n.
Proof.
  intros Hn. apply String.eqb_eq.
  apply (forall_below_spec (Z.to_nat 100)
           (fun z => String.eqb (PyStr.zfill 2 (PyInt.to_string z)) (decimal2 z)));
    [vm_compute; reflexivity | rewrite Z2Nat.id; lia].
Qed.

(** What [strftime] prints for a valid date and time is the text of the
    format [%Y-%m-%d %H:%M:%S]. *)
Lemma strftime_is_ymd_hms (d : DateTime) :
  valid_datetime d -> strftime_ymd_hms d = ymd_hms_text d.
Proof.
  intros (Hy & Hmo & Hd & Hh & Hmi & Hs & _).
  unfold strftime_ymd_hms, ymd_hms_text.
  rewrite zfill4_decimal4 by lia.
  rewrite !zfill2_decimal2 by lia.
  reflexivity.
Qed.

Section ClockFacts.

Context {matrix : Type} `{Externals matrix}.

Lemma observe_time (w : World matrix) :
  time (observe w) = (time w + elapse (clock_events w))%N.
Proof. reflexivity. Qed.

Lemma observe_clock_events (w : World matrix) :
  clock_events (observe w) = S (clock_events w).
Proof. reflexivity. Qed.

Lemma iter_observe_clock (n : nat) (w1 w2 : World matrix) :
  time w1 = time w2 -> clock_events w1 = clock_events w2 ->
  time (Nat.iter n observe w1) = time (Nat.iter n observe w2) /\
  clock_events (Nat.iter n observe w1) = clock_events (Nat.iter n observe w2).
Proof.
  intros Ht Hc. induction n as [|n [IHt IHc]]; [now split|].
  rewrite !Nat.iter_succ, !observe_time, !observe_clock_events.
  now rewrite IHt, IHc.
Qed.

Lemma iter_observe_mono (n m : nat) (w : World matrix) :
  (n <= m)%nat -> (time (Nat.iter n observe w) <= time (Nat.iter m observe w))%N.
Proof.
  induction 1 as [|m Hle IH]; [apply N.le_refl|].
  rewrite Nat.iter_succ, observe_time. lia.
Qed.

Lemma log_faces_clock (faces : list (Z * DetectionResult)) :
  forall w : World matrix,
    time (fold_left log_face faces w) = time (Nat.iter (List.length faces) observe w) /\
    clock_events (fold_left log_face faces w)
      = clock_events (Nat.iter (List.length faces) observe w).
Proof.
  induction faces as [|ir tl IH]; intros w; cbn [fold_left List.length]; [now split|].
  rewrite Nat.iter_succ_r.
  destruct (IH (log_face w ir)) as [Et Ec]. rewrite Et, Ec.
  apply iter_observe_clock; reflexivity.
Qed.

(** The [k]-th entry added carries the [k]-th clock reading. *)
Lemma new_entries_timestamps (faces : list (Z * DetectionResult)) :
  forall (w : World matrix) (k : nat) (e : Entry.t),
    nth_error (new_entries w faces) k = Some e ->
    (k < List.length faces)%nat /\
    Entry.timestamp e = strftime_ymd_hms (calendar (reading w k)).
Proof.
  induction faces as [|ir tl IH]; intros w k e; cbn [new_entries List.length].
  - destruct k; discriminate.
  - destruct k as [|k]; cbn [nth_error].
    + intros E. inversion E. split; [lia | reflexivity].
    + intros E. apply IH in E. destruct E as [Hk Ets]. split; [lia|].
      rewrite Ets. unfold reading. rewrite (Nat.iter_succ_r (S k)).
      do 2 f_equal. apply iter_observe_clock; reflexivity.
Qed.

(** C10: every entry that an analysis adds carries, as its timestamp, the
    text of the clock reading taken when its face was processed (the k-th
    entry the k-th reading, between the start and the end of the call) in
    the format [%Y-%m-%d %H:%M:%S]: for a clock that shows valid dates, the
    four digits of the year, a hyphen, the two digits of the month, a
    hyphen, the two digits of the day, a space, and the two digits each of
    hour, minute and second between colons, so that 12 October 2026,
    14:03:05 and any number of microseconds, is [2026-10-12 14:03:05].  The
    text has the one shape [dddd-dd-dd dd:dd:dd], and a history whose
    timestamps all have this shape keeps it. *)
Theorem history_timestamp_format
    (image_bytes : bytes) (frame : option (Frame matrix)) (threshold : float)
    (results : list DetectionResult) (w : World matrix) :
  (forall t, valid_datetime (calendar t)) ->
  detection image_bytes = inr results ->
  Forall well_formed results ->
  PyNum.ordered threshold ->
  exists cards frame' w' added,
    analyze_emotions image_bytes frame threshold w = (inr (cards, frame'), w') /\
    history w' = (history w ++ added)%list /\
    (forall (k : nat) (e : Entry.t),
        nth_error added k = Some e ->
        Entry.timestamp e = ymd_hms_text (calendar (reading w k)) /\
        (forall us,
            calendar (reading w k)
            = {| year := 2026; month := 10; day := 12;
                 hour := 14; minute := 3; second := 5; microsecond := us |} ->
            Entry.timestamp e = "2026-10-12 14:03:05") /\
        Entry.timestamp e = strftime_ymd_hms (calendar (reading w k)) /\
        (time w <= reading w k <= time w')%N /\
        timestamp_shape (Entry.timestamp e) = true) /\
    (Forall (fun e => timestamp_shape (Entry.timestamp e) = true) (history w) ->
     Forall (fun e => timestamp_shape (Entry.timestamp e) = true) (history w')).
Proof.
  intros Hcal Hdet Hwf Ht.
  set (Q := qualifying threshold 0 results).
  exists (map card_of Q), (fold_left draw_face Q frame),
         (fold_left log_face Q w), (new_entries w Q).
  assert (Hts : forall k e, nth_error (new_entries w Q) k = Some e ->
            Entry.timestamp e = ymd_hms_text (calendar (reading w k)) /\
            (forall us,
                calendar (reading w k)
                = {| year := 2026; month := 10; day := 12;
                     hour := 14; minute := 3; second := 5; microsecond := us |} ->
                Entry.timestamp e = "2026-10-12 14:03:05") /\
            Entry.timestamp e = strftime_ymd_hms (calendar (reading w k)) /\
            (time w <= reading w k <= time (fold_left log_face Q w))%N /\
            timestamp_shape (Entry.timestamp e) = true).
  { intros k e E. apply new_entries_timestamps in E. destruct E as [Hk Ets].
    assert (Etext : Entry.timestamp e = ymd_hms_text (calendar (reading w k))).
    { rewrite Ets. apply strftime_is_ymd_hms, Hcal. }
    split; [exact Etext|]. split.
    { intros us Ed. rewrite Etext, Ed. reflexivity. }
    split; [exact Ets|]. split.
    - rewrite (proj1 (log_faces_clock Q w)). unfold reading. split.
      + apply (iter_observe_mono 0 (S k) w). lia.
      + apply iter_observe_mono. lia.
    - rewrite Ets. apply strftime_shape, Hcal. }
  split; [now apply analyze_emotions_spec|].
  split; [apply log_faces_spec|].
  split; [exact Hts|].
  intros Hold. rewrite (proj1 (log_faces_spec Q w)).
  apply Forall_app. split; [exact Hold|].
  apply Forall_forall. intros e He.
  apply In_nth_error in He. destruct He as [k Ek].
  now apply Hts in Ek.
Qed.

End ClockFacts.

(** ** Cards on the page *)

Section DisplayFacts.

Context {matrix : Type}.

Lemma of_float_quot (x : float) (k : Z) :
  PyInt.of_float x = inr k ->
  k = Z.quot (fst (PyNum.exact x)) (snd (PyNum.exact x)).
Proof.
  unfold PyInt.of_float, PyNum.exact, PyNum.scaled_trunc.
  destruct (Prim2SF x) as [s|s| |s m e]; try discriminate.
  - intros E. inversion E. reflexivity.
  - intros E. inversion E. clear E. cbn [fst snd].
    destruct (0 <=? e) eqn:He.
    + rewrite Z.quot_1_r. reflexivity.
    + apply Z.leb_gt in He.
      assert (Hd : 0 < 2 ^ (- e)) by (apply Z.pow_pos_nonneg; lia).
      destruct s.
      * rewrite Z.quot_opp_l by lia. rewrite Z.quot_div_nonneg by lia. reflexivity.
      * rewrite Z.quot_div_nonneg by lia. reflexivity.
Qed.

Lemma display_card_spec (c : Card.t) (k : Z) (w : World matrix) :
  PyInt.of_float (Card.confidence c) = inr k ->
  display_card c w =
  (inr tt, with_ui (ui w ++ map (pair (container w)) (card_widgets c k)) w).
Proof.
  intros Hk. unfold display_card, bind, render, update, lift. rewrite Hk.
  cbn. unfold with_ui. cbn. rewrite <- !app_assoc. reflexivity.
Qed.

Lemma display_cards_spec (cards : list Card.t) :
  forall w : World matrix,
    Forall (fun c => exists k, PyInt.of_float (Card.confidence c) = inr k) cards ->
    display_cards cards w =
    (inr tt,
     with_ui (ui w ++ map (pair (container w))
                          (flat_map (fun c => card_widgets c (PyInt.trunc (Card.confidence c)))
                                    cards)) w).
Proof.
  induction cards as [|c rest IH]; intros w Hall.
  - cbn. unfold ret, with_ui. rewrite app_nil_r. now destruct w.
  - inversion Hall as [|c' rest' [k Hk] Hrest]; subst.
    cbn [display_cards flat_map]. unfold bind at 1.
    rewrite (display_card_spec c k w Hk), (IH _ Hrest).
    unfold PyInt.trunc at 2. rewrite Hk.
    unfold with_ui.
    cbn [ui container history time clock_events events cam_reads files].
    rewrite map_app, <- app_assoc. reflexivity.
Qed.

Lemma flat_map_ext_members {A B : Type} (f g : A -> list B) (l : list A) :
  (forall a, In a l -> f a = g a) -> flat_map f l = flat_map g l.
Proof.
  induction l as [|a tl IH]; intros Hfg; cbn; [reflexivity|].
  rewrite (Hfg a (or_introl eq_refl)), IH; [reflexivity|].
  intros b Hb. apply Hfg. now right.
Qed.

(** C6, as amended: for cards whose confidence [int] accepts (finite
    numbers), [display_cards] renders for each card its four elements, and
    the width of the confidence bar is the confidence with its fraction
    dropped: the quotient, rounded toward zero, of the exact value. *)
Theorem display_cards_bar_width (cards : list Card.t) (w : World matrix) :
  Forall (fun c => exists k, PyInt.of_float (Card.confidence c) = inr k) cards ->
  display_cards cards w =
  (inr tt,
   with_ui
     (ui w ++
      map (pair (container w))
          (flat_map
             (fun c => card_widgets c (Z.quot (fst (PyNum.exact (Card.confidence c)))
                                              (snd (PyNum.exact (Card.confidence c)))))
             cards)) w).
Proof.
  intros Hall. rewrite (display_cards_spec cards w Hall).
  do 3 f_equal. f_equal.
  apply flat_map_ext_members. intros c Hc.
  rewrite Forall_forall in Hall. destruct (Hall c Hc) as [k Hk].
  unfold PyInt.trunc. rewrite Hk. now rewrite (of_float_quot _ _ Hk).
Qed.

End DisplayFacts.

(** C6, witness: the card of the happy face has a bar 82 percent wide. *)
Lemma display_cards_bar_width_witness :
  display_cards [card_of (0, happy_face)] (fresh_session unit 0) =
  (inr tt,
   with_ui (map (pair Page) (card_widgets (card_of (0, happy_face)) 82))
           (fresh_session unit 0)).
Proof.
  apply (display_cards_bar_width [card_of (0, happy_face)] (fresh_session unit 0)).
  constructor; [|constructor]. exists 82. vm_compute. reflexivity.
Defined.

(** C6, as stated, fails: the detector's 0.57 becomes the confidence
    56.99999999999999, whose nearest percent is 57, and the bar is rendered
    56 percent wide. *)
Lemma bar_width_is_not_nearest_percent :
  let env := demo_externals [face_57] (fun _ => true) in
  let c := card_of (0, face_57) in
  fst (@analyze_emotions unit env demo_jpeg None default_threshold (fresh_session unit 0))
    = inr ([c], None) /\
  PyNum.nearest_integer (Card.confidence c) = 57 /\
  ui (snd (display_cards [c] (fresh_session unit 0)))
    = map (pair Page) (card_widgets c 56) /\
  @card_widgets unit c 56 <> card_widgets c 57.
Proof.
  cbv zeta. split; [vm_compute; reflexivity|].
  split; [vm_compute; reflexivity|].
  split; [vm_compute; reflexivity|].
  intros E. apply (f_equal (fun l => nth 2 l (Subheader ""))) in E.
  vm_compute in E. discriminate E.
Qed.
Module CsvFacts.
Import Csv.

Lemma special_false (c : ascii) :
  special c = false ->
  Ascii.eqb c comma = false /\ Ascii.eqb c dquote = false /\
  Ascii.eqb c lf = false /\ Ascii.eqb c cr = false.
Proof.
  unfold special. intros Hs.
  repeat (apply orb_false_elim in Hs; destruct Hs as [Hs ?]). auto.
Qed.

Lemma append_assoc (a b c : string) : ((a ++ b) ++ c = a ++ (b ++ c))%string.
Proof. induction a as [|x a IH]; cbn; [reflexivity | now rewrite IH]. Qed.

Lemma append_nil_r (a : string) : (a ++ "" = a)%string.
Proof. induction a as [|x a IH]; cbn; [reflexivity | now rewrite IH]. Qed.

(** Reading the rest of an unquoted field. *)
Lemma read_unquoted_body (body : string) :
  has_special body = false ->
  forall fld r rest,
    read Unquoted fld r (body ++ rest) = read Unquoted (fld ++ body) r rest.
Proof.
  induction body as [|c body IH]; cbn [has_special append]; intros Hs fld r rest.
  - now rewrite append_nil_r.
  - apply orb_false_elim in Hs. destruct Hs as [Hc Hb].
    destruct (special_false c Hc) as (E1 & E2 & E3 & E4).
    cbn [read]. rewrite E1, E3. rewrite (IH Hb).
    now rewrite append_assoc.
Qed.

(** Reading the escaped text of a quoted field. *)
Lemma read_quoted_body (body : string) :
  forall fld r rest,
    read Quoted fld r (escape body ++ String dquote rest) =
    read QuoteSeen (fld ++ body) r rest.
Proof.
  induction body as [|c body IH]; intros fld r rest; cbn [escape append].
  - cbn [read]. rewrite Ascii.eqb_refl. now rewrite append_nil_r.
  - destruct (Ascii.eqb c dquote) eqn:E.
    + apply Ascii.eqb_eq in E. subst c.
      cbn [append read]. rewrite !Ascii.eqb_refl.
      rewrite IH. now rewrite append_assoc.
    + cbn [append read]. rewrite E. rewrite IH. now rewrite append_assoc.
Qed.

(** Reading one written field and the separator after it. *)
Lemma read_field (f : string) (sep : ascii) (r : list string) (rest : string) :
  sep = comma \/ sep = lf ->
  read FieldStart EmptyString r (field f ++ String sep rest) =
  after sep (r ++ [f])%list rest.
Proof.
  intros Hsep. unfold field, after.
  assert (Hq : Ascii.eqb sep dquote = false) by (destruct Hsep; subst; reflexivity).
  assert (Hl : Ascii.eqb sep comma = false -> Ascii.eqb sep lf = true).
  { destruct Hsep; subst; [discriminate | reflexivity]. }
  destruct (has_special f) eqn:Hs.
  - cbn [append read]. rewrite Ascii.eqb_refl.
    rewrite append_assoc. cbn [append].
    rewrite read_quoted_body. cbn [append read]. rewrite Hq.
    destruct (Ascii.eqb sep comma) eqn:Ec; [reflexivity|].
    now rewrite (Hl eq_refl).
  - destruct f as [|c f]; cbn [append read].
    + rewrite Hq. destruct (Ascii.eqb sep comma) eqn:Ec; [reflexivity|].
      now rewrite (Hl eq_refl).
    + cbn [has_special] in Hs. apply orb_false_elim in Hs. destruct Hs as [Hc Hf].
      destruct (special_false c Hc) as (E1 & E2 & E3 & E4).
      rewrite E2, E1, E3. rewrite (read_unquoted_body f Hf).
      cbn [append read].
      destruct (Ascii.eqb sep comma) eqn:Ec; [reflexivity|].
      now rewrite (Hl eq_refl).
Qed.

(** Reading one written line. *)
Lemma read_joined (fs : list string) :
  fs <> [] ->
  forall r rest,
    read FieldStart EmptyString r (join (map field fs) ++ String lf rest) =
    cons_row (r ++ fs)%list (read FieldStart EmptyString [] rest).
Proof.
  induction fs as [|f fs IH]; [congruence|]. intros _ r rest.
  destruct fs as [|g fs].
  - cbn [map join]. rewrite read_field by (now right). reflexivity.
  - cbn [map join]. cbn [map] in IH.
    rewrite append_assoc. cbn [append].
    rewrite read_field by (now left). unfold after. rewrite Ascii.eqb_refl.
    rewrite IH by discriminate.
    now rewrite <- app_assoc.
Qed.

Lemma read_row (fs : list string) (r : list string) (rest : string) :
  fs <> [] ->
  read FieldStart EmptyString r (row fs ++ rest) =
  cons_row (r ++ fs)%list (read FieldStart EmptyString [] rest).
Proof.
  intros Hfs. unfold row. rewrite append_assoc. cbn [append].
  now apply read_joined.
Qed.

(** What the writer wrote, the reader reads. *)
Lemma parse_rows (rs : list (list string)) :
  Forall (fun r => r <> []) rs -> parse (rows rs) = Some rs.
Proof.
  unfold parse. induction 1 as [|r rs Hr _ IH]; [reflexivity|].
  cbn [rows]. rewrite read_row by exact Hr. rewrite IH. reflexivity.
Qed.

End CsvFacts.

(** ** Percentages rounded to two decimals *)

Module PyNumPercent.

Lemma digits2_pos_upper (m : positive) : Zpos m < 2 ^ Zpos (digits2_pos m).
Proof.
  induction m as [m IH|m IH|]; cbn [digits2_pos]; [| |cbn; lia].
  - rewrite Pos2Z.inj_succ, Z.pow_succ_r by lia. lia.
  - rewrite Pos2Z.inj_succ, Z.pow_succ_r by lia. lia.
Qed.

(** The nearest integer to [n / d] is at most [K] when [n / d] is. *)
Lemma rhe_div_bounds (n d K : Z) :
  0 <= n -> 0 < d -> n <= K * d -> 0 <= PyNum.rhe_div n d <= K.
Proof.
  intros Hn Hd HK. unfold PyNum.rhe_div. cbv zeta.
  pose proof (Z.div_mod n d ltac:(lia)) as Hdm.
  pose proof (Z.mod_pos_bound n d Hd) as Hr.
  assert (Hq : 0 <= n / d) by (apply Z.div_pos; lia).
  assert (HqK : n / d <= K) by nia.
  assert (Hup : 0 < n mod d -> n / d + 1 <= K) by nia.
  destruct (Z.compare_spec (2 * (n mod d)) d) as [E|E|E].
  - destruct (Z.even (n / d)); lia.
  - lia.
  - lia.
Qed.

(** The hundredths of [m * 2^e], for a mantissa and an exponent that are not
    above those of 100. *)
Lemma scaled_rhe_percent (m : positive) (e : Z) :
  Z.max (Zpos (digits2_pos m) + e - 53) (-1074) = e ->
  (e < -46 \/ (e = -46 /\ Zpos m <= 7036874417766400)) ->
  0 <= PyNum.scaled_rhe 2 m e <= 10000.
Proof.
  intros Hcanon Hcmp. unfold PyNum.scaled_rhe. cbv zeta.
  change (10 ^ 2) with 100.
  destruct Hcmp as [He | [-> Hle]].
  - assert (Hd : Zpos (digits2_pos m) <= 53) by lia.
    pose proof (digits2_pos_upper m) as Hm.
    assert (Hm53 : Zpos m < 2 ^ 53).
    { apply (Z.lt_le_trans _ _ _ Hm). apply Z.pow_le_mono_r; lia. }
    change (2 ^ 53) with 9007199254740992 in Hm53.
    clear Hcanon Hd Hm.
    destruct (0 <=? e) eqn:E0; [apply Z.leb_le in E0; lia|]. clear E0.
    assert (Hp : 2 ^ 47 <= 2 ^ (- e)) by (apply Z.pow_le_mono_r; lia).
    change (2 ^ 47) with 140737488355328 in Hp.
    generalize dependent (2 ^ (- e)). intros p Hp.
    apply rhe_div_bounds; lia.
  - clear Hcanon. change (0 <=? -46) with false. cbv iota.
    change (2 ^ (- (-46))) with 70368744177664.
    apply rhe_div_bounds; lia.
Qed.

(** The text written for each of the 10001 hundredths from 0.0 to 100.0
    reads back as the float it was written for; checked one by one. *)
Lemma hundredths_read_back (k : Z) :
  0 <= k <= 10000 ->
  PyFloat.of_string (Pandas.float_text (PyNum.nearest_float false k 100))
  = Some (PyNum.nearest_float false k 100).
Proof.
  intros Hk.
  assert (Hok : hundredth_reads_back k = true).
  { apply (forall_below_spec (Z.to_nat 10001) hundredth_reads_back);
      [vm_compute; reflexivity | rewrite Z2Nat.id; lia]. }
  unfold hundredth_reads_back in Hok. cbv zeta in Hok.
  destruct (PyFloat.of_string (Pandas.float_text (PyNum.nearest_float false k 100)))
    as [y|]; [|discriminate].
  apply FloatAxioms.Leibniz.eqb_spec in Hok. now subst.
Qed.

Lemma zeros_read_back (s : bool) :
  PyFloat.of_string (Pandas.float_text (SF2Prim (S754_zero s)))
  = Some (SF2Prim (S754_zero s)).
Proof. destruct s; vm_compute; reflexivity. Qed.

(** [<=] on two positive finite floats: by exponent, then by mantissa. *)
Lemma sfleb_finite (m M : positive) (e E : Z) :
  SFleb (S754_finite false m e) (S754_finite false M E) = true ->
  e < E \/ (e = E /\ Zpos m <= Zpos M).
Proof.
  unfold SFleb. cbn [SFcompare]. intros Hcmp.
  destruct (Z.compare_spec e E) as [He|He|He].
  - right. split; [exact He|]. apply Pos2Z.pos_le_pos.
    intros Hgt. change (PosDef.Pos.compare_cont Eq m M = Gt) in Hgt.
    rewrite Hgt in Hcmp. discriminate.
  - now left.
  - discriminate.
Qed.

(** A positive float that is [<= 100] has at most 10000 hundredths. *)
Lemma percent_range (conf : float) (m : positive) (e : Z) :
  Prim2SF conf = S754_finite false m e ->
  SFleb (S754_finite false m e) (S754_finite false 7036874417766400 (-46)) = true ->
  0 <= PyNum.scaled_rhe 2 m e <= 10000.
Proof.
  intros E Hcmp.
  pose proof (Prim2SF_valid conf) as Hv. rewrite E in Hv.
  unfold valid_binary, bounded, canonical_mantissa, fexp, emin, FloatOps.prec,
    FloatOps.emax in Hv.
  apply andb_prop in Hv. destruct Hv as [Hcanon _].
  apply Z.eqb_eq in Hcanon.
  apply scaled_rhe_percent; [exact Hcanon|].
  exact (sfleb_finite m 7036874417766400 e (-46) Hcmp).
Qed.

Lemma prim2sf_0 : Prim2SF 0 = S754_zero false.
Proof. vm_compute. reflexivity. Qed.

Lemma prim2sf_100 : Prim2SF 100 = S754_finite false 7036874417766400 (-46).
Proof. vm_compute. reflexivity. Qed.

(** [round(conf, 2)] of a percentage is written to the file as a text that
    reads back as the same float. *)
Lemma rounded_percent_reads_back (conf : float) :
  PyNum.ge conf 0 = true ->
  PyNum.ge 100 conf = true ->
  PyFloat.of_string (Pandas.float_text (PyNum.round_ndigits conf 2))
  = Some (PyNum.round_ndigits conf 2).
Proof.
  unfold PyNum.ge. rewrite !leb_spec, prim2sf_0, prim2sf_100.
  intros H0 H100.
  destruct (Prim2SF conf) as [s|s| |s m e] eqn:E.
  - assert (Ec : PyNum.round_ndigits conf 2 = SF2Prim (S754_zero s)).
    { unfold PyNum.round_ndigits. rewrite E, <- E. symmetry. apply SF2Prim_Prim2SF. }
    rewrite Ec. apply zeros_read_back.
  - destruct s; discriminate.
  - discriminate.
  - destruct s; [discriminate|].
    assert (Ec : PyNum.round_ndigits conf 2
                 = PyNum.nearest_float false (PyNum.scaled_rhe 2 m e) 100).
    { unfold PyNum.round_ndigits. rewrite E. reflexivity. }
    rewrite Ec. apply hundredths_read_back.
    exact (percent_range conf m e E H100).
Qed.

End PyNumPercent.

(** ** Export *)

Section ExportFacts.

Context {matrix : Type} `{Externals matrix}.

Lemma int_text_reads_back (n : Z) : PyInt.of_string (PyInt.to_string n) = Some n.
Proof.
  unfold PyInt.of_string, PyInt.to_string.
  rewrite NilZero.isi.
  - cbn. now rewrite DecimalZ.of_to.
  - destruct n; cbn; try discriminate.
    intros E. inversion E as [E']. revert E'. apply DecimalPos.Unsigned.to_uint_nonnil.
  - destruct n; cbn; try discriminate.
    intros E. inversion E as [E']. revert E'. apply DecimalPos.Unsigned.to_uint_nonnil.
Qed.

Lemma entry_of_fields_of_entry (e : Entry.t) :
  reads_back e -> entry_of_fields (fields_of_entry e) = Some e.
Proof.
  intros Hrb. unfold entry_of_fields, fields_of_entry.
  rewrite int_text_reads_back, Hrb. now destruct e.
Qed.

Lemma entries_of_lines_fields (h : list Entry.t) :
  Forall reads_back h -> entries_of_lines (map fields_of_entry h) = Some h.
Proof.
  induction 1 as [|e h He _ IH]; cbn [map entries_of_lines]; [reflexivity|].
  now rewrite (entry_of_fields_of_entry e He), IH.
Qed.

Lemma to_csv_history (h : list Entry.t) :
  h <> [] ->
  Pandas.to_csv (history_frame h) = Csv.rows (history_columns :: map fields_of_entry h).
Proof.
  intros Hne. unfold Pandas.to_csv, history_frame. cbn [Pandas.columns Pandas.rows].
  destruct h as [|e h]; [congruence|].
  rewrite map_map. reflexivity.
Qed.

Lemma parse_history_csv (h : list Entry.t) :
  h <> [] ->
  Csv.parse (Pandas.to_csv (history_frame h))
    = Some (history_columns :: map fields_of_entry h) /\
  (Forall reads_back h -> parse_history (Pandas.to_csv (history_frame h)) = Some h).
Proof.
  intros Hne.
  assert (Hp : Csv.parse (Pandas.to_csv (history_frame h))
               = Some (history_columns :: map fields_of_entry h)).
  { rewrite (to_csv_history h Hne). apply CsvFacts.parse_rows.
    constructor; [discriminate|].
    apply Forall_forall. intros r Hr. apply in_map_iff in Hr.
    destruct Hr as (e & <- & _). discriminate. }
  split; [exact Hp|].
  intros Hrb. unfold parse_history. rewrite Hp.
  destruct (list_eq_dec string_dec history_columns history_columns) as [_|Hn];
    [|congruence].
  now apply entries_of_lines_fields.
Qed.

Lemma percent_entry_reads_back (e : Entry.t) : percent_entry e -> reads_back e.
Proof.
  intros (conf & H0 & H100 & Ec). unfold reads_back. rewrite Ec.
  now apply PyNumPercent.rounded_percent_reads_back.
Qed.

(** The entries the analysis logs for faces whose confidence is a
    percentage are entries of that kind. *)
Lemma new_entries_percent (faces : list (Z * DetectionResult)) :
  Forall (fun ir => PyNum.ge (top_confidence (snd ir)) 0 = true /\
                    PyNum.ge 100 (top_confidence (snd ir)) = true) faces ->
  forall w : World matrix, Forall percent_entry (new_entries w faces).
Proof.
  induction 1 as [|ir tl [H0 H100] _ IH]; intros w; cbn [new_entries];
    constructor; [|apply IH].
  exists (top_confidence (snd ir)). repeat split; assumption.
Qed.

(** C4: with a history that is not empty, a run of the script on the Home
    tab with the export button pressed writes the file
    [emotion_history.csv] and leaves the history as it is.  The text of the
    file depends on the history alone: whatever the path held before is
    replaced; other files are untouched.  It begins with the line
    [timestamp,face,emotion,confidence]; read as CSV it is that header
    followed by one line per entry, in the order of the log.  For a history
    of entries whose confidence is [round(conf, 2)] of a percentage, a
    number from 0 to 100, re-parsing the file gives back the history, entry
    for entry: timestamp, face number, emotion and the two-decimal
    confidence, which the text in the file determines exactly. *)
Theorem export_writes_history (i : Inputs) (w : World matrix) :
  tab i = Home ->
  export i = true ->
  history w <> [] ->
  Forall percent_entry (history w) ->
  exists w' text lines,
    script i w = (inr tt, w') /\
    history w' = history w /\
    files w' "emotion_history.csv" = Some text /\
    (forall q, q <> "emotion_history.csv" -> files w' q = files w q) /\
    text = Pandas.to_csv (history_frame (history w)) /\
    text = ("timestamp,face,emotion,confidence" ++ nl ++ Csv.rows lines)%string /\
    Csv.parse text = Some (["timestamp"; "face"; "emotion"; "confidence"] :: lines) /\
    List.length lines = List.length (history w) /\
    lines = map fields_of_entry (history w) /\
    (forall (k : nat) (e : Entry.t),
        nth_error (history w) k = Some e ->
        exists cf,
          nth_error lines k
          = Some [Entry.timestamp e; PyInt.to_string (Entry.face e); Entry.emotion e; cf] /\
          PyFloat.of_string cf = Some (Entry.confidence e)) /\
    parse_history text = Some (history w).
Proof.
  intros Htab Hexp Hne Hpc.
  assert (Hrb : Forall reads_back (history w)).
  { revert Hpc. apply Forall_impl. exact percent_entry_reads_back. }
  destruct (parse_history_csv (history w) Hne) as [Hp Hh].
  assert (Hlen : (0 <? Z.of_nat (List.length (history w))) = true).
  { apply Z.ltb_lt. destruct (history w); [congruence | cbn; lia]. }
  assert (Hlines : forall (k : nat) (e : Entry.t),
             nth_error (history w) k = Some e ->
             exists cf,
               nth_error (map fields_of_entry (history w)) k
               = Some [Entry.timestamp e; PyInt.to_string (Entry.face e);
                       Entry.emotion e; cf] /\
               PyFloat.of_string cf = Some (Entry.confidence e)).
  { intros k e Ek. exists (Pandas.float_text (Entry.confidence e)). split.
    - rewrite nth_error_map, Ek. reflexivity.
    - rewrite Forall_forall in Hrb. apply Hrb. eapply nth_error_In, Ek. }
  unfold script, home_tab, bind, render, update, write_file, ret.
  rewrite Htab, Hexp.
  destruct (dark_mode i); cbn [history with_ui with_files files ui container];
    rewrite Hlen;
    (eexists; exists (Pandas.to_csv (history_frame (history w)));
     exists (map fields_of_entry (history w));
     split; [reflexivity|];
     cbn [history with_ui with_files files ui container];
     split; [reflexivity|];
     split; [reflexivity|];
     split; [intros q Hq; apply String.eqb_neq in Hq; unfold export_path;
             now rewrite Hq|];
     split; [reflexivity|];
     split; [now rewrite (to_csv_history _ Hne)|];
     split; [exact Hp|];
     split; [apply length_map|];
     split; [reflexivity|];
     split; [exact Hlines | now apply Hh]).
Qed.

End ExportFacts.
(** ** What a computation leaves alone *)

Section FrameConditions.

Context {matrix : Type} `{Externals matrix}.

Variable R : World matrix -> World matrix -> Prop.

Hypothesis R_refl : forall w, R w w.
Hypothesis R_trans : forall w1 w2 w3, R w1 w2 -> R w2 w3 -> R w1 w3.
Hypothesis R_ui : forall u w, R w (with_ui u w).
Hypothesis R_history : forall h w, R w (with_history h w).
Hypothesis R_container : forall c w, R w (with_container c w).
Hypothesis R_files : forall f w, R w (with_files f w).
Hypothesis R_observe : forall w, R w (observe w).

Lemma respects_bind {A B : Type} (c : M (matrix := matrix) A) (k : A -> M B) :
  respects R c -> (forall a, respects R (k a)) -> respects R (bind c k).
Proof.
  intros Hc Hk w. unfold bind. specialize (Hc w).
  destruct (c w) as [[e|a] w1]; cbn [snd] in *; [exact Hc|].
  exact (R_trans _ _ _ Hc (Hk a w1)).
Qed.

Lemma respects_ret {A : Type} (a : A) : respects R (ret a).
Proof. intros w. apply R_refl. Qed.

Lemma respects_lift {A : Type} (r : exn + A) : respects R (lift r).
Proof. intros w. apply R_refl. Qed.

Lemma respects_render (x : Widget matrix) : respects R (render x).
Proof. intros w. apply R_ui. Qed.

Lemma respects_now : respects R datetime_now.
Proof. intros w. apply R_observe. Qed.

Lemma respects_history_append (e : Entry.t) : respects R (history_append e).
Proof. intros w. apply R_history. Qed.

Lemma respects_within {A : Type} (c : Container) (body : M (matrix := matrix) A) :
  respects R body -> respects R (within c body).
Proof.
  intros Hb w. unfold within. specialize (Hb (with_container c w)).
  destruct (body (with_container c w)) as [r w1]. cbn [snd] in *.
  eapply R_trans; [apply R_container|]. eapply R_trans; [exact Hb|].
  apply R_container.
Qed.

Lemma respects_for_results (threshold : float) (results : list DetectionResult) :
  forall i frame cards, respects R (for_results threshold i results frame cards).
Proof.
  induction results as [|r rest IH]; intros i frame cards; cbn [for_results].
  - apply respects_ret.
  - apply respects_bind; [apply respects_lift|]. intros item.
    destruct (PyNum.lt (snd item * 100) threshold); [apply IH|].
    apply respects_bind; [apply respects_now|]. intros now.
    apply respects_bind; [apply respects_history_append|]. intros _. apply IH.
Qed.

Lemma respects_analyze (image_bytes : bytes) (frame : option (Frame matrix))
      (threshold : float) :
  respects R (analyze_emotions image_bytes frame threshold).
Proof.
  unfold analyze_emotions. apply respects_bind; [apply respects_lift|]. intros img.
  apply respects_bind; [apply respects_lift|]. intros results.
  apply respects_for_results.
Qed.

Lemma respects_display_cards (cards : list Card.t) : respects R (display_cards cards).
Proof.
  induction cards as [|c rest IH]; cbn [display_cards]; [apply respects_ret|].
  apply respects_bind; [|intros _; exact IH].
  unfold display_card.
  repeat (apply respects_bind;
          [first [apply respects_render | apply respects_lift]|]; intros ?).
  apply respects_render.
Qed.

(** Analysing an image and showing the result. *)
Lemma respects_show (image_bytes : bytes) (frame : option (Frame matrix)) :
  respects R
    (bind (analyze_emotions image_bytes frame default_threshold)
          (fun r => bind (render (Image (snd r))) (fun _ => display_cards (fst r)))).
Proof.
  apply respects_bind; [apply respects_analyze|]. intros r.
  apply respects_bind; [apply respects_render|]. intros _.
  apply respects_display_cards.
Qed.



(** The part of a Live pass that comes before the sleep. *)
Lemma respects_live_show (f : Frame matrix) :
  respects R
    (bind (analyze_emotions (imencode_jpg f) (Some f) default_threshold)
          (fun r => bind (within FrameSpace (render (Image (snd r))))
                         (fun _ => within CardSpace (display_cards (fst r))))).
Proof.
  apply respects_bind; [apply respects_analyze|]. intros r.
  apply respects_bind; [apply respects_within, respects_render|]. intros _.
  apply respects_within, respects_display_cards.
Qed.

End FrameConditions.

(** ** Capture and Live *)

Section CameraFacts.

Context {matrix : Type} `{Externals matrix}.

Lemma same_camera_refl (w : World matrix) : same_camera w w.
Proof. now split. Qed.

Lemma same_camera_trans (w1 w2 w3 : World matrix) :
  same_camera w1 w2 -> same_camera w2 w3 -> same_camera w1 w3.
Proof. unfold same_camera. intros [A B] [C D]. split; congruence. Qed.

Lemma not_earlier_trans (w1 w2 w3 : World matrix) :
  not_earlier w1 w2 -> not_earlier w2 w3 -> not_earlier w1 w3.
Proof. unfold not_earlier. apply N.le_trans. Qed.

Lemma observe_not_earlier (w : World matrix) : not_earlier w (observe w).
Proof. unfold not_earlier. rewrite observe_time. lia. Qed.

(** Analysis and display never touch the camera, whether they return or
    raise. *)
Lemma show_same_camera (image_bytes : bytes) (frame : option (Frame matrix))
      (w : World matrix) :
  same_camera w
    (snd (bind (analyze_emotions image_bytes frame default_threshold)
               (fun r => bind (render (Image (snd r)))
                              (fun _ => display_cards (fst r))) w)).
Proof.
  apply (respects_show same_camera same_camera_refl same_camera_trans);
    intros; split; reflexivity.
Qed.



(** A pass that gets as far as its sleep takes at least 5 seconds. *)
Lemma live_frame_takes_time (f : Frame matrix) (w w' : World matrix) :
  live_frame f w = (inr tt, w') ->
  (time w + 5 * us_per_second <= time w')%N.
Proof.
  unfold live_frame. cbv zeta.
  change (bind (analyze_emotions (imencode_jpg f) (Some f) default_threshold)
               (fun r => bind (within FrameSpace (render (Image (snd r))))
                       (fun _ => bind (within CardSpace (display_cards (fst r)))
                                      (fun _ => time_sleep 5))) w = (inr tt, w') ->
          (time w + 5 * us_per_second <= time w')%N).
  assert (Hshow : not_earlier w (snd
            (bind (analyze_emotions (imencode_jpg f) (Some f) default_threshold)
               (fun r => bind (within FrameSpace (render (Image (snd r))))
                       (fun _ => within CardSpace (display_cards (fst r)))) w))).
  { apply (respects_live_show not_earlier);
      first [ exact not_earlier_trans | exact observe_not_earlier
            | intros; apply N.le_refl ]. }
  unfold bind in *.
  destruct (analyze_emotions (imencode_jpg f) (Some f) default_threshold w)
    as [[e|r] w1]; [discriminate|].
  destruct (within FrameSpace (render (Image (snd r))) w1) as [[e|[]] w2];
    [discriminate|].
  destruct (within CardSpace (display_cards (fst r)) w2) as [[e|[]] w3];
    [discriminate|].
  cbn [snd] in Hshow. unfold not_earlier in Hshow.
  unfold time_sleep. cbv zeta. intros E. inversion E. subst w'.
  cbn [time with_events with_clock].
  pose proof (observe_time w3) as Hobs. clock_lia.
Qed.

(** The loop never runs out of fuel that covers the rest of the budget. *)
Lemma live_loop_finishes (start : N) :
  forall (fuel : nat) (w : World matrix),
    (start <= time w)%N ->
    (live_budget <= time w - start + N.of_nat (pred fuel) * (5 * us_per_second))%N ->
    fuel <> 0%nat ->
    fst (live_loop fuel start w) <> inr Unfinished.
Proof.
  induction fuel as [|fuel IH]; intros w Hstart Hfuel Hnz; [congruence|].
  cbn [live_loop]. unfold bind at 1. unfold time_time. cbv zeta.
  pose proof (observe_time w) as Hobs.
  destruct (time (observe w) - start <? live_budget)%N eqn:Hlt; [|discriminate].
  apply N.ltb_lt in Hlt.
  unfold bind at 1. unfold cap_read. cbv zeta.
  destruct (camera (cam_reads (observe w))) as [m|]; cbn [option_map];
    [|discriminate].
  set (w1 := with_events _ _ _).
  unfold bind at 1.
  destruct (live_frame (fresh_frame m) w1) as [[e|[]] w2] eqn:Ef; [discriminate|].
  apply live_frame_takes_time in Ef.
  assert (Ht1 : time w1 = time (observe w)) by reflexivity.
  apply IH.
  - clock_lia.
  - destruct fuel as [|fuel']; cbn [pred] in *; clock_lia.
  - intros ->. cbn [pred] in Hfuel. clock_lia.
Qed.

Lemma live_loop_step (fuel : nat) (start : N) (w : World matrix) :
  live_loop (S fuel) start w =
  bind time_time
    (fun t =>
       if (t - start <? live_budget)%N then
         bind cap_read
           (fun frame =>
              match frame with
              | None => bind (render (ErrorBox "Webcam error.")) (fun _ => ret ReadFailed)
              | Some f => bind (live_frame f) (fun _ => live_loop fuel start)
              end)
       else ret BudgetElapsed) w.
Proof. reflexivity. Qed.

(** More fuel than the loop needs changes nothing. *)
Lemma live_loop_more_fuel (start : N) :
  forall (fuel : nat) (w : World matrix),
    fst (live_loop fuel start w) <> inr Unfinished ->
    live_loop (S fuel) start w = live_loop fuel start w.
Proof.
  induction fuel as [|fuel IH]; intros w Hfin; [now contradiction Hfin|].
  rewrite (live_loop_step (S fuel)), (live_loop_step fuel).
  rewrite live_loop_step in Hfin.
  unfold bind in *.
  destruct (time_time w) as [[e|t] w0]; [reflexivity|].
  destruct (t - start <? live_budget)%N; [|reflexivity].
  destruct (cap_read w0) as [[e|[f|]] w1]; try reflexivity.
  destruct (live_frame f w1) as [[e|[]] w2]; [reflexivity|].
  now apply IH.
Qed.

Lemma live_loop_fuel_irrelevant (fuel : nat) (w : World matrix) :
  (live_fuel <= fuel)%nat ->
  live_loop fuel (time w) w = live_loop live_fuel (time w) w.
Proof.
  induction 1 as [|fuel Hle IH]; [reflexivity|].
  rewrite <- IH. apply live_loop_more_fuel.
  apply live_loop_finishes.
  - apply N.le_refl.
  - unfold live_fuel in Hle. destruct fuel as [|fuel']; [lia|]. cbn [pred]. clock_lia.
  - unfold live_fuel in Hle. lia.
Qed.

Lemma quiet_refl (w : World matrix) : quiet w w.
Proof. unfold quiet. repeat split. apply N.le_refl. Qed.

Lemma quiet_trans (w1 w2 w3 : World matrix) :
  quiet w1 w2 -> quiet w2 w3 -> quiet w1 w3.
Proof.
  unfold quiet. intros (A1 & A2 & A3 & A4 & A5) (B1 & B2 & B3 & B4 & B5).
  repeat split; try congruence. lia.
Qed.

(** The analysis of a camera frame returns, and is quiet. *)
Lemma analysis_quiet (f : Frame matrix) (w : World matrix) :
  camera_analysable ->
  exists cards frame' w',
    analyze_emotions (imencode_jpg f) (Some f) default_threshold w
      = (inr (cards, frame'), w') /\
    Forall (fun c => exists k, PyInt.of_float (Card.confidence c) = inr k) cards /\
    quiet w w'.
Proof.
  intros Hcam. destruct (Hcam f) as (results & Hdet & Hwf & Hpres).
  set (Q := qualifying default_threshold 0 results).
  exists (map card_of Q), (fold_left draw_face Q (Some f)), (fold_left log_face Q w).
  split; [apply analyze_emotions_spec; [exact Hdet | exact Hwf | reflexivity]|].
  split.
  - apply Forall_forall. intros c Hc. apply in_map_iff in Hc.
    destruct Hc as ([k r] & <- & Hin). apply qualifying_position in Hin.
    destruct Hin as (_ & Hn & _). apply nth_error_In in Hn.
    rewrite Forall_forall in Hpres. exact (Hpres r Hn).
  - destruct (log_faces_spec Q w) as (_ & Ht & _ & He & Hr & Hc & _ & Hf).
    unfold quiet. auto.
Qed.

(** Showing cards inside a placeholder returns, and is quiet. *)
Lemma display_quiet (c : Container) (cards : list Card.t) (w : World matrix) :
  Forall (fun c => exists k, PyInt.of_float (Card.confidence c) = inr k) cards ->
  exists w', within c (display_cards cards) w = (inr tt, w') /\ quiet w w' /\
             history w' = history w.
Proof.
  intros Hall. unfold within.
  rewrite (display_cards_spec cards _ Hall).
  eexists. split; [reflexivity|]. split; [|reflexivity].
  unfold quiet. cbn. repeat split. apply N.le_refl.
Qed.

(** A pass on a frame that can be analysed: it returns, adds a sleep of 5
    seconds to the log and takes at least as long. *)
Lemma live_frame_spec (f : Frame matrix) (w : World matrix) :
  camera_analysable ->
  exists w2,
    live_frame f w = (inr tt, w2) /\
    events w2 = (events w ++ [Sleep 5])%list /\
    cam_reads w2 = cam_reads w /\
    container w2 = container w /\
    files w2 = files w /\
    (time w + 5 * us_per_second <= time w2)%N.
Proof.
  intros Hcam. unfold live_frame. cbv zeta.
  destruct (analysis_quiet f w Hcam) as (cards & frame' & wa & Ea & Hc & Qa).
  unfold bind at 1. rewrite Ea. cbn [fst snd].
  unfold bind at 1. unfold within at 1, render, update.
  set (wb := with_container (container wa) _).
  destruct (display_quiet CardSpace cards wb Hc) as (wc & Ec & Qc & _).
  unfold bind at 1. rewrite Ec.
  unfold time_sleep. cbv zeta.
  eexists. split; [reflexivity|].
  destruct Qa as (A1 & A2 & A3 & A4 & A5).
  destruct Qc as (C1 & C2 & C3 & C4 & C5).
  subst wb.
  cbn [events cam_reads container files time with_events with_clock observe
       with_container with_ui] in *.
  rewrite C1, C2, C3, C4, A1, A2, A3, A4.
  repeat split. clock_lia.
Qed.

(** The loop from any state in which enough fuel is left. *)
Lemma live_loop_outcome (start : N) :
  camera_analysable ->
  forall (fuel : nat) (w : World matrix),
    (start <= time w)%N ->
    (live_budget <= time w - start + N.of_nat (pred fuel) * (5 * us_per_second))%N ->
    fuel <> 0%nat ->
    exists n exit w',
      live_loop fuel start w = (inr exit, w') /\
      events w' = (events w ++ passes n ++ leaving exit)%list /\
      (forall j, (j < n)%nat -> camera (cam_reads w + j) <> None) /\
      match exit with
      | BudgetElapsed => (live_budget <= time w' - start)%N
      | ReadFailed =>
          camera (cam_reads w + n) = None /\ (time w' - start < live_budget)%N
      | Unfinished => False
      end /\
      (n = 0%nat \/
       (time w + N.of_nat (n - 1) * (5 * us_per_second) < start + live_budget)%N) /\
      (time w + N.of_nat n * (5 * us_per_second) <= time w')%N /\
      container w' = container w /\
      files w' = files w.
Proof.
  intros Hcam. induction fuel as [|fuel IH]; intros w Hstart Hfuel Hnz; [congruence|].
  destruct (time (observe w) - start <? live_budget)%N eqn:Hlt.
  - destruct (camera (cam_reads w)) as [m|] eqn:Hread.
    + set (w1 := with_events (events (observe w) ++ [CamRead true])
                            (S (cam_reads w)) (observe w)).
      destruct (live_frame_spec (fresh_frame m) w1 Hcam)
        as (w2 & E2 & Ev2 & Rd2 & Co2 & Fi2 & Ti2).
      assert (El2 : live_loop (S fuel) start w = live_loop fuel start w2).
      { rewrite live_loop_step. unfold bind at 1. unfold time_time. cbv zeta.
        rewrite Hlt. unfold bind at 1. unfold cap_read. cbv zeta.
        cbn [cam_reads observe with_clock]. rewrite Hread. cbn [option_map].
        fold w1. unfold bind at 1. now rewrite E2. }
      rewrite El2. apply N.ltb_lt in Hlt.
      pose proof (observe_time w) as Hobs.
      subst w1.
      cbn [events cam_reads container files time with_events with_clock observe
           with_container with_ui] in Ev2, Rd2, Co2, Fi2, Ti2.
      rewrite <- app_assoc in Ev2. cbn [app] in Ev2.
      assert (Hf : fuel <> 0%nat).
      { intros ->. cbn in Hfuel. clock_lia. }
      destruct (IH w2) as (n & exit & w' & El & Ev & Hok & Hex & Hn & Ht & Co & Fi).
      * clock_lia.
      * destruct fuel as [|fuel']; [congruence|]. cbn [pred] in *. clock_lia.
      * exact Hf.
      * exists (S n), exit, w'. split; [exact El|].
        split; [rewrite Ev, Ev2, <- app_assoc; reflexivity|].
        split.
        { intros [|j] Hj.
          - rewrite Nat.add_0_r, Hread. discriminate.
          - specialize (Hok j ltac:(clock_lia)). rewrite Rd2 in Hok.
            now rewrite Nat.add_succ_r. }
        split.
        { destruct exit; [exact Hex | | exact Hex].
          destruct Hex as [Hnone Hearly]. split; [|exact Hearly].
          rewrite Rd2 in Hnone. now rewrite Nat.add_succ_r. }
        split.
        { right. cbn [Nat.sub]. rewrite Nat.sub_0_r.
          destruct Hn as [->|Hn]; [cbn; clock_lia|].
          destruct n as [|n']; [cbn; clock_lia|].
          cbn [Nat.sub] in Hn. rewrite Nat.sub_0_r in Hn. clock_lia. }
        split; [clock_lia|]. split; congruence.
    + exists 0%nat, ReadFailed.
      cbn [live_loop]. unfold bind at 1. unfold time_time. cbv zeta.
      rewrite Hlt. unfold bind at 1. unfold cap_read. cbv zeta.
      cbn [cam_reads observe with_clock]. rewrite Hread. cbn [option_map].
      unfold bind, render, update, ret.
      eexists. split; [reflexivity|].
      cbn [events cam_reads container files time with_events with_clock observe
           with_container with_ui passes leaving app].
      apply N.ltb_lt in Hlt. pose proof (observe_time w) as Hobs.
      cbn [observe with_clock time] in Hobs, Hlt.
      rewrite Nat.add_0_r.
      repeat split; auto; try clock_lia.
  - exists 0%nat, BudgetElapsed.
    cbn [live_loop]. unfold bind at 1. unfold time_time. cbv zeta.
    rewrite Hlt. unfold ret.
    eexists. split; [reflexivity|].
    apply N.ltb_ge in Hlt. pose proof (observe_time w) as Hobs.
    cbn [events cam_reads container files time with_events with_clock observe
         with_container with_ui passes leaving app] in *.
    rewrite app_nil_r.
    repeat split; auto; try clock_lia.
Qed.

Lemma passes_length (n : nat) : List.length (passes n) = (2 * n)%nat.
Proof. induction n as [|n IH]; cbn [passes List.length]; lia. Qed.

(** On a clock that moves only during the sleeps, logging faces takes no
    time. *)
Lemma still_clock_log_faces (faces : list (Z * DetectionResult)) :
  (forall k, elapse k = 0%N) ->
  forall w : World matrix, time (fold_left log_face faces w) = time w.
Proof.
  intros Hstill. induction faces as [|ir tl IH]; intros w; [reflexivity|].
  cbn [fold_left]. rewrite IH.
  rewrite (proj1 (log_face_fields w ir)), Hstill. apply N.add_0_r.
Qed.

(** On such a clock a pass on a frame that can be analysed takes exactly
    the 5 seconds of its sleep. *)
Lemma live_frame_exact_time (f : Frame matrix) (w : World matrix) :
  camera_analysable ->
  (forall k, elapse k = 0%N) ->
  exists w2,
    live_frame f w = (inr tt, w2) /\
    events w2 = (events w ++ [Sleep 5])%list /\
    cam_reads w2 = cam_reads w /\
    time w2 = (time w + 5 * us_per_second)%N.
Proof.
  intros Hcam Hstill. destruct (Hcam f) as (results & Hdet & Hwf & Hpres).
  unfold live_frame. cbv zeta.
  unfold bind at 1.
  rewrite (analyze_emotions_spec (imencode_jpg f) (Some f) default_threshold results w
             Hdet Hwf eq_refl).
  cbn [fst snd].
  unfold bind at 1. unfold within at 1, render, update.
  unfold bind at 1. unfold within.
  assert (Hshow : Forall (fun c => exists k, PyInt.of_float (Card.confidence c) = inr k)
                         (map card_of (qualifying default_threshold 0 results))).
  { apply Forall_forall. intros c Hc. apply in_map_iff in Hc.
    destruct Hc as ([k r] & <- & Hin). apply qualifying_position in Hin.
    destruct Hin as (_ & Hn & _). apply nth_error_In in Hn.
    rewrite Forall_forall in Hpres. exact (Hpres r Hn). }
  rewrite (display_cards_spec _ _ Hshow).
  set (Q := qualifying default_threshold 0 results).
  unfold time_sleep. cbv zeta.
  destruct (log_faces_spec Q w) as (_ & _ & _ & He & Hr & _).
  pose proof (still_clock_log_faces Q Hstill w) as Ht.
  eexists. split; [reflexivity|].
  cbn [events cam_reads container files time ui history with_events with_clock
       observe with_container with_ui clock_events].
  rewrite He, Hr, Ht, Hstill. repeat split. lia.
Qed.

(** The loop on such a clock, when it returns: [n] passes take exactly
    [5 n] seconds. *)
Lemma live_loop_exact_time (start : N) :
  camera_analysable ->
  (forall k, elapse k = 0%N) ->
  forall (fuel : nat) (w : World matrix) (exit : LoopExit) (w' : World matrix),
    live_loop fuel start w = (inr exit, w') ->
    exists n,
      events w' = (events w ++ passes n ++ leaving exit)%list /\
      time w' = (time w + N.of_nat n * 5000000)%N.
Proof.
  intros Hcam Hstill. induction fuel as [|fuel IH]; intros w exit w' Hrun.
  - cbn in Hrun. injection Hrun as <- <-. exists 0%nat.
    cbn. rewrite app_nil_r. split; [reflexivity | lia].
  - rewrite live_loop_step in Hrun. unfold bind at 1 in Hrun.
    unfold time_time in Hrun. cbv zeta in Hrun.
    assert (Hobs : time (observe w) = time w).
    { rewrite observe_time, Hstill. apply N.add_0_r. }
    destruct (time (observe w) - start <? live_budget)%N.
    + unfold bind at 1 in Hrun. unfold cap_read in Hrun. cbv zeta in Hrun.
      cbn [cam_reads observe with_clock] in Hrun.
      destruct (camera (cam_reads w)) as [m|]; cbn [option_map] in Hrun.
      * set (w1 := with_events _ _ _) in Hrun.
        destruct (live_frame_exact_time (fresh_frame m) w1 Hcam Hstill)
          as (w2 & E2 & He2 & _ & Ht2).
        unfold bind at 1 in Hrun. rewrite E2 in Hrun.
        destruct (IH w2 exit w' Hrun) as (n & He & Ht).
        exists (S n). subst w1.
        cbn [events cam_reads container files time ui history with_events
             with_clock observe with_container with_ui] in He2, Ht2.
        cbn [time observe with_clock] in Hobs.
        rewrite He, He2, Ht, Ht2.
        rewrite <- !app_assoc. split; [reflexivity|]. clock_lia.
      * unfold bind, render, update, ret in Hrun. injection Hrun as <- <-.
        exists 0%nat.
        cbn [events cam_reads container files time ui history with_events
             with_clock observe with_container with_ui passes leaving app].
        cbn [time observe with_clock] in Hobs.
        split; [reflexivity | lia].
    + unfold ret in Hrun. injection Hrun as <- <-. exists 0%nat.
      cbn [passes leaving app]. rewrite app_nil_r.
      split; [reflexivity | lia].
Qed.

(** C7: started at the instant [start] it has just read from the clock, and
    with frames that can be analysed, the Live loop returns.  It makes at
    most 12 passes, each a successful read followed, after analysis and
    display, by a sleep of 5 seconds, so [n] passes take at least [5 n]
    seconds; a pass is started only while the clock shows less than 60
    seconds since [start].  The loop is left either because the clock shows
    60 seconds or more since [start], or because a read failed, in which
    case it stops at that read, before the 60 seconds are over.  When every
    read succeeds it is left on the budget, and then, if the clock moves
    only during the sleeps, after exactly 12 passes.  The clock counts
    microseconds: 60 seconds are 60000000 and 5 seconds 5000000 of them.
    The fuel of the model plays no part: any amount from 13 on gives the
    same run. *)
Theorem live_loop_budget_or_failure (fuel : nat) (w : World matrix) :
  camera_analysable ->
  (live_fuel <= fuel)%nat ->
  exists n exit w',
    live_loop fuel (time w) w = (inr exit, w') /\
    events w' = (events w ++ passes n ++ leaving exit)%list /\
    (n <= 12)%nat /\
    (forall j, (j < n)%nat -> camera (cam_reads w + j) <> None) /\
    (time w + N.of_nat n * 5000000 <= time w')%N /\
    (n = 0%nat \/ (time w + N.of_nat (n - 1) * 5000000 < time w + 60000000)%N) /\
    ((exit = BudgetElapsed /\ (60000000 <= time w' - time w)%N) \/
     (exit = ReadFailed /\ camera (cam_reads w + n) = None /\
      (time w' - time w < 60000000)%N)) /\
    ((forall k, camera k <> None) -> exit = BudgetElapsed) /\
    ((forall k, camera k <> None) -> (forall k, elapse k = 0%N) -> n = 12%nat) /\
    live_loop fuel (time w) w = live_loop live_fuel (time w) w.
Proof.
  intros Hcam Hfuel.
  destruct (live_loop_outcome (time w) Hcam fuel w)
    as (n & exit & w' & El & Ev & Hok & Hex & Hn & Ht & _ & _).
  - apply N.le_refl.
  - unfold live_fuel in Hfuel. clock_lia.
  - unfold live_fuel in Hfuel. lia.
  - exists n, exit, w'. split; [exact El|]. split; [exact Ev|].
    split; [destruct Hn as [->|Hn]; clock_lia|].
    split; [exact Hok|]. split; [clock_lia|].
    split; [destruct Hn as [->|Hn]; [now left | right; clock_lia]|].
    split; [|split; [|split]].
    + destruct exit; [left | right | contradiction].
      * split; [reflexivity | clock_lia].
      * destruct Hex as [Hnone Hearly]. repeat split; [exact Hnone | clock_lia].
    + intros Hall. destruct exit; [reflexivity | | contradiction].
      destruct Hex as [Hnone _]. now apply Hall in Hnone.
    + intros Hall Hstill.
      destruct (live_loop_exact_time (time w) Hcam Hstill fuel w exit w' El)
        as (n' & Ev' & Ht').
      assert (En : n' = n).
      { rewrite Ev in Ev'. apply app_inv_head, app_inv_tail in Ev'.
        apply (f_equal (@List.length Event)) in Ev'.
        rewrite !passes_length in Ev'. lia. }
      subst n'.
      assert (Hb : exit = BudgetElapsed).
      { destruct exit; [reflexivity | | contradiction].
        destruct Hex as [Hnone _]. now apply Hall in Hnone. }
      subst exit. destruct Hn as [->|Hn]; clock_lia.
    + now apply live_loop_fuel_irrelevant.
Qed.

End CameraFacts.

(** ** The camera is released *)

Section ReleaseFacts.

Context {matrix : Type} `{Externals matrix}.

(** Capture: open, sleep 1, one read, release, whatever the read gave and
    whatever happens afterwards. *)
Lemma capture_events (w : World matrix) :
  exists ok,
    events (snd (capture_tab true w))
    = (events w ++ [CamOpen; Sleep 1; CamRead ok; CamRelease])%list.
Proof.
  unfold capture_tab.
  unfold bind at 1. unfold render at 1, update. cbv iota beta.
  unfold bind at 1. unfold video_capture, log_event, update. cbv iota beta.
  unfold bind at 1. unfold time_sleep. cbv zeta iota beta.
  unfold bind at 1. unfold cap_read. cbv zeta iota beta.
  unfold bind at 1. unfold cap_release, log_event, update. cbv iota beta.
  cbn [events cam_reads container files time with_events with_clock observe
       with_container with_ui].
  destruct (camera (cam_reads w)) as [m|]; cbn [option_map].
  - exists true. rewrite (proj1 (show_same_camera _ _ _)).
    cbn [events with_events]. rewrite <- !app_assoc. reflexivity.
  - exists false. unfold render, update. cbn [snd events with_ui with_events].
    rewrite <- !app_assoc. reflexivity.
Qed.












End ReleaseFacts.

(** ** Undecodable input *)

Section DecodeFacts.

Context {matrix : Type} `{Externals matrix}.

Lemma display_cards_history (cards : list Card.t) :
  forall w : World matrix, history (snd (display_cards cards w)) = history w.
Proof.
  induction cards as [|c rest IH]; intros w; cbn [display_cards]; [reflexivity|].
  unfold bind at 1. unfold display_card, bind, render, update, lift.
  destruct (PyInt.of_float (Card.confidence c)) as [e|k]; cbn [snd]; [reflexivity|].
  now rewrite IH.
Qed.

Lemma script_preamble (i : Inputs) (w : World matrix) :
  script i w =
  match tab i with
  | Upload => upload_tab (uploaded i)
  | Capture => capture_tab (snap i)
  | Live => live_tab (start_live i)
  | Home => home_tab (export i)
  end (with_ui (ui w ++ map (pair (container w)) (preamble i)) w).
Proof.
  unfold script, preamble, bind at 1.
  destruct (dark_mode i); cbn [map].
  - reflexivity.
  - unfold ret. rewrite app_nil_r. now destruct w.
Qed.

(** C3: when the bytes cannot be decoded, so that decoding or detection on
    no image ends in the exception [e], the analysis call raises [e] and
    leaves the world, history included, exactly as it was.  A run on the
    Upload tab with such a file ends in [e]; under Streamlit the exception is
    shown on the page and nothing else changes: history, clock, camera log
    and files are those from before the run.  The session goes on: the next
    upload of an image the detector accepts is analysed and its faces are
    appended to that same history. *)
Theorem undecodable_bytes_abort_one_run (image_bytes : bytes) (e : exn) :
  undecodable image_bytes e ->
  (forall frame threshold (w : World matrix),
      analyze_emotions image_bytes frame threshold w = (inl e, w)) /\
  (forall (i : Inputs) (w : World matrix),
      tab i = Upload ->
      uploaded i = Some image_bytes ->
      fst (script i w) = inl e /\
      run i w =
      with_ui (ui w ++
               map (pair (container w)) (preamble i ++ [Subheader "🖼 Upload Image"]) ++
               [(Page, ExceptionBox e)]) w /\
      history (run i w) = history w /\
      (forall (i2 : Inputs) (bytes2 : bytes) (results : list DetectionResult),
          tab i2 = Upload ->
          uploaded i2 = Some bytes2 ->
          detection bytes2 = inr results ->
          Forall well_formed results ->
          exists added,
            history (run i2 (run i w)) = (history w ++ added)%list /\
            map Entry.face added
            = map (fun ir => fst ir + 1) (qualifying default_threshold 0 results))).
Proof.
  intros Hbad.
  assert (Hcall : forall frame threshold (w : World matrix),
             analyze_emotions image_bytes frame threshold w = (inl e, w)).
  { intros frame threshold w. unfold analyze_emotions, bind, lift.
    destruct Hbad as [-> | [-> ->]]; reflexivity. }
  split; [exact Hcall|].
  intros i w Htab Hup.
  assert (Hscript : script i w =
            (inl e,
             with_ui (ui w ++ map (pair (container w))
                                  (preamble i ++ [Subheader "🖼 Upload Image"])) w)).
  { rewrite script_preamble, Htab, Hup. unfold upload_tab.
    unfold bind at 1. unfold render, update.
    cbn [events cam_reads container files time history ui with_ui].
    rewrite map_app, app_assoc.
    unfold bind at 1, lift.
    destruct Hbad as [-> | [Hdec Hdet]]; [reflexivity|].
    rewrite Hdec. unfold bind. now rewrite Hcall. }
  assert (Hrun : run i w =
            with_ui (ui w ++
                     map (pair (container w))
                         (preamble i ++ [Subheader "🖼 Upload Image"]) ++
                     [(Page, ExceptionBox e)]) w).
  { unfold run. rewrite Hscript. unfold with_ui.
    cbn [events cam_reads container files time history ui clock_events].
    now rewrite <- app_assoc. }
  split; [now rewrite Hscript|]. split; [exact Hrun|].
  split; [now rewrite Hrun|].
  intros i2 bytes2 results Htab2 Hup2 Hdet2 Hwf2.
  set (w1 := run i w).
  assert (Hh1 : history w1 = history w) by (subst w1; now rewrite Hrun).
  set (Q := qualifying default_threshold 0 results).
  unfold run. rewrite script_preamble, Htab2, Hup2.
  set (w2 := with_ui _ w1).
  unfold upload_tab. unfold bind at 1. unfold render at 1, update.
  set (w3 := with_ui _ w2).
  unfold bind at 1, lift.
  pose proof Hdet2 as Hdec2. unfold detection in Hdec2.
  destruct (imdecode bytes2) as [e2|img] eqn:Eimg; [discriminate|].
  unfold bind at 1.
  rewrite (analyze_emotions_spec bytes2 (option_map fresh_frame img)
             default_threshold results w3 Hdet2 Hwf2 eq_refl).
  fold Q. cbn [fst snd].
  unfold bind at 1, render, update.
  set (w4 := with_ui _ (fold_left log_face Q w3)).
  exists (new_entries w3 Q).
  assert (Hh4 : history w4 = (history w ++ new_entries w3 Q)%list).
  { subst w4. cbn [history with_ui].
    rewrite (proj1 (log_faces_spec Q w3)). subst w3 w2.
    cbn [history with_ui]. now rewrite Hh1. }
  split.
  - pose proof (display_cards_history (map card_of Q) w4) as Hd.
    destruct (display_cards (map card_of Q) w4) as [[e4|[]] w5]; cbn [snd] in Hd;
      cbn [history with_ui]; now rewrite Hd, Hh4.
  - rewrite new_entries_faces, !map_map. reflexivity.
Qed.

End DecodeFacts.

(** ** The facts at work on the concrete environment *)

Lemma demo_calendar_valid (t : N) : valid_datetime (demo_calendar t).
Proof.
  unfold valid_datetime, demo_calendar. cbn [year month day hour minute second microsecond].
  pose proof (Z.mod_pos_bound (Z.of_N (t / 1000000) / 60) 60 eq_refl).
  pose proof (Z.mod_pos_bound (Z.of_N (t / 1000000)) 60 eq_refl).
  pose proof (N.mod_lt t 1000000 ltac:(discriminate)).
  repeat split; try lia. apply N2Z.is_nonneg.
Qed.

Lemma three_faces_well_formed : Forall well_formed three_faces.
Proof. repeat constructor; discriminate. Qed.

Lemma three_faces_presentable : Forall presentable three_faces.
Proof. repeat constructor; eexists; vm_compute; reflexivity. Qed.

Lemma demo_camera_analysable (cam_ok : nat -> bool) :
  @camera_analysable unit (demo_externals three_faces cam_ok).
Proof.
  intros f. exists three_faces. split; [reflexivity|].
  split; [exact three_faces_well_formed | exact three_faces_presentable].
Qed.

(** C1, witness: the three faces, of which the second is dropped. *)
Lemma analyze_emotions_card_iff_threshold_witness :
  let env := demo_externals three_faces (fun _ => true) in
  let frame := Some (fresh_frame tt) in
  let w := fresh_session unit 0 in
  @detection unit env demo_jpeg = inr three_faces /\
  Forall well_formed three_faces /\
  PyNum.ordered default_threshold /\
  exists cards frame' w' added,
    @analyze_emotions unit env demo_jpeg frame default_threshold w
      = (inr (cards, frame'), w') /\
    (forall r, In r three_faces ->
       In (top r) (emotions r) /\
       forall kv, In kv (emotions r) -> PyNum.ge (snd (top r)) (snd kv) = true) /\
    history w' = (history w ++ added)%list /\
    map Entry.face added = map Card.index cards /\
    frame' = option_map
               (fun f => {| pixels := pixels f;
                            overlay := overlay f ++
                              flat_map drawing_of
                                (qualifying default_threshold 0 three_faces) |})
               frame /\
    (forall k r, In (k, r) (qualifying default_threshold 0 three_faces) ->
                 PyNum.ge (top_confidence r) default_threshold = true) /\
    (forall (n : nat) (r : DetectionResult),
        nth_error three_faces n = Some r ->
        ((exists c, In c cards /\ Card.index c = Z.of_nat n + 1) <->
         PyNum.ge (top_confidence r) default_threshold = true) /\
        (PyNum.ge (top_confidence r) default_threshold = true ->
         In (card_of (Z.of_nat n, r)) cards) /\
        (PyNum.lt (top_confidence r) default_threshold = true ->
         (forall c, In c cards -> Card.index c <> Z.of_nat n + 1) /\
         (forall e, In e added -> Entry.face e <> Z.of_nat n + 1) /\
         ~ In (Z.of_nat n, r) (qualifying default_threshold 0 three_faces))).
Proof.
  cbv zeta.
  split; [reflexivity|]. split; [exact three_faces_well_formed|].
  split; [reflexivity|].
  apply (@analyze_emotions_card_iff_threshold
           unit (demo_externals three_faces (fun _ => true))
           demo_jpeg (Some (fresh_frame tt)) default_threshold three_faces
           (fresh_session unit 0));
    [reflexivity | exact three_faces_well_formed | reflexivity].
Defined.

(** C2, witness: two cards for three faces. *)
Lemma analyze_emotions_card_count_witness :
  let env := demo_externals three_faces (fun _ => true) in
  let w := fresh_session unit 0 in
  @detection unit env demo_jpeg = inr three_faces /\
  Forall well_formed three_faces /\
  PyNum.ordered default_threshold /\
  exists cards frame' w',
    @analyze_emotions unit env demo_jpeg None default_threshold w
      = (inr (cards, frame'), w') /\
    (forall r, In r three_faces ->
       In (top r) (emotions r) /\
       (forall kv, In kv (emotions r) -> PyNum.ge (snd (top r)) (snd kv) = true) /\
       top_confidence r = (snd (top r) * 100)%float) /\
    (List.length cards <= List.length three_faces)%nat /\
    (List.length cards = List.length three_faces <->
     Forall (fun r => PyNum.ge (top_confidence r) default_threshold = true) three_faces).
Proof.
  cbv zeta.
  split; [reflexivity|]. split; [exact three_faces_well_formed|].
  split; [reflexivity|].
  apply (@analyze_emotions_card_count
           unit (demo_externals three_faces (fun _ => true))
           demo_jpeg None default_threshold three_faces (fresh_session unit 0));
    [reflexivity | exact three_faces_well_formed | reflexivity].
Defined.

(** C9, witness: the indices of the cards for the three faces increase. *)
Lemma card_index_is_detector_position_witness :
  let env := demo_externals three_faces (fun _ => true) in
  let w := fresh_session unit 0 in
  @detection unit env demo_jpeg = inr three_faces /\
  Forall well_formed three_faces /\
  PyNum.ordered default_threshold /\
  exists cards frame' w' added,
    @analyze_emotions unit env demo_jpeg None default_threshold w
      = (inr (cards, frame'), w') /\
    history w' = (history w ++ added)%list /\
    map Entry.face added = map Card.index cards /\
    StronglySorted Z.lt (map Card.index cards) /\
    (forall c, In c cards ->
       exists (n : nat) (r : DetectionResult),
         nth_error three_faces n = Some r /\
         Card.index c = Z.of_nat n + 1 /\
         c = card_of (Z.of_nat n, r)).
Proof.
  cbv zeta.
  split; [reflexivity|]. split; [exact three_faces_well_formed|].
  split; [reflexivity|].
  apply (proj1 (@card_index_is_detector_position
                  unit (demo_externals three_faces (fun _ => true))));
    [reflexivity | exact three_faces_well_formed | reflexivity].
Defined.

(** C5, witness: the detector that finds the happy face. *)
Lemma analyze_emotions_happy_face_witness :
  let env := demo_externals [happy_face] (fun _ => true) in
  let w := fresh_session unit 0 in
  @detection unit env demo_jpeg = inr [happy_face] /\
  exists w',
    @analyze_emotions unit env demo_jpeg None default_threshold w =
    (inr ([ {| Card.index := 1;
               Card.emotion := "happy";
               Card.confidence := 82;
               Card.message := "😊 You're radiating joy!" |} ],
          draw_face None (0, happy_face)),
     w') /\
    history w' =
    (history w ++
     [ {| Entry.timestamp :=
            strftime_ymd_hms (demo_calendar (time w + 1500)%N);
          Entry.face := 1;
          Entry.emotion := "happy";
          Entry.confidence := 82 |} ])%list.
Proof.
  cbv zeta. split; [reflexivity|].
  apply (@analyze_emotions_happy_face
           unit (demo_externals [happy_face] (fun _ => true))
           demo_jpeg None (fresh_session unit 0)).
  reflexivity.
Defined.

(** C10, witness: the entries for the three faces, logged 3 minutes and 5
    seconds after 14:00:00 on 12 October 2026. *)
Lemma history_timestamp_format_witness :
  let env := demo_externals three_faces (fun _ => true) in
  let w := fresh_session unit 185000000 in
  (forall t, valid_datetime (@calendar unit env t)) /\
  @detection unit env demo_jpeg = inr three_faces /\
  Forall well_formed three_faces /\
  PyNum.ordered default_threshold /\
  map Entry.timestamp
      (history (snd (@analyze_emotions unit env demo_jpeg None default_threshold w)))
  = ["2026-10-12 14:03:05"; "2026-10-12 14:03:05"] /\
  exists cards frame' w' added,
    @analyze_emotions unit env demo_jpeg None default_threshold w
      = (inr (cards, frame'), w') /\
    history w' = (history w ++ added)%list /\
    (forall (k : nat) (e : Entry.t),
        nth_error added k = Some e ->
        Entry.timestamp e = ymd_hms_text (@calendar unit env (@reading unit env w k)) /\
        (forall us,
            @calendar unit env (@reading unit env w k)
            = {| year := 2026; month := 10; day := 12;
                 hour := 14; minute := 3; second := 5; microsecond := us |} ->
            Entry.timestamp e = "2026-10-12 14:03:05") /\
        Entry.timestamp e = strftime_ymd_hms (@calendar unit env (@reading unit env w k)) /\
        (time w <= @reading unit env w k <= time w')%N /\
        timestamp_shape (Entry.timestamp e) = true) /\
    (Forall (fun e => timestamp_shape (Entry.timestamp e) = true) (history w) ->
     Forall (fun e => timestamp_shape (Entry.timestamp e) = true) (history w')).
Proof.
  cbv zeta.
  split; [exact demo_calendar_valid|].
  split; [reflexivity|]. split; [exact three_faces_well_formed|].
  split; [reflexivity|]. split; [vm_compute; reflexivity|].
  apply (@history_timestamp_format
           unit (demo_externals three_faces (fun _ => true))
           demo_jpeg None default_threshold three_faces (fresh_session unit 185000000));
    [exact demo_calendar_valid | reflexivity | exact three_faces_well_formed
     | reflexivity].
Defined.

(** C4, witness: exporting a history of two entries, 82.0 and 61.37
    percent. *)
Lemma export_writes_history_witness :
  let env := demo_externals three_faces (fun _ => true) in
  let i := {| dark_mode := false; tab := Home; uploaded := None;
              snap := false; start_live := false; export := true |} in
  let w := with_history demo_history (fresh_session unit 0) in
  tab i = Home /\
  export i = true /\
  history w <> [] /\
  Forall percent_entry (history w) /\
  Pandas.to_csv (history_frame (history w))
  = ("timestamp,face,emotion,confidence" ++ nl ++
     "2026-10-12 14:03:05,1,happy,82.0" ++ nl ++
     "2026-10-12 14:03:05,3,angry,61.37" ++ nl)%string /\
  exists w' text lines,
    @script unit env i w = (inr tt, w') /\
    history w' = history w /\
    files w' "emotion_history.csv" = Some text /\
    (forall q, q <> "emotion_history.csv" -> files w' q = files w q) /\
    text = Pandas.to_csv (history_frame (history w)) /\
    text = ("timestamp,face,emotion,confidence" ++ nl ++ Csv.rows lines)%string /\
    Csv.parse text = Some (["timestamp"; "face"; "emotion"; "confidence"] :: lines) /\
    List.length lines = List.length (history w) /\
    lines = map fields_of_entry (history w) /\
    (forall (k : nat) (e : Entry.t),
        nth_error (history w) k = Some e ->
        exists cf,
          nth_error lines k
          = Some [Entry.timestamp e; PyInt.to_string (Entry.face e); Entry.emotion e; cf] /\
          PyFloat.of_string cf = Some (Entry.confidence e)) /\
    parse_history text = Some (history w).
Proof.
  cbv zeta.
  assert (Hpc : Forall percent_entry demo_history).
  { repeat constructor.
    - exists 82%float. repeat split; vm_compute; reflexivity.
    - exists 61.37%float. repeat split; vm_compute; reflexivity. }
  split; [reflexivity|]. split; [reflexivity|].
  split; [discriminate|]. split; [exact Hpc|].
  split; [vm_compute; reflexivity|].
  apply (@export_writes_history unit (demo_externals three_faces (fun _ => true)));
    [reflexivity | reflexivity | discriminate | exact Hpc].
Defined.

(** C7, witness: the loop on a camera that always delivers; with 1.5 ms
    before each clock event it makes 12 passes and is left on the budget. *)
Lemma live_loop_budget_or_failure_witness :
  let env := demo_externals three_faces (fun _ => true) in
  let w := fresh_session unit 0 in
  @camera_analysable unit env /\
  (live_fuel <= 13)%nat /\
  fst (@live_loop unit env 13 (time w) w) = inr BudgetElapsed /\
  events (snd (@live_loop unit env 13 (time w) w)) = passes 12 /\
  (exists n exit w',
    @live_loop unit env 13 (time w) w = (inr exit, w') /\
    events w' = (events w ++ passes n ++ leaving exit)%list /\
    (n <= 12)%nat /\
    (forall j, (j < n)%nat -> @camera unit env (cam_reads w + j) <> None) /\
    (time w + N.of_nat n * 5000000 <= time w')%N /\
    (n = 0%nat \/ (time w + N.of_nat (n - 1) * 5000000 < time w + 60000000)%N) /\
    ((exit = BudgetElapsed /\ (60000000 <= time w' - time w)%N) \/
     (exit = ReadFailed /\ @camera unit env (cam_reads w + n) = None /\
      (time w' - time w < 60000000)%N)) /\
    ((forall k, @camera unit env k <> None) -> exit = BudgetElapsed) /\
    ((forall k, @camera unit env k <> None) ->
     (forall k, @elapse unit env k = 0%N) -> n = 12%nat) /\
    @live_loop unit env 13 (time w) w = @live_loop unit env live_fuel (time w) w).
Proof.
  cbv zeta.
  split; [apply demo_camera_analysable|]. split; [apply Nat.le_refl|].
  split; [vm_compute; reflexivity|]. split; [vm_compute; reflexivity|].
  apply (@live_loop_budget_or_failure
           unit (demo_externals three_faces (fun _ => true)) 13 (fresh_session unit 0));
    [apply demo_camera_analysable | apply Nat.le_refl].
Defined.



(** C3, witness: bytes that are no image, and a detector that rejects the
    missing image. *)
Lemma undecodable_bytes_abort_one_run_witness :
  let env := demo_externals three_faces (fun _ => true) in
  let e := LibraryError "Image not valid." in
  @undecodable unit env [Byte.x00] e /\
  forall frame threshold (w : World unit),
    @analyze_emotions unit env [Byte.x00] frame threshold w = (inl e, w).
Proof.
  cbv zeta.
  assert (Hbad : @undecodable unit (demo_externals three_faces (fun _ => true))
                   [Byte.x00] (LibraryError "Image not valid.")).
  { right. split; reflexivity. }
  split; [exact Hbad|].
  apply (proj1 (@undecodable_bytes_abort_one_run
                  unit (demo_externals three_faces (fun _ => true))
                  [Byte.x00] (LibraryError "Image not valid.") Hbad)).
Defined.

(** * Further properties of the script *)

(** ** Strict order on the floats *)

Module PyNumOrder.

Import PyNum.

Lemma gt_key (a b : float) :
  gt a b = true ->
  ordered a /\ ordered b /\ lex (key (Prim2SF b)) (key (Prim2SF a)) = Lt.
Proof.
  unfold gt. rewrite ltb_spec. unfold SFltb. intros Hlt.
  assert (Ha : Prim2SF a <> S754_nan).
  { intros E. rewrite E in Hlt. destruct (Prim2SF b); discriminate. }
  assert (Hb : Prim2SF b <> S754_nan).
  { intros E. rewrite E in Hlt. discriminate. }
  rewrite (PyNumFacts.SFcompare_key _ _ Hb Ha) in Hlt.
  split; [now apply PyNumFacts.ordered_spec|].
  split; [now apply PyNumFacts.ordered_spec|].
  destruct (lex (key (Prim2SF b)) (key (Prim2SF a))); congruence.
Qed.

Lemma key_gt (a b : float) :
  ordered a -> ordered b ->
  lex (key (Prim2SF b)) (key (Prim2SF a)) = Lt -> gt a b = true.
Proof.
  intros Ha Hb Hlex. apply PyNumFacts.ordered_spec in Ha, Hb.
  unfold gt. rewrite ltb_spec. unfold SFltb.
  now rewrite (PyNumFacts.SFcompare_key _ _ Hb Ha), Hlex.
Qed.

Lemma lex_lt_le_trans (a b c : Z * Z * Z) :
  lex a b = Lt -> lex b c <> Gt -> lex a c = Lt.
Proof.
  destruct a as [[a1 a2] a3], b as [[b1 b2] b3], c as [[c1 c2] c3].
  unfold lex. cbn [fst snd].
  destruct (Z.compare_spec a1 b1), (Z.compare_spec b1 c1),
    (Z.compare_spec a1 c1); try congruence; try lia;
  destruct (Z.compare_spec a2 b2), (Z.compare_spec b2 c2),
    (Z.compare_spec a2 c2); try congruence; try lia;
  destruct (Z.compare_spec a3 b3), (Z.compare_spec b3 c3),
    (Z.compare_spec a3 c3); try congruence; lia.
Qed.

Lemma lex_le_lt_trans (a b c : Z * Z * Z) :
  lex a b <> Gt -> lex b c = Lt -> lex a c = Lt.
Proof.
  destruct a as [[a1 a2] a3], b as [[b1 b2] b3], c as [[c1 c2] c3].
  unfold lex. cbn [fst snd].
  destruct (Z.compare_spec a1 b1), (Z.compare_spec b1 c1),
    (Z.compare_spec a1 c1); try congruence; try lia;
  destruct (Z.compare_spec a2 b2), (Z.compare_spec b2 c2),
    (Z.compare_spec a2 c2); try congruence; try lia;
  destruct (Z.compare_spec a3 b3), (Z.compare_spec b3 c3),
    (Z.compare_spec a3 c3); try congruence; lia.
Qed.

(** [a > b] and [b >= c] give [a > c]. *)
Lemma gt_ge_trans (a b c : float) :
  ordered c -> gt a b = true -> ge b c = true -> gt a c = true.
Proof.
  intros Hc Hab Hbc. apply gt_key in Hab. destruct Hab as (Ha & Hb & Hab).
  apply PyNumFacts.ge_key in Hbc; [|assumption..].
  apply key_gt; [assumption..|]. eapply lex_le_lt_trans; eassumption.
Qed.

(** [a >= b] and [b > c] give [a > c]. *)
Lemma ge_gt_trans (a b c : float) :
  ordered a -> ge a b = true -> gt b c = true -> gt a c = true.
Proof.
  intros Ha Hab Hbc. apply gt_key in Hbc. destruct Hbc as (Hb & Hc & Hbc).
  apply PyNumFacts.ge_key in Hab; [|assumption..].
  apply key_gt; [assumption..|]. eapply lex_lt_le_trans; eassumption.
Qed.

End PyNumOrder.

(** ** Which emotion [max] picks *)

Section TieBreak.

(** What [max] does on [best] and the items still to come: it keeps [best]
    when none of them is greater, and otherwise returns the first item that
    is greater than [best] and than everything before it, and not exceeded
    by anything after it. *)
Lemma max_scan_first (rest : list (string * float)) :
  forall best,
    Forall (fun kv => PyNum.ordered (snd kv)) (best :: rest) ->
    (max_scan best rest = best /\
     forall kv, In kv rest -> PyNum.ge (snd best) (snd kv) = true) \/
    (exists before m after,
        rest = (before ++ m :: after)%list /\
        max_scan best rest = m /\
        PyNum.gt (snd m) (snd best) = true /\
        (forall kv, In kv before -> PyNum.gt (snd m) (snd kv) = true) /\
        (forall kv, In kv after -> PyNum.ge (snd m) (snd kv) = true)).
Proof.
  induction rest as [|item tl IH]; intros best Hall.
  - left. split; [reflexivity | intros kv []].
  - inversion Hall as [|? ? Hb Hrest]; subst.
    inversion Hrest as [|? ? Hi Htl]; subst.
    cbn [max_scan]. destruct (PyNum.gt (snd item) (snd best)) eqn:Hgt.
    + right. destruct (IH item Hrest) as [[Em Hle] | (l1 & m & l2 & El & Em & Hm & Hl1 & Hl2)].
      * exists [], item, tl. rewrite Em. repeat split; auto; now intros kv [].
      * exists (item :: l1), m, l2.
        assert (Hmo : PyNum.ordered (snd m)).
        { rewrite Forall_forall in Htl. apply Htl. rewrite El.
          apply in_or_app. right. now left. }
        split; [now rewrite El|]. split; [exact Em|].
        repeat split; auto.
        -- apply (PyNumOrder.ge_gt_trans _ (snd item)); auto.
           now apply PyNumFacts.gt_ge.
        -- intros kv [<-|Hin]; auto.
    + assert (Hbt : Forall (fun kv => PyNum.ordered (snd kv)) (best :: tl))
        by now constructor.
      assert (Hib : PyNum.ge (snd best) (snd item) = true)
        by now apply PyNumFacts.not_gt_ge.
      destruct (IH best Hbt) as [[Em Hle] | (l1 & m & l2 & El & Em & Hm & Hl1 & Hl2)].
      * left. split; [exact Em|]. intros kv [<-|Hin]; auto.
      * right. exists (item :: l1), m, l2.
        split; [now rewrite El|]. split; [exact Em|].
        repeat split; auto.
        intros kv [<-|Hin]; auto.
        apply (PyNumOrder.gt_ge_trans _ (snd best)); auto.
Qed.

(** X1: among the emotions of a face, [max] picks the first one with the
    greatest probability: it is greater than every emotion listed before it
    and not exceeded by any listed after it. *)
Theorem top_is_first_maximum (r : DetectionResult) :
  well_formed r ->
  exists before after,
    emotions r = (before ++ top r :: after)%list /\
    (forall kv, In kv before -> PyNum.gt (snd (top r)) (snd kv) = true) /\
    (forall kv, In kv after -> PyNum.ge (snd (top r)) (snd kv) = true).
Proof.
  intros [Hne Hall]. unfold top.
  destruct (emotions r) as [|first tl]; [congruence|].
  destruct (max_scan_first tl first Hall)
    as [[Em Hle] | (l1 & m & l2 & El & Em & Hm & Hl1 & Hl2)].
  - exists [], tl. rewrite Em. repeat split; auto; now intros kv [].
  - exists (first :: l1), l2. rewrite Em. split; [now rewrite El|].
    repeat split; auto.
    intros kv [<-|Hin]; auto.
Qed.

End TieBreak.

(** ** The loop on any detector output *)

Section LoopFacts.

Context {matrix : Type} `{Externals matrix}.

Lemma nonempty_top (r : DetectionResult) :
  emotions r <> [] -> max_item (emotions r) = inr (top r).
Proof.
  intros Hne. unfold max_item, top. destruct (emotions r); [congruence | reflexivity].
Qed.

(** The loop on faces that all have some emotion: it returns, whatever the
    probabilities and the threshold are. *)
Lemma for_results_kept (threshold : float) (results : list DetectionResult) :
  Forall (fun r => emotions r <> []) results ->
  forall i frame cards w,
    for_results threshold i results frame cards w =
    (inr ((cards ++ map card_of (survivors threshold i results))%list,
          fold_left draw_face (survivors threshold i results) frame),
     fold_left log_face (survivors threshold i results) w).
Proof.
  induction 1 as [|r rest Hne Hrest IH]; intros i frame cards w.
  - cbn. unfold ret. now rewrite app_nil_r.
  - cbn [for_results]. unfold bind at 1, lift. rewrite (nonempty_top r Hne).
    unfold survivors. cbn [enumerate_from filter snd].
    fold (survivors threshold (i + 1) rest).
    unfold kept. fold (top_confidence r).
    destruct (PyNum.lt (top_confidence r) threshold); cbn [negb].
    + apply IH.
    + unfold bind, datetime_now, history_append, update.
      rewrite IH. cbn [map fold_left]. rewrite <- app_assoc. reflexivity.
Qed.

(** Between numbers the two ways of writing the test agree. *)
Lemma survivors_qualifying (threshold : float) (results : list DetectionResult) :
  PyNum.ordered threshold ->
  Forall well_formed results ->
  forall i, survivors threshold i results = qualifying threshold i results.
Proof.
  intros Ht. induction 1 as [|r rest Hr Hrest IH]; intros i; [reflexivity|].
  unfold survivors, qualifying. cbn [enumerate_from filter snd].
  fold (survivors threshold (i + 1) rest). fold (qualifying threshold (i + 1) rest).
  rewrite IH. unfold kept, meets.
  rewrite (PyNumFacts.not_lt_is_ge _ _ (proj2 (well_formed_top r Hr)) Ht).
  reflexivity.
Qed.

(** The loop up to a face without emotions: [max] raises, and what the loop
    did for the faces before it stays done. *)
Lemma for_results_raises (threshold : float) (good : list DetectionResult)
      (bad : DetectionResult) (rest : list DetectionResult) :
  Forall (fun r => emotions r <> []) good ->
  emotions bad = [] ->
  forall i frame cards w,
    for_results threshold i (good ++ bad :: rest) frame cards w =
    (inl (ValueError "max() arg is an empty sequence"),
     fold_left log_face (survivors threshold i good) w).
Proof.
  intros Hgood Hbad. induction Hgood as [|r good' Hne Hg IH]; intros i frame cards w.
  - cbn [app for_results]. unfold bind, lift. rewrite Hbad. reflexivity.
  - cbn [app for_results]. unfold bind at 1, lift. rewrite (nonempty_top r Hne).
    unfold survivors. cbn [enumerate_from filter snd].
    fold (survivors threshold (i + 1) good').
    unfold kept. fold (top_confidence r).
    destruct (PyNum.lt (top_confidence r) threshold); cbn [negb].
    + apply IH.
    + unfold bind, datetime_now, history_append, update.
      rewrite IH. reflexivity.
Qed.

Lemma survivors_in (threshold : float) (results : list DetectionResult)
      (i k : Z) (r : DetectionResult) :
  In (k, r) (survivors threshold i results) <->
  (exists n : nat, nth_error results n = Some r /\ k = i + Z.of_nat n) /\
  PyNum.lt (top_confidence r) threshold = false.
Proof.
  unfold survivors. rewrite filter_In, enumerate_from_in. cbn [snd].
  unfold kept. rewrite negb_true_iff. reflexivity.
Qed.

(** The entries logged for some faces describe the same faces as their
    cards. *)
Lemma new_entries_mirror (faces : list (Z * DetectionResult)) :
  forall w : World matrix,
    Forall2 mirrors (new_entries w faces) (map card_of faces).
Proof.
  induction faces as [|ir tl IH]; intros w; cbn [new_entries map].
  - constructor.
  - constructor; [|apply IH]. repeat split.
Qed.

End LoopFacts.

(** ** Comparisons with NaN *)

Module PyNumNaN.

Import PyNum.

Lemma is_nan_spec (a : float) : is_nan a = true <-> Prim2SF a = S754_nan.
Proof.
  unfold is_nan. rewrite eqb_spec. unfold SFeqb.
  rewrite PyNumFacts.SFcompare_diag.
  destruct (Prim2SF a); simpl; split; congruence.
Qed.

(** A comparison with NaN on either side is false. *)
Lemma lt_nan (a b : float) :
  is_nan a = true \/ is_nan b = true -> lt a b = false.
Proof.
  unfold lt. rewrite ltb_spec. unfold SFltb.
  intros [Ha|Hb].
  - apply is_nan_spec in Ha. now rewrite Ha.
  - apply is_nan_spec in Hb. rewrite Hb. now destruct (Prim2SF a).
Qed.

(** NaN times 100 is NaN. *)
Lemma nan_times_100 (p : float) : is_nan p = true -> is_nan (p * 100)%float = true.
Proof.
  rewrite !is_nan_spec, mul_spec. intros ->. reflexivity.
Qed.

End PyNumNaN.

Section LoopEdges.

Context {matrix : Type} `{Externals matrix}.

(** [max] never replaces a NaN it holds: nothing compares greater. *)
Lemma max_scan_nan (rest : list (string * float)) (best : string * float) :
  is_nan (snd best) = true -> max_scan best rest = best.
Proof.
  intros Hb. induction rest as [|item tl IH]; [reflexivity|].
  cbn [max_scan]. unfold PyNum.gt.
  change (snd best <? snd item)%float with (PyNum.lt (snd best) (snd item)).
  rewrite PyNumNaN.lt_nan; [exact IH | now left].
Qed.

Lemma analyze_emotions_kept (image_bytes : bytes) (frame : option (Frame matrix))
      (threshold : float) (results : list DetectionResult) (w : World matrix) :
  detection image_bytes = inr results ->
  Forall (fun r => emotions r <> []) results ->
  analyze_emotions image_bytes frame threshold w =
  (inr (map card_of (survivors threshold 0 results),
        fold_left draw_face (survivors threshold 0 results) frame),
   fold_left log_face (survivors threshold 0 results) w).
Proof.
  intros Hdet Hne. unfold detection in Hdet.
  unfold analyze_emotions, bind, lift.
  destruct (imdecode image_bytes) as [e|img]; [discriminate|]. rewrite Hdet.
  now rewrite (for_results_kept threshold results Hne).
Qed.

(** X4: on faces that each have some emotion the analysis returns, whatever
    the probabilities and the threshold are, and a face gets a card exactly
    when the test [conf < threshold] is false for it. A comparison with NaN
    is false: a face whose confidence is NaN is kept, a NaN threshold keeps
    every face, and a NaN in the first place of the emotions of a face is
    what [max] returns, so that the confidence of that face is NaN. *)
Theorem loop_drops_only_on_less
    (image_bytes : bytes) (frame : option (Frame matrix)) (threshold : float)
    (results : list DetectionResult) (w : World matrix) :
  detection image_bytes = inr results ->
  Forall (fun r => emotions r <> []) results ->
  exists cards frame' w',
    analyze_emotions image_bytes frame threshold w = (inr (cards, frame'), w') /\
    (forall (n : nat) (r : DetectionResult),
        nth_error results n = Some r ->
        (In (card_of (Z.of_nat n, r)) cards <->
         PyNum.lt (top_confidence r) threshold = false)) /\
    (forall (n : nat) (r : DetectionResult),
        nth_error results n = Some r ->
        is_nan (top_confidence r) = true \/ is_nan threshold = true ->
        In (card_of (Z.of_nat n, r)) cards) /\
    (forall (r : DetectionResult) (first : string * float) (tl : list (string * float)),
        emotions r = first :: tl ->
        is_nan (snd first) = true ->
        top r = first /\ is_nan (top_confidence r) = true).
Proof.
  intros Hdet Hne.
  set (S := survivors threshold 0 results).
  exists (map card_of S), (fold_left draw_face S frame), (fold_left log_face S w).
  assert (Hiff : forall (n : nat) r, nth_error results n = Some r ->
            (In (card_of (Z.of_nat n, r)) (map card_of S) <->
             PyNum.lt (top_confidence r) threshold = false)).
  { intros n r En. split.
    - intros Hc. apply in_map_iff in Hc. destruct Hc as ([k r'] & Ec & Hin).
      apply survivors_in in Hin. destruct Hin as ((n' & En' & Ek) & Hlt).
      assert (Ei : Card.index (card_of (k, r')) = Card.index (card_of (Z.of_nat n, r)))
        by now rewrite Ec.
      cbn in Ei. assert (n' = n) by lia. subst n'. congruence.
    - intros Hlt. apply in_map. apply survivors_in. split; [|exact Hlt].
      exists n. split; [exact En | lia]. }
  split; [now apply analyze_emotions_kept|].
  split; [exact Hiff|]. split.
  - intros n r En Hnan. apply (Hiff n r En). now apply PyNumNaN.lt_nan.
  - intros r first tl Er Hnan.
    assert (Et : top r = first).
    { unfold top. rewrite Er. now apply max_scan_nan. }
    split; [exact Et|]. unfold top_confidence. rewrite Et.
    now apply PyNumNaN.nan_times_100.
Qed.

(** X5: when the detector lists no emotion for a face, [max] raises
    [ValueError] and the analysis ends there: it returns no cards, and the
    entries it has logged for the faces before that one stay in the history. *)
Theorem analysis_failure_keeps_logged_entries
    (image_bytes : bytes) (frame : option (Frame matrix)) (threshold : float)
    (good : list DetectionResult) (bad : DetectionResult)
    (rest : list DetectionResult) (w : World matrix) :
  detection image_bytes = inr (good ++ bad :: rest)%list ->
  Forall (fun r => emotions r <> []) good ->
  emotions bad = [] ->
  exists w',
    analyze_emotions image_bytes frame threshold w
    = (inl (ValueError "max() arg is an empty sequence"), w') /\
    history w' = (history w ++ new_entries w (survivors threshold 0 good))%list /\
    map Entry.face (new_entries w (survivors threshold 0 good))
    = map (fun ir => fst ir + 1) (survivors threshold 0 good) /\
    events w' = events w /\ ui w' = ui w /\ files w' = files w.
Proof.
  intros Hdet Hgood Hbad. unfold detection in Hdet.
  exists (fold_left log_face (survivors threshold 0 good) w).
  split.
  - unfold analyze_emotions, bind, lift.
    destruct (imdecode image_bytes) as [e|img]; [discriminate|]. rewrite Hdet.
    now apply for_results_raises.
  - destruct (log_faces_spec (survivors threshold 0 good) w)
      as (Hh & _ & _ & He & _ & _ & Hu & Hf).
    split; [exact Hh|]. split; [|auto].
    rewrite new_entries_faces, map_map. reflexivity.
Qed.

(** X2: the cards for a threshold are, in the same order, those of the cards
    for a lower threshold whose confidence meets the higher one: raising the
    threshold removes cards and never adds or reorders any. *)
Theorem raising_threshold_filters_cards
    (image_bytes : bytes) (frame : option (Frame matrix)) (low high : float)
    (results : list DetectionResult) (w : World matrix) :
  detection image_bytes = inr results ->
  Forall well_formed results ->
  PyNum.ordered low ->
  PyNum.ordered high ->
  PyNum.ge high low = true ->
  exists cards_low cards_high frame_low frame_high w_low w_high,
    analyze_emotions image_bytes frame low w = (inr (cards_low, frame_low), w_low) /\
    analyze_emotions image_bytes frame high w = (inr (cards_high, frame_high), w_high) /\
    cards_high = filter (fun c => PyNum.ge (Card.confidence c) high) cards_low /\
    (forall c, In c cards_high -> In c cards_low) /\
    (List.length cards_high <= List.length cards_low)%nat.
Proof.
  intros Hdet Hwf Hlow Hhigh Hle.
  set (Ql := qualifying low 0 results). set (Qh := qualifying high 0 results).
  assert (Hf : map card_of Qh
               = filter (fun c => PyNum.ge (Card.confidence c) high) (map card_of Ql)).
  { subst Ql Qh. unfold qualifying.
    assert (Hwf' : Forall (fun ir : Z * DetectionResult => well_formed (snd ir))
                          (enumerate_from 0 results)).
    { apply Forall_forall. intros [k r] Hin. apply enumerate_from_in in Hin.
      destruct Hin as (n & En & _). rewrite Forall_forall in Hwf.
      apply Hwf. eapply nth_error_In, En. }
    induction (enumerate_from 0 results) as [|ir l IH]; [reflexivity|].
    inversion Hwf' as [|? ? Hir Hl]; subst. specialize (IH Hl).
    cbn [filter].
    destruct (meets high (snd ir)) eqn:Hh; destruct (meets low (snd ir)) eqn:Hl';
      cbn [map filter]; cbn [card_of Card.confidence];
      fold (meets high (snd ir)); rewrite ?Hh; try (now rewrite IH); try exact IH.
    exfalso. unfold meets in Hh, Hl'.
    rewrite (PyNumFacts.ge_trans _ high low) in Hl'; auto; try discriminate.
    exact (proj2 (well_formed_top _ Hir)). }
  exists (map card_of Ql), (map card_of Qh),
         (fold_left draw_face Ql frame), (fold_left draw_face Qh frame),
         (fold_left log_face Ql w), (fold_left log_face Qh w).
  split; [now apply analyze_emotions_spec|].
  split; [now apply analyze_emotions_spec|].
  split; [exact Hf|]. rewrite Hf. split.
  - intros c Hc. now apply filter_In in Hc.
  - apply filter_length_le.
Qed.

(** X3: the history entries that a call adds and the cards it returns
    describe the same faces in the same order: entry and card agree on the
    face number and on the emotion, the entry holds the confidence of the
    card rounded to two decimals, and the message of the card is the one for
    its emotion. *)
Theorem history_entries_mirror_cards
    (image_bytes : bytes) (frame : option (Frame matrix)) (threshold : float)
    (results : list DetectionResult) (w : World matrix) :
  detection image_bytes = inr results ->
  Forall (fun r => emotions r <> []) results ->
  exists cards frame' w' added,
    analyze_emotions image_bytes frame threshold w = (inr (cards, frame'), w') /\
    history w' = (history w ++ added)%list /\
    Forall2 mirrors added cards /\
    Forall (fun c => Card.message c = get_message (Card.emotion c)) cards.
Proof.
  intros Hdet Hne.
  set (S := survivors threshold 0 results).
  exists (map card_of S), (fold_left draw_face S frame),
         (fold_left log_face S w), (new_entries w S).
  split; [now apply analyze_emotions_kept|].
  split; [apply log_faces_spec|].
  split; [apply new_entries_mirror|].
  apply Forall_forall. intros c Hc. apply in_map_iff in Hc.
  now destruct Hc as (ir & <- & _).
Qed.

End LoopEdges.

(** ** The message table *)

Section MessageFacts.

Lemma dict_get_some {V : Type} (d : list (string * V)) (k : string) (v : V) :
  dict_get d k = Some v -> In (k, v) d.
Proof.
  induction d as [|[k' v'] rest IH]; cbn [dict_get]; [discriminate|].
  destruct (String.eqb k' k) eqn:E.
  - apply String.eqb_eq in E. intros [= ->]. left. now subst.
  - intros Hg. right. now apply IH.
Qed.

Lemma dict_get_none {V : Type} (d : list (string * V)) (k : string) :
  dict_get d k = None <-> ~ In k (map fst d).
Proof.
  induction d as [|[k' v'] rest IH]; cbn [dict_get map fst In]; [tauto|].
  destruct (String.eqb k' k) eqn:E.
  - apply String.eqb_eq in E. split; [discriminate | intros Hn; exfalso; auto].
  - apply String.eqb_neq in E. rewrite IH. tauto.
Qed.

Lemma append_dot_injective (a b : string) : (a ++ "." = b ++ "." -> a = b)%string.
Proof.
  revert b. induction a as [|c a IH]; intros [|d b] E; cbn in E.
  - reflexivity.
  - injection E as _ E. destruct b; discriminate.
  - injection E as _ E. destruct a; discriminate.
  - injection E as -> E. f_equal. now apply IH.
Qed.

Lemma append_cancel_l (p a b : string) : (p ++ a = p ++ b -> a = b)%string.
Proof.
  induction p as [|c p IH]; cbn; [auto|]. intros E. injection E as E. now apply IH.
Qed.

(** A text of the table is not the text for a name outside it. *)
Lemma table_text_is_not_fallback (k m e : string) :
  In (k, m) messages -> m <> ("😐 You seem " ++ e ++ ".")%string.
Proof.
  intros Hin E. cbn in Hin.
  repeat (destruct Hin as [Hin|Hin]; [injection Hin as <- <-; discriminate|]).
  exact Hin.
Qed.

(** X7: [get_message] gives different texts for different names, and the
    text that spells out the name exactly for the names outside its table. *)
Theorem get_message_tells_emotions_apart :
  (forall a b : string, get_message a = get_message b -> a = b) /\
  (forall e : string,
      get_message e = ("😐 You seem " ++ e ++ ".")%string <->
      ~ In e (map fst messages)).
Proof.
  split.
  - intros a b. unfold get_message.
    destruct (dict_get messages a) as [ma|] eqn:Ea;
      destruct (dict_get messages b) as [mb|] eqn:Eb.
    + apply dict_get_some in Ea, Eb. intros <-. cbn in Ea, Eb.
      repeat (destruct Ea as [Ea|Ea]; [injection Ea as <- <-|]); [..|contradiction];
        repeat (destruct Eb as [Eb|Eb];
                [first [injection Eb as <-; reflexivity | discriminate Eb]|]);
        contradiction.
    + apply dict_get_some in Ea. intros E.
      now apply (table_text_is_not_fallback a ma b) in Ea.
    + apply dict_get_some in Eb. intros E. symmetry in E.
      now apply (table_text_is_not_fallback b mb a) in Eb.
    + intros E. apply append_cancel_l in E. now apply append_dot_injective.
  - intros e. rewrite <- dict_get_none. unfold get_message.
    destruct (dict_get messages e) as [m|] eqn:Ee.
    + apply dict_get_some in Ee. split; [|discriminate].
      intros E. now apply (table_text_is_not_fallback e m e) in Ee.
    + split; reflexivity.
Qed.

End MessageFacts.

(** ** Cards that [int] rejects *)

Section DisplayEdges.

Context {matrix : Type}.

(** [int] raises on a float exactly when it is NaN or an infinity. *)
Lemma of_float_raises (x : float) (e : exn) :
  PyInt.of_float x = inl e ->
  (is_nan x = true /\ e = ValueError "cannot convert float NaN to integer") \/
  ((x = infinity \/ x = neg_infinity) /\
   e = OverflowError "cannot convert float infinity to integer").
Proof.
  unfold PyInt.of_float. intros He.
  destruct (Prim2SF x) as [s|s| |s m ex] eqn:E; try discriminate.
  - right. injection He as <-. split; [|reflexivity].
    rewrite <- (SF2Prim_Prim2SF x), E. destruct s; [right | left]; reflexivity.
  - left. injection He as <-. split; [|reflexivity].
    now apply PyNumNaN.is_nan_spec.
Qed.

Lemma display_card_raises (c : Card.t) (e : exn) (w : World matrix) :
  PyInt.of_float (Card.confidence c) = inl e ->
  display_card c w =
  (inl e,
   with_ui (ui w ++ map (pair (container w))
              [ Markdown "---" false;
                Markdown ("**Emotion:** `" ++ PyStr.capitalize (Card.emotion c) ++ "`")
                         false ]) w).
Proof.
  intros He. unfold display_card, bind, render, update, lift. rewrite He.
  cbn. unfold with_ui. cbn. rewrite <- !app_assoc. reflexivity.
Qed.

(** X6: [display_cards] has no guard around [int(c['confidence'])]: at the
    first card whose confidence is NaN or infinite it raises ([ValueError]
    for NaN, [OverflowError] for an infinity). By then it has rendered the
    cards before that one in full, and of that one the rule and the emotion
    line; the bar of that card, its message and the cards after it are not
    rendered. *)
Theorem display_cards_stops_at_bad_confidence
    (shown : list Card.t) (c : Card.t) (rest : list Card.t) (e : exn)
    (w : World matrix) :
  Forall (fun c => exists k, PyInt.of_float (Card.confidence c) = inr k) shown ->
  PyInt.of_float (Card.confidence c) = inl e ->
  display_cards (shown ++ c :: rest) w =
  (inl e,
   with_ui
     (ui w ++
      map (pair (container w))
          (flat_map (fun c => card_widgets c (PyInt.trunc (Card.confidence c))) shown ++
           [ Markdown "---" false;
             Markdown ("**Emotion:** `" ++ PyStr.capitalize (Card.emotion c) ++ "`")
                      false ])) w) /\
  ((is_nan (Card.confidence c) = true /\
    e = ValueError "cannot convert float NaN to integer") \/
   ((Card.confidence c = infinity \/ Card.confidence c = neg_infinity) /\
    e = OverflowError "cannot convert float infinity to integer")).
Proof.
  intros Hshown He. split; [|now apply of_float_raises].
  revert w. induction Hshown as [|c0 shown' [k Hk] Hs IH]; intros w.
  - cbn [app display_cards flat_map]. unfold bind.
    rewrite (display_card_raises c e w He). reflexivity.
  - cbn [app display_cards flat_map]. unfold bind at 1.
    rewrite (display_card_spec c0 k w Hk), IH.
    unfold PyInt.trunc at 2. rewrite Hk.
    unfold with_ui.
    cbn [ui container history time clock_events events cam_reads files].
    rewrite !map_app, <- !app_assoc. reflexivity.
Qed.

End DisplayEdges.

(** ** What no run of the script undoes *)

Section RunInvariants.

Context {matrix : Type} `{Externals matrix}.

(** A relation between the world before and after a step that the analysis
    and every other primitive step of the script maintain. *)
Variable R : World matrix -> World matrix -> Prop.

Hypothesis R_refl : forall w, R w w.
Hypothesis R_trans : forall w1 w2 w3, R w1 w2 -> R w2 w3 -> R w1 w3.
Hypothesis R_ui : forall u w, R w (with_ui u w).
Hypothesis R_container : forall c w, R w (with_container c w).
Hypothesis R_clock : forall t k w, R w (with_clock t k w).
Hypothesis R_events : forall l n w, R w (with_events l n w).

Ltac keeps_step :=
  intros;
  first [ apply (respects_ret R R_refl)
        | apply (respects_lift R R_refl)
        | apply (respects_render R R_ui)
        | apply (respects_display_cards R R_refl R_trans R_ui) ].

Lemma keeps_event (e : Event) : respects R (log_event (matrix := matrix) e).
Proof. intros w. apply R_events. Qed.

Lemma keeps_read : respects R (cap_read (matrix := matrix)).
Proof. intros w. apply R_events. Qed.

Lemma keeps_clock : respects R (time_time (matrix := matrix)).
Proof. intros w. apply R_clock. Qed.

Lemma keeps_sleep (seconds : N) : respects R (time_sleep (matrix := matrix) seconds).
Proof.
  intros w. unfold time_sleep. cbv zeta. cbn [snd].
  apply (R_trans _ (observe w)); [unfold observe; apply R_clock|].
  eapply R_trans; [|apply R_events]. apply R_clock.
Qed.

(** The analysis maintains a relation that allows any entry to be appended
    to the history. *)
Hypothesis R_append : forall e w, R w (with_history (history w ++ [e]) w).

Lemma keeps_for_results (threshold : float) (results : list DetectionResult) :
  forall i frame cards, respects R (for_results threshold i results frame cards).
Proof.
  induction results as [|r rest IH]; intros i frame cards; cbn [for_results].
  - keeps_step.
  - apply (respects_bind R R_trans); [keeps_step|]. intros item.
    destruct (PyNum.lt (snd item * 100) threshold); [apply IH|].
    apply (respects_bind R R_trans); [intros w; apply R_clock|]. intros now.
    apply (respects_bind R R_trans); [intros w; apply R_append|]. intros _. apply IH.
Qed.

Lemma keeps_analyze (image_bytes : bytes) (frame : option (Frame matrix))
      (threshold : float) :
  respects R (analyze_emotions image_bytes frame threshold).
Proof.
  unfold analyze_emotions. apply (respects_bind R R_trans); [keeps_step|]. intros img.
  apply (respects_bind R R_trans); [keeps_step|]. intros results.
  apply keeps_for_results.
Qed.

Hypothesis R_analyze :
  forall image_bytes frame threshold,
    respects R (analyze_emotions image_bytes frame threshold).

Lemma keeps_show (image_bytes : bytes) (frame : option (Frame matrix)) :
  respects R
    (bind (analyze_emotions image_bytes frame default_threshold)
          (fun r => bind (render (Image (snd r))) (fun _ => display_cards (fst r)))).
Proof.
  apply (respects_bind R R_trans); [apply R_analyze|]. intros r.
  apply (respects_bind R R_trans); keeps_step.
Qed.

Lemma keeps_upload (uploaded : option bytes) : respects R (upload_tab uploaded).
Proof.
  unfold upload_tab. apply (respects_bind R R_trans); [keeps_step|]. intros _.
  destruct uploaded as [b|]; [|keeps_step].
  apply (respects_bind R R_trans); [keeps_step|]. intros img. apply keeps_show.
Qed.

Lemma keeps_capture (snap : bool) : respects R (capture_tab snap).
Proof.
  unfold capture_tab. apply (respects_bind R R_trans); [keeps_step|]. intros _.
  destruct snap; [|keeps_step].
  apply (respects_bind R R_trans); [apply keeps_event|]. intros _.
  apply (respects_bind R R_trans); [apply keeps_sleep|]. intros _.
  apply (respects_bind R R_trans); [apply keeps_read|]. intros frame.
  apply (respects_bind R R_trans); [apply keeps_event|]. intros _.
  destruct frame as [f|]; [apply keeps_show | keeps_step].
Qed.

Lemma keeps_live_frame (f : Frame matrix) : respects R (live_frame f).
Proof.
  unfold live_frame. cbv zeta.
  apply (respects_bind R R_trans); [apply R_analyze|]. intros r.
  apply (respects_bind R R_trans);
    [apply (respects_within R R_trans R_container); keeps_step|]. intros _.
  apply (respects_bind R R_trans);
    [apply (respects_within R R_trans R_container); keeps_step|]. intros _.
  apply keeps_sleep.
Qed.

Lemma keeps_live_loop (start : N) (fuel : nat) : respects R (live_loop fuel start).
Proof.
  induction fuel as [|fuel IH]; cbn [live_loop]; [keeps_step|].
  apply (respects_bind R R_trans); [apply keeps_clock|]. intros t.
  destruct (t - start <? live_budget)%N; [|keeps_step].
  apply (respects_bind R R_trans); [apply keeps_read|]. intros frame.
  destruct frame as [f|].
  - apply (respects_bind R R_trans); [apply keeps_live_frame|]. intros _. exact IH.
  - apply (respects_bind R R_trans); keeps_step.
Qed.

Lemma keeps_live (start_live : bool) : respects R (live_tab start_live).
Proof.
  unfold live_tab. apply (respects_bind R R_trans); [keeps_step|]. intros _.
  destruct start_live; [|keeps_step].
  apply (respects_bind R R_trans); [apply keeps_event|]. intros _.
  apply (respects_bind R R_trans); [apply keeps_clock|]. intros start.
  apply (respects_bind R R_trans); [apply keeps_live_loop|]. intros _.
  apply (respects_bind R R_trans); [apply keeps_event|]. intros _.
  keeps_step.
Qed.

Hypothesis R_files : forall f w, R w (with_files f w).

Lemma keeps_home (export : bool) : respects R (home_tab export).
Proof.
  unfold home_tab.
  apply (respects_bind R R_trans); [keeps_step|]. intros _.
  apply (respects_bind R R_trans); [keeps_step|]. intros _.
  apply (respects_bind R R_trans); [intros w; apply R_refl|]. intros h.
  destruct (0 <? Z.of_nat (List.length h)); [|keeps_step].
  destruct export; [|keeps_step].
  apply (respects_bind R R_trans); [intros w; apply R_files | keeps_step].
Qed.

Lemma keeps_script (i : Inputs) : respects R (script i).
Proof.
  unfold script. apply (respects_bind R R_trans).
  - destruct (dark_mode i); keeps_step.
  - intros _. destruct (tab i);
      [apply keeps_home | apply keeps_upload | apply keeps_capture | apply keeps_live].
Qed.

Lemma keeps_run (i : Inputs) (w : World matrix) : R w (run i w).
Proof.
  unfold run. pose proof (keeps_script i w) as Hs.
  destruct (script i w) as [[e|u] w']; cbn [snd] in Hs; [|exact Hs].
  eapply R_trans; [exact Hs | apply R_ui].
Qed.

Lemma keeps_session (inputs : list Inputs) : forall w, R w (session inputs w).
Proof.
  induction inputs as [|i rest IH]; intros w; [apply R_refl|].
  cbn [session fold_left]. eapply R_trans; [apply keeps_run | apply IH].
Qed.

End RunInvariants.

Section HistoryAndFiles.

Context {matrix : Type} `{Externals matrix}.

Lemma extends_history_refl (w : World matrix) : extends_history w w.
Proof. exists []. now rewrite app_nil_r. Qed.

Lemma extends_history_trans (w1 w2 w3 : World matrix) :
  extends_history w1 w2 -> extends_history w2 w3 -> extends_history w1 w3.
Proof.
  intros [a Ha] [b Hb]. exists (a ++ b)%list. now rewrite Hb, Ha, app_assoc.
Qed.

Lemma analyze_extends_history (image_bytes : bytes) (frame : option (Frame matrix))
      (threshold : float) :
  respects extends_history (analyze_emotions image_bytes frame threshold).
Proof.
  apply keeps_analyze;
    first [ exact extends_history_trans
          | intros e w0; exists [e]; reflexivity
          | intros; exists []; cbn; now rewrite app_nil_r ].
Qed.

(** X8: whatever is clicked, uploaded or captured in whatever order, and
    whether the runs end normally or in an exception, the history after a
    session is the history before it with entries added at its end: no run
    of the script removes, replaces or reorders an entry. *)
Theorem history_is_append_only (inputs : list Inputs) (w : World matrix) :
  exists added, history (session inputs w) = (history w ++ added)%list.
Proof.
  change (extends_history w (session inputs w)).
  apply keeps_session;
    first [ exact extends_history_trans
          | exact analyze_extends_history
          | intros; exists []; cbn; now rewrite app_nil_r ].
Qed.

Lemma same_files_trans (w1 w2 w3 : World matrix) :
  same_files w1 w2 -> same_files w2 w3 -> same_files w1 w3.
Proof. unfold same_files. congruence. Qed.

Lemma analyze_same_files (image_bytes : bytes) (frame : option (Frame matrix))
      (threshold : float) :
  respects same_files (analyze_emotions image_bytes frame threshold).
Proof.
  apply keeps_analyze; first [ exact same_files_trans | intros; reflexivity ].
Qed.

Ltac same_files_rule :=
  first [ exact same_files_trans | exact analyze_same_files | intros; reflexivity ].

(** What the Home block does, for any history. *)
Lemma home_tab_spec (export : bool) (w : World matrix) :
  exists w',
    home_tab export w = (inr tt, w') /\
    history w' = history w /\
    events w' = events w /\
    files w' =
    match export, history w with
    | true, _ :: _ =>
        fun q => if String.eqb q export_path
                 then Some (Pandas.to_csv (history_frame (history w)))
                 else files w q
    | _, _ => files w
    end.
Proof.
  unfold home_tab, bind, render, update, write_file, ret.
  cbn [history with_ui].
  destruct (history w) as [|e h] eqn:Eh.
  - cbn. eexists. split; [reflexivity|]. cbn. rewrite Eh. now destruct export.
  - change (0 <? Z.of_nat (List.length (e :: h))) with true. cbv iota.
    destruct export; eexists; (split; [reflexivity|]); cbn; rewrite ?Eh; auto.
Qed.

Lemma run_fields (i : Inputs) (w : World matrix) :
  history (run i w) = history (snd (script i w)) /\
  files (run i w) = files (snd (script i w)) /\
  events (run i w) = events (snd (script i w)).
Proof.
  unfold run. destruct (script i w) as [[e|u] w']; repeat split.
Qed.

(** X9: a run of the script writes to the working directory in one case
    only: on the Home tab, with the export button pressed and a history that
    is not empty, when [emotion_history.csv] gets the CSV text of the
    history and every other file stays as it is. In every other run, also
    one that ends in an exception, and on the Home tab with an empty history
    even when export is asked for, the files are left exactly as they were. *)
Theorem only_export_writes_a_file (i : Inputs) (w : World matrix) :
  files (run i w) =
  match tab i, export i, history w with
  | Home, true, _ :: _ =>
      fun q => if String.eqb q export_path
               then Some (Pandas.to_csv (history_frame (history w)))
               else files w q
  | _, _, _ => files w
  end.
Proof.
  rewrite (proj1 (proj2 (run_fields i w))), script_preamble.
  set (w0 := with_ui _ w).
  assert (Hother :
            forall c : M (matrix := matrix) unit,
              respects same_files c -> files (snd (c w0)) = files w).
  { intros c Hc. exact (Hc w0). }
  destruct (tab i).
  - destruct (home_tab_spec (export i) w0) as (w' & -> & _ & _ & Hf).
    cbn [snd]. rewrite Hf. reflexivity.
  - rewrite Hother; [reflexivity|]. apply keeps_upload; same_files_rule.
  - rewrite Hother; [reflexivity|]. apply keeps_capture; same_files_rule.
  - rewrite Hother; [reflexivity|]. apply keeps_live; same_files_rule.
Qed.

(** X10: exporting leaves the history as it is, so that the history can be
    exported again: a second export right after the first writes the same
    text to the same file and changes no other. *)
Theorem export_can_be_repeated (i : Inputs) (w : World matrix) :
  tab i = Home ->
  history (run i w) = history w /\
  forall q, files (run i (run i w)) q = files (run i w) q.
Proof.
  intros Ht.
  assert (Hrun : forall w1 : World matrix,
            history (run i w1) = history w1 /\
            files (run i w1) =
            match export i, history w1 with
            | true, _ :: _ =>
                fun q => if String.eqb q export_path
                         then Some (Pandas.to_csv (history_frame (history w1)))
                         else files w1 q
            | _, _ => files w1
            end).
  { intros w1. destruct (run_fields i w1) as (-> & -> & _).
    rewrite script_preamble, Ht.
    set (w0 := with_ui _ w1).
    destruct (home_tab_spec (export i) w0) as (w' & -> & Hh & _ & Hf).
    cbn [snd]. split; [exact Hh | exact Hf]. }
  destruct (Hrun w) as [Hh Hf]. split; [exact Hh|].
  intros q. destruct (Hrun (run i w)) as [Hh2 Hf2].
  rewrite Hf2, Hh, Hf.
  destruct (export i); [|reflexivity].
  destruct (history w); [reflexivity|].
  destruct (String.eqb q export_path); reflexivity.
Qed.

Lemma logs_well_trans (w1 w2 w3 : World matrix) :
  logs_well w1 w2 -> logs_well w2 w3 -> logs_well w1 w3.
Proof.
  intros (a & Ha & Hga) (b & Hb & Hgb). exists (a ++ b)%list.
  split; [now rewrite Hb, Ha, app_assoc | now apply Forall_app].
Qed.

Lemma logs_well_same_history (w w' : World matrix) :
  history w' = history w -> logs_well w w'.
Proof. intros E. exists []. split; [now rewrite app_nil_r | constructor]. Qed.

(** The loop logs entries with a well-shaped timestamp and the face number
    [i + 1] of a position [i] that is not negative, also when it raises. *)
Lemma for_results_logs_well (threshold : float) (results : list DetectionResult) :
  (forall t, valid_datetime (calendar t)) ->
  forall i frame cards,
    0 <= i -> respects logs_well (for_results threshold i results frame cards).
Proof.
  intros Hcal. induction results as [|r rest IH]; intros i frame cards Hi;
    cbn [for_results].
  - intros w. now apply logs_well_same_history.
  - apply (respects_bind logs_well logs_well_trans).
    { intros w. now apply logs_well_same_history. }
    intros item.
    destruct (PyNum.lt (snd item * 100) threshold); [apply IH; lia|].
    intros w. unfold bind at 1, datetime_now. cbv zeta.
    unfold bind at 1, history_append, update.
    eapply logs_well_trans; [|apply IH; lia].
    eexists. split; [reflexivity|]. constructor; [|constructor].
    unfold logged_well. cbn [Entry.timestamp Entry.face Entry.confidence].
    split; [apply strftime_shape, Hcal|]. split; [lia|]. eexists. reflexivity.
Qed.

Lemma analyze_logs_well (image_bytes : bytes) (frame : option (Frame matrix))
      (threshold : float) :
  (forall t, valid_datetime (calendar t)) ->
  respects logs_well (analyze_emotions image_bytes frame threshold).
Proof.
  intros Hcal. unfold analyze_emotions.
  apply (respects_bind logs_well logs_well_trans).
  { intros w. now apply logs_well_same_history. }
  intros img. apply (respects_bind logs_well logs_well_trans).
  { intros w. now apply logs_well_same_history. }
  intros results. now apply for_results_logs_well.
Qed.

(** X17: with a clock that shows valid dates, every entry that a session
    adds to the history has a timestamp of the shape [dddd-dd-dd dd:dd:dd],
    a face number that is at least 1 and a confidence that is the result of
    rounding to two decimals; so a history that starts empty holds only such
    entries, whatever the runs of the session do and however they end. *)
Theorem history_holds_well_formed_entries (inputs : list Inputs) (w : World matrix) :
  (forall t, valid_datetime (calendar t)) ->
  (exists added,
      history (session inputs w) = (history w ++ added)%list /\
      Forall logged_well added) /\
  (Forall logged_well (history w) ->
   Forall logged_well (history (session inputs w))).
Proof.
  intros Hcal.
  assert (Hl : logs_well w (session inputs w)).
  { apply keeps_session;
      first [ exact logs_well_trans
            | intros; now apply analyze_logs_well
            | intros; now apply logs_well_same_history ]. }
  split; [exact Hl|].
  destruct Hl as (added & -> & Hadded). intros Hw. now apply Forall_app.
Qed.

End HistoryAndFiles.

(** ** The Upload and Capture blocks *)

Section TabFacts.

Context {matrix : Type} `{Externals matrix}.

Lemma default_threshold_ordered : PyNum.ordered default_threshold.
Proof. reflexivity. Qed.

Lemma qualifying_presentable (threshold : float) (results : list DetectionResult) :
  Forall presentable results ->
  Forall (fun c => exists k, PyInt.of_float (Card.confidence c) = inr k)
         (map card_of (qualifying threshold 0 results)).
Proof.
  intros Hpres. apply Forall_forall. intros c Hc. apply in_map_iff in Hc.
  destruct Hc as ([k r] & <- & Hin). apply qualifying_position in Hin.
  destruct Hin as (_ & Hn & _). apply nth_error_In in Hn.
  rewrite Forall_forall in Hpres. exact (Hpres r Hn).
Qed.

Lemma face_widgets_cards (faces : list (Z * DetectionResult)) :
  flat_map (fun c => card_widgets (matrix := matrix) c (PyInt.trunc (Card.confidence c)))
           (map card_of faces)
  = face_widgets faces.
Proof.
  unfold face_widgets. induction faces as [|ir tl IH]; [reflexivity|].
  cbn [map flat_map]. now rewrite IH.
Qed.

(** Analysing an image and showing the result, when the detector returns
    faces that can be shown: the image with the drawings for the faces that
    meet the threshold, then their cards. *)
Lemma show_spec (image_bytes : bytes) (frame : option (Frame matrix))
      (results : list DetectionResult) (w : World matrix) :
  detection image_bytes = inr results ->
  Forall well_formed results ->
  Forall presentable results ->
  let faces := qualifying default_threshold 0 results in
  bind (analyze_emotions image_bytes frame default_threshold)
       (fun r => bind (render (Image (snd r))) (fun _ => display_cards (fst r))) w
  = (inr tt,
     with_ui (ui w ++ map (pair (container w))
                (Image (fold_left draw_face faces frame) :: face_widgets faces))
             (fold_left log_face faces w)).
Proof.
  intros Hdet Hwf Hpres. cbv zeta.
  unfold bind at 1.
  rewrite (analyze_emotions_spec image_bytes frame default_threshold results w
             Hdet Hwf default_threshold_ordered).
  cbn [fst snd]. unfold bind at 1, render, update.
  rewrite (display_cards_spec _ _ (qualifying_presentable _ _ Hpres)).
  rewrite face_widgets_cards.
  destruct (log_faces_spec (qualifying default_threshold 0 results) w)
    as (_ & _ & _ & _ & _ & Hc & Hu & _).
  unfold with_ui.
  cbn [ui container history time clock_events events cam_reads files].
  rewrite Hc, Hu. cbn [map]. rewrite <- app_assoc. reflexivity.
Qed.


(** X11: an uploaded image that decodes, and in which the detector finds
    faces that can be shown: the Upload block ends normally. Below its
    heading it shows the image decoded from the upload, with a rectangle and
    a label drawn for each face that meets the default threshold and none
    for the others, and below the image the four elements of the card of
    each of these faces, in the detector's order. The history gets one entry
    per card; camera and files are not touched. *)
Theorem upload_shows_image_then_cards
    (image_bytes : bytes) (m : matrix) (results : list DetectionResult)
    (w : World matrix) :
  imdecode image_bytes = inr (Some m) ->
  detect_emotions (Some m) = inr results ->
  Forall well_formed results ->
  Forall presentable results ->
  let faces := qualifying default_threshold 0 results in
  exists w' added,
    upload_tab (Some image_bytes) w = (inr tt, w') /\
    ui w' =
    (ui w ++
     map (pair (container w))
         (Subheader "🖼 Upload Image" ::
          Image (Some {| pixels := m; overlay := flat_map drawing_of faces |}) ::
          face_widgets faces))%list /\
    history w' = (history w ++ added)%list /\
    Forall2 mirrors added (map card_of faces) /\
    events w' = events w /\
    files w' = files w.
Proof.
  intros Hdec Hfer Hwf Hpres. cbv zeta.
  assert (Hdet : detection image_bytes = inr results).
  { unfold detection. now rewrite Hdec. }
  unfold upload_tab. unfold bind at 1. unfold render at 1, update.
  unfold bind at 1, lift. rewrite Hdec. cbv iota beta. cbn [option_map].
  set (w0 := with_ui _ w).
  rewrite (show_spec image_bytes (Some (fresh_frame m)) results w0 Hdet Hwf Hpres).
  destruct (log_faces_spec (qualifying default_threshold 0 results) w0)
    as (Hh & _ & _ & He & _ & _ & _ & Hf).
  eexists. exists (new_entries w0 (qualifying default_threshold 0 results)).
  split; [reflexivity|].
  cbn [ui history events files with_ui].
  split.
  - rewrite draw_faces_spec. subst w0. cbn [ui container with_ui option_map fresh_frame
                                             pixels overlay app map].
    rewrite <- app_assoc. reflexivity.
  - split; [exact Hh|]. split; [apply new_entries_mirror|]. split; assumption.
Qed.

(** X12: Capture reads the camera once. When the read fails the block shows
    [Failed to capture image.] and ends normally with nothing logged. When
    it delivers a frame in which the detector finds faces that can be shown,
    the block shows that frame, with the drawings for the faces that meet
    the default threshold, and their cards, and logs one entry per card; the
    threshold is applied to what the detector finds in the JPEG encoding of
    the frame. The camera is opened, read once after a sleep of one second
    and released before anything is analysed or shown: the release is in the
    log of every run of the block, also of one that an exception ends, and
    when decoding or the detector raises, the block ends in that exception
    with the camera released, the subheader shown and nothing logged. *)
Theorem capture_tab_outcome (w : World matrix) :
  (camera (cam_reads w) = None ->
   exists w',
     capture_tab true w = (inr tt, w') /\
     ui w' = (ui w ++ map (pair (container w))
                          [ Subheader "📷 Capture Image";
                            ErrorBox "Failed to capture image." ])%list /\
     history w' = history w /\
     events w' = (events w ++ [CamOpen; Sleep 1; CamRead false; CamRelease])%list /\
     files w' = files w) /\
  (forall (m : matrix) (results : list DetectionResult),
      camera (cam_reads w) = Some m ->
      detection (imencode_jpg (fresh_frame m)) = inr results ->
      Forall well_formed results ->
      Forall presentable results ->
      let faces := qualifying default_threshold 0 results in
      exists w' added,
        capture_tab true w = (inr tt, w') /\
        ui w' =
        (ui w ++
         map (pair (container w))
             (Subheader "📷 Capture Image" ::
              Image (Some {| pixels := m; overlay := flat_map drawing_of faces |}) ::
              face_widgets faces))%list /\
        history w' = (history w ++ added)%list /\
        Forall2 mirrors added (map card_of faces) /\
        events w' = (events w ++ [CamOpen; Sleep 1; CamRead true; CamRelease])%list /\
        files w' = files w) /\
  (exists ok,
      events (snd (capture_tab true w))
      = (events w ++ [CamOpen; Sleep 1; CamRead ok; CamRelease])%list) /\
  (forall (m : matrix) (e : exn),
      camera (cam_reads w) = Some m ->
      detection (imencode_jpg (fresh_frame m)) = inl e ->
      exists w',
        capture_tab true w = (inl e, w') /\
        events w' = (events w ++ [CamOpen; Sleep 1; CamRead true; CamRelease])%list /\
        ui w' = (ui w ++ [(container w, Subheader "📷 Capture Image")])%list /\
        history w' = history w /\
        files w' = files w).
Proof.
  split; [|split; [|split; [exact (capture_events w)|]]].
  3: {
    intros m e Hcam Hdet. unfold detection in Hdet.
    unfold capture_tab.
    unfold bind at 1. unfold render at 1, update. cbv iota beta.
    unfold bind at 1. unfold video_capture, log_event, update. cbv iota beta.
    unfold bind at 1. unfold time_sleep. cbv zeta iota beta.
    unfold bind at 1. unfold cap_read. cbv zeta iota beta.
    unfold bind at 1. unfold cap_release, log_event, update. cbv iota beta.
    cbn [events cam_reads container files time with_events with_clock observe
         with_container with_ui].
    rewrite Hcam. cbn [option_map].
    unfold bind at 1. unfold analyze_emotions, bind, lift.
    destruct (imdecode (imencode_jpg (fresh_frame m))) as [e'|img].
    - injection Hdet as ->. eexists. split; [reflexivity|].
      cbn [events ui history files with_events with_clock observe with_ui].
      rewrite <- !app_assoc. repeat split.
    - rewrite Hdet. eexists. split; [reflexivity|].
      cbn [events ui history files with_events with_clock observe with_ui].
      rewrite <- !app_assoc. repeat split. }
  - intros Hcam. unfold capture_tab, bind, render, video_capture, cap_release,
      log_event, update, time_sleep, cap_read.
    cbn [events cam_reads container files time ui history with_events with_clock
         observe with_container with_ui].
    rewrite Hcam. cbn [option_map].
    eexists. split; [reflexivity|].
    cbn [events cam_reads container files time ui history with_events with_clock
         observe with_container with_ui map].
    rewrite <- !app_assoc. repeat split.
  - intros m results Hcam Hdet Hwf Hpres. cbv zeta.
    unfold capture_tab.
    unfold bind at 1. unfold render at 1, update. cbv iota beta.
    unfold bind at 1. unfold video_capture, log_event, update. cbv iota beta.
    unfold bind at 1. unfold time_sleep. cbv zeta iota beta.
    unfold bind at 1. unfold cap_read. cbv zeta iota beta.
    unfold bind at 1. unfold cap_release, log_event, update. cbv iota beta.
    cbn [events cam_reads container files time with_events with_clock observe
         with_container with_ui].
    rewrite Hcam. cbn [option_map].
    set (w0 := with_events _ _ _).
    rewrite (show_spec (imencode_jpg (fresh_frame m)) (Some (fresh_frame m))
                       results w0 Hdet Hwf Hpres).
    destruct (log_faces_spec (qualifying default_threshold 0 results) w0)
      as (Hh & _ & _ & He & _ & _ & _ & Hf).
    eexists. exists (new_entries w0 (qualifying default_threshold 0 results)).
    split; [reflexivity|].
    cbn [ui history events files with_ui].
    split.
    + rewrite draw_faces_spec. subst w0.
      cbn [ui container with_ui with_events with_clock observe option_map
           fresh_frame pixels overlay app map].
      rewrite <- app_assoc. reflexivity.
    + split; [exact Hh|]. split; [apply new_entries_mirror|].
      split; [|exact Hf]. rewrite He. subst w0.
      cbn [events with_events with_clock observe with_ui].
      rewrite <- !app_assoc. reflexivity.
Qed.

End TabFacts.

(** ** The Live block *)

Section LiveFacts.

Context {matrix : Type} `{Externals matrix}.

Lemma face_widgets_in_placeholder (c : Container) (ws : list (Widget matrix)) :
  c <> Page ->
  forallb in_placeholder (map (pair c) ws) = true /\
  filter shows_frame (map (pair CardSpace) ws) = [].
Proof.
  intros Hc. induction ws as [|x tl [IH1 IH2]]; [split; reflexivity|].
  cbn [map forallb filter]. rewrite IH1.
  split; [|exact IH2]. now destruct c.
Qed.

(** One pass of the Live loop on a frame in which the detector finds
    [results]: the image goes to the frame placeholder, the cards to the
    card placeholder, and the history gets the entries of the analysis. *)
Lemma live_frame_exact (f : Frame matrix) (results : list DetectionResult)
      (w : World matrix) :
  detection (imencode_jpg f) = inr results ->
  Forall well_formed results ->
  Forall presentable results ->
  let faces := qualifying default_threshold 0 results in
  exists w2,
    live_frame f w = (inr tt, w2) /\
    ui w2 = (ui w ++ (FrameSpace, Image (fold_left draw_face faces (Some f)))
                  :: map (pair CardSpace) (face_widgets faces))%list /\
    history w2 = (history w ++ new_entries w faces)%list /\
    events w2 = (events w ++ [Sleep 5])%list /\
    cam_reads w2 = cam_reads w /\
    container w2 = container w.
Proof.
  intros Hdet Hwf Hpres. cbv zeta.
  unfold live_frame. cbv zeta.
  unfold bind at 1.
  rewrite (analyze_emotions_spec (imencode_jpg f) (Some f) default_threshold results w
             Hdet Hwf default_threshold_ordered).
  cbn [fst snd].
  unfold bind at 1. unfold within at 1, render, update.
  unfold bind at 1. unfold within.
  rewrite (display_cards_spec _ _ (qualifying_presentable _ _ Hpres)).
  rewrite face_widgets_cards.
  set (Q := qualifying default_threshold 0 results).
  unfold time_sleep. cbv zeta.
  destruct (log_faces_spec Q w) as (Hh & _ & _ & He & Hr & Hc & Hu & _).
  eexists. split; [reflexivity|].
  cbn [events cam_reads container files time ui history with_events with_clock
       observe with_container with_ui].
  rewrite Hu, He, Hr, Hc, Hh. rewrite <- app_assoc.
  repeat split.
Qed.

Lemma live_frame_shows (f : Frame matrix) (w : World matrix) :
  camera_analysable ->
  exists w2 shown,
    live_frame f w = (inr tt, w2) /\
    ui w2 = (ui w ++ shown)%list /\
    forallb in_placeholder shown = true /\
    List.length (filter shows_frame shown) = 1%nat /\
    events w2 = (events w ++ [Sleep 5])%list /\
    cam_reads w2 = cam_reads w /\
    container w2 = container w.
Proof.
  intros Hcam. destruct (Hcam f) as (results & Hdet & Hwf & Hpres).
  destruct (live_frame_exact f results w Hdet Hwf Hpres)
    as (w2 & E2 & Hu & _ & He & Hr & Hc).
  set (Q := qualifying default_threshold 0 results) in *.
  exists w2.
  exists ((FrameSpace, Image (fold_left draw_face Q (Some f)))
            :: map (pair CardSpace) (face_widgets Q)).
  destruct (face_widgets_in_placeholder CardSpace (face_widgets Q)) as [Hp Hn];
    [discriminate|].
  repeat split; try assumption.
  cbn [filter shows_frame]. now rewrite Hn.
Qed.

(** The loop, when it returns: what it has shown and done to the camera. *)
Lemma live_loop_shows (start : N) :
  camera_analysable ->
  forall (fuel : nat) (w : World matrix) (exit : LoopExit) (w' : World matrix),
    live_loop fuel start w = (inr exit, w') ->
    exists n shown,
      ui w' = (ui w ++ shown ++ map (pair (container w)) (failure_notice exit))%list /\
      forallb in_placeholder shown = true /\
      List.length (filter shows_frame shown) = n /\
      events w' = (events w ++ passes n ++ leaving exit)%list /\
      container w' = container w.
Proof.
  intros Hcam. induction fuel as [|fuel IH]; intros w exit w' Hrun.
  - cbn in Hrun. injection Hrun as <- <-. exists 0%nat, [].
    cbn. now rewrite !app_nil_r.
  - rewrite live_loop_step in Hrun. unfold bind at 1 in Hrun.
    unfold time_time in Hrun. cbv zeta in Hrun.
    destruct (time (observe w) - start <? live_budget)%N.
    + unfold bind at 1 in Hrun. unfold cap_read in Hrun. cbv zeta in Hrun.
      cbn [cam_reads observe with_clock] in Hrun.
      destruct (camera (cam_reads w)) as [m|]; cbn [option_map] in Hrun.
      * set (w1 := with_events _ _ _) in Hrun.
        destruct (live_frame_shows (fresh_frame m) w1 Hcam)
          as (w2 & shown1 & E2 & Hu2 & Hp2 & Hn2 & He2 & _ & Hc2).
        unfold bind at 1 in Hrun. rewrite E2 in Hrun.
        destruct (IH w2 exit w' Hrun) as (n & shown & Hu & Hp & Hn & He & Hc).
        exists (S n), (shown1 ++ shown)%list.
        subst w1.
        cbn [events cam_reads container files time ui history with_events
             with_clock observe with_container with_ui] in Hu2, He2, Hc2.
        rewrite Hu, Hu2, Hc, Hc2, He, He2.
        rewrite forallb_app, Hp2, Hp, filter_app, length_app, Hn2, Hn.
        rewrite <- !app_assoc. repeat split.
      * unfold bind, render, update, ret in Hrun. injection Hrun as <- <-.
        exists 0%nat, [].
        cbn [events cam_reads container files time ui history with_events
             with_clock observe with_container with_ui passes leaving
             failure_notice map app forallb filter List.length].
        repeat split.
    + unfold ret in Hrun. injection Hrun as <- <-. exists 0%nat, [].
      cbn [events cam_reads container files time ui history with_events
           with_clock observe with_container with_ui passes leaving
           failure_notice map app forallb filter List.length].
      rewrite !app_nil_r. repeat split.
Qed.

(** X13: with frames that can be analysed, the Live block ends normally. All
    it shows while the loop runs goes into its two placeholders, one image
    per pass into the frame placeholder. On the page itself it shows its
    heading, after a failed read the text [Webcam error.], and then, however
    the loop was left, [Live analysis ended.]. *)
Theorem live_shows_in_placeholders (w : World matrix) :
  camera_analysable ->
  exists n exit w' shown,
    live_tab true w = (inr tt, w') /\
    exit <> Unfinished /\
    events w' = (events w ++ CamOpen :: passes n ++ leaving exit ++ [CamRelease])%list /\
    ui w' =
    (ui w ++
     (container w, Subheader "🎥 Live Webcam Feed (60 sec)") ::
     shown ++
     map (pair (container w))
         (failure_notice exit ++ [SuccessBox "✅ Live analysis ended."]))%list /\
    forallb in_placeholder shown = true /\
    List.length (filter shows_frame shown) = n /\
    container w' = container w.
Proof.
  intros Hcam. unfold live_tab.
  unfold bind at 1. unfold render at 1, update. cbv iota beta.
  unfold bind at 1. unfold video_capture, log_event, update. cbv iota beta.
  unfold bind at 1. unfold time_time. cbv zeta iota beta.
  set (w1 := observe _).
  destruct (live_loop_outcome (time w1) Hcam live_fuel w1)
    as (n0 & exit & w' & El & _ & _ & Hex & _);
    [apply N.le_refl | unfold live_fuel; clock_lia | discriminate |].
  destruct (live_loop_shows (time w1) Hcam live_fuel w1 exit w' El)
    as (n & shown & Hu & Hp & Hn & He & Hc).
  unfold bind at 1. rewrite El.
  unfold bind, cap_release, log_event, render, update.
  exists n, exit. eexists. exists shown. split; [reflexivity|].
  split; [now destruct exit|].
  cbn [events cam_reads container files time ui history with_events
       with_clock observe with_container with_ui].
  rewrite Hu, He, Hc. subst w1.
  cbn [events cam_reads container files time ui history with_events
       with_clock observe with_container with_ui].
  rewrite map_app. cbn [map]. rewrite <- !app_assoc. cbn [app].
  repeat split; assumption.
Qed.


(** The loop, when it returns, on a camera in whose every frame the
    detector finds the same [results]: what it has logged. *)
Lemma live_loop_logs (start : N) (results : list DetectionResult) :
  (forall f : Frame matrix, detection (imencode_jpg f) = inr results) ->
  Forall well_formed results ->
  Forall presentable results ->
  forall (fuel : nat) (w : World matrix) (exit : LoopExit) (w' : World matrix),
    live_loop fuel start w = (inr exit, w') ->
    exists n added,
      events w' = (events w ++ passes n ++ leaving exit)%list /\
      history w' = (history w ++ added)%list /\
      map Entry.face added
      = List.concat (repeat (map (fun ir => fst ir + 1)
                            (qualifying default_threshold 0 results)) n).
Proof.
  intros Hdet Hwf Hpres. induction fuel as [|fuel IH]; intros w exit w' Hrun.
  - cbn in Hrun. injection Hrun as <- <-. exists 0%nat, [].
    cbn. now rewrite !app_nil_r.
  - rewrite live_loop_step in Hrun. unfold bind at 1 in Hrun.
    unfold time_time in Hrun. cbv zeta in Hrun.
    destruct (time (observe w) - start <? live_budget)%N.
    + unfold bind at 1 in Hrun. unfold cap_read in Hrun. cbv zeta in Hrun.
      cbn [cam_reads observe with_clock] in Hrun.
      destruct (camera (cam_reads w)) as [m|]; cbn [option_map] in Hrun.
      * set (w1 := with_events _ _ _) in Hrun.
        destruct (live_frame_exact (fresh_frame m) results w1 (Hdet _) Hwf Hpres)
          as (w2 & E2 & _ & Hh2 & He2 & _ & _).
        unfold bind at 1 in Hrun. rewrite E2 in Hrun.
        destruct (IH w2 exit w' Hrun) as (n & added & He & Hh & Hf).
        exists (S n).
        exists (new_entries w1 (qualifying default_threshold 0 results) ++ added)%list.
        subst w1.
        cbn [events cam_reads container files time ui history with_events
             with_clock observe with_container with_ui] in Hh2, He2.
        rewrite Hh, Hh2, He, He2.
        rewrite <- !app_assoc. repeat split.
        rewrite map_app, Hf, new_entries_faces, map_map. reflexivity.
      * unfold bind, render, update, ret in Hrun. injection Hrun as <- <-.
        exists 0%nat, [].
        cbn [events cam_reads container files time ui history with_events
             with_clock observe with_container with_ui passes leaving
             map app repeat List.concat].
        rewrite app_nil_r. repeat split.
    + unfold ret in Hrun. injection Hrun as <- <-. exists 0%nat, [].
      cbn [events cam_reads container files time ui history with_events
           with_clock observe with_container with_ui passes leaving
           map app repeat List.concat].
      rewrite !app_nil_r. repeat split.
Qed.

(** X14: Live analyses every frame it reads and logs what it finds each
    time: when the detector finds the same faces in every frame, [n] passes
    add the entries of the faces that meet the default threshold [n] times
    over, the face numbers starting again with each pass.  There are at
    most 12 passes, so one run of Live adds at most 12 entries per face. *)
Theorem live_logs_every_pass (results : list DetectionResult) (w : World matrix) :
  (forall f : Frame matrix, detection (imencode_jpg f) = inr results) ->
  Forall well_formed results ->
  Forall presentable results ->
  let numbers := map (fun ir => fst ir + 1) (qualifying default_threshold 0 results) in
  exists n exit w' added,
    live_tab true w = (inr tt, w') /\
    events w' = (events w ++ CamOpen :: passes n ++ leaving exit ++ [CamRelease])%list /\
    history w' = (history w ++ added)%list /\
    map Entry.face added = List.concat (repeat numbers n) /\
    List.length added = (n * List.length numbers)%nat /\
    (n <= 12)%nat.
Proof.
  intros Hdet Hwf Hpres. cbv zeta.
  assert (Hcam : camera_analysable).
  { intros f. exists results. auto. }
  unfold live_tab.
  unfold bind at 1. unfold render at 1, update. cbv iota beta.
  unfold bind at 1. unfold video_capture, log_event, update. cbv iota beta.
  unfold bind at 1. unfold time_time. cbv zeta iota beta.
  set (w1 := observe _).
  destruct (live_loop_outcome (time w1) Hcam live_fuel w1)
    as (n0 & exit & w' & El & Ev0 & _ & _ & Hn0 & _);
    [apply N.le_refl | unfold live_fuel; clock_lia | discriminate |].
  destruct (live_loop_logs (time w1) results Hdet Hwf Hpres live_fuel w1 exit w' El)
    as (n & added & He & Hh & Hf).
  assert (Hn : (n <= 12)%nat).
  { assert (En : n = n0).
    { rewrite He in Ev0. apply app_inv_head, app_inv_tail in Ev0.
      apply (f_equal (@List.length Event)) in Ev0.
      rewrite !passes_length in Ev0. lia. }
    subst n0. destruct Hn0 as [->|Hn0]; clock_lia. }
  unfold bind at 1. rewrite El.
  unfold bind, cap_release, log_event, render, update.
  exists n, exit. eexists. exists added. split; [reflexivity|].
  cbn [events cam_reads container files time ui history with_events
       with_clock observe with_container with_ui].
  rewrite He, Hh. subst w1.
  cbn [events cam_reads container files time ui history with_events
       with_clock observe with_container with_ui].
  rewrite <- !app_assoc. cbn [app].
  repeat split; [exact Hf | | exact Hn].
  rewrite <- (length_map Entry.face), Hf.
  clear. induction n as [|n IH]; [reflexivity|].
  cbn [repeat List.concat]. rewrite length_app, IH. reflexivity.
Qed.

End LiveFacts.

(** ** The width of the bars *)

Module PyIntBound.

Lemma digits2_pos_lower (m : positive) : 2 ^ (Zpos (digits2_pos m) - 1) <= Zpos m.
Proof.
  induction m as [m IH|m IH|]; cbn [digits2_pos]; [| |cbn; lia].
  - rewrite Pos2Z.inj_succ.
    replace (Z.succ (Zpos (digits2_pos m)) - 1) with (Z.succ (Zpos (digits2_pos m) - 1)) by lia.
    rewrite Z.pow_succ_r by lia. lia.
  - rewrite Pos2Z.inj_succ.
    replace (Z.succ (Zpos (digits2_pos m)) - 1) with (Z.succ (Zpos (digits2_pos m) - 1)) by lia.
    rewrite Z.pow_succ_r by lia. lia.
Qed.

Lemma compare_cont_le (a m : positive) :
  PosDef.Pos.compare_cont Eq a m <> Gt -> (a <= m)%positive.
Proof. intros Hc. exact Hc. Qed.

(** The integer part of [m * 2^e] for a mantissa and an exponent that are
    not below those of 50. *)
Lemma scaled_trunc_at_least_50 (m : positive) (e : Z) :
  Z.max (Zpos (digits2_pos m) + e - 53) (-1074) = e ->
  (-47 < e \/ (e = -47 /\ (7036874417766400 <= m)%positive)) ->
  50 <= PyNum.scaled_trunc m e.
Proof.
  intros Hcanon Hcmp. unfold PyNum.scaled_trunc.
  destruct Hcmp as [He | [-> Hle]].
  - assert (Hd : Zpos (digits2_pos m) = 53) by lia.
    pose proof (digits2_pos_lower m) as Hm.
    rewrite Hd in Hm. change (2 ^ (53 - 1)) with 4503599627370496 in Hm.
    clear Hcanon Hd.
    destruct (0 <=? e) eqn:E0.
    + apply Z.leb_le in E0.
      assert (H1 : 1 <= 2 ^ e).
      { pose proof (Z.pow_pos_nonneg 2 e ltac:(lia) E0) as Hpos.
        generalize dependent (2 ^ e). intros p Hpos. lia. }
      apply (Z.le_trans _ (Zpos m * 1)); [lia|].
      apply Z.mul_le_mono_nonneg_l; [lia | exact H1].
    + apply Z.leb_gt in E0.
      assert (Hp : 2 ^ (- e) <= 2 ^ 46) by (apply Z.pow_le_mono_r; lia).
      change (2 ^ 46) with 70368744177664 in Hp.
      assert (Hpos : 0 < 2 ^ (- e)) by (apply Z.pow_pos_nonneg; lia).
      apply Z.div_le_lower_bound; [exact Hpos|].
      generalize dependent (2 ^ (- e)). intros p Hp Hpos. lia.
  - clear Hcanon. change (0 <=? -47) with false. cbv iota.
    change (2 ^ (- (-47))) with 140737488355328.
    apply Z.div_le_lower_bound; lia.
Qed.

(** A float that is [>= 50] and that [int] accepts truncates to an integer
    that is at least 50. *)
Lemma of_float_at_least_50 (x : float) (k : Z) :
  PyNum.ge x 50 = true -> PyInt.of_float x = inr k -> 50 <= k.
Proof.
  unfold PyNum.ge. rewrite leb_spec. unfold PyInt.of_float.
  pose proof (Prim2SF_valid x) as Hv.
  assert (E50 : Prim2SF 50 = S754_finite false 7036874417766400 (-47))
    by (vm_compute; reflexivity).
  rewrite E50.
  destruct (Prim2SF x) as [s|s| |s m e]; unfold SFleb; cbn [SFcompare];
    try discriminate.
  destruct s; [discriminate|].
  intros Hcmp [= <-].
  unfold valid_binary, bounded, canonical_mantissa, fexp, emin, FloatOps.prec,
    FloatOps.emax in Hv.
  apply andb_prop in Hv. destruct Hv as [Hcanon _].
  apply Z.eqb_eq in Hcanon.
  apply scaled_trunc_at_least_50; [exact Hcanon|].
  destruct (Z.compare_spec (-47) e) as [He|He|He].
  - right. split; [now symmetry|]. apply compare_cont_le.
    intros Hgt. rewrite Hgt in Hcmp. discriminate.
  - now left.
  - discriminate.
Qed.

End PyIntBound.

Section BarFacts.

Context {matrix : Type} `{Externals matrix}.

(** X15: every confidence bar shown for the result of an analysis at the
    default threshold is at least 50 percent wide: a face is shown only when
    its confidence is [>= 50], and [int] of such a number is at least 50. *)
Theorem shown_bars_are_at_least_half_wide
    (image_bytes : bytes) (frame : option (Frame matrix))
    (results : list DetectionResult) (w : World matrix) :
  detection image_bytes = inr results ->
  Forall well_formed results ->
  Forall presentable results ->
  exists cards frame' w1 w2,
    analyze_emotions image_bytes frame default_threshold w = (inr (cards, frame'), w1) /\
    display_cards cards w1 = (inr tt, w2) /\
    ui w2 =
    (ui w1 ++
     map (pair (container w1))
         (flat_map (fun c => card_widgets c (PyInt.trunc (Card.confidence c))) cards))%list /\
    Forall (fun c => 50 <= PyInt.trunc (Card.confidence c)) cards.
Proof.
  intros Hdet Hwf Hpres.
  set (Q := qualifying default_threshold 0 results).
  pose proof (qualifying_presentable default_threshold results Hpres) as Hshow.
  fold Q in Hshow.
  exists (map card_of Q), (fold_left draw_face Q frame), (fold_left log_face Q w).
  eexists. split.
  { apply analyze_emotions_spec; auto. apply default_threshold_ordered. }
  split; [apply (display_cards_spec _ _ Hshow)|].
  split; [reflexivity|].
  apply Forall_forall. intros c Hc.
  rewrite Forall_forall in Hshow. destruct (Hshow c Hc) as [k Hk].
  unfold PyInt.trunc. rewrite Hk.
  apply (PyIntBound.of_float_at_least_50 (Card.confidence c)); [|exact Hk].
  apply in_map_iff in Hc. destruct Hc as ([n r] & <- & Hin).
  apply qualifying_position in Hin. now destruct Hin as (_ & _ & Hge).
Qed.

End BarFacts.

(** ** Dark mode *)

Section UiIndependence.

Context {matrix : Type} `{Externals matrix}.

Lemma blind_bind {A B : Type} (c : M (matrix := matrix) A) (k : A -> M B) :
  blind c -> (forall a, blind (k a)) -> blind (bind c k).
Proof.
  intros Hc Hk w. destruct (Hc w) as [n1 H1]. unfold bind.
  destruct (c w) as [[e|a] w1] eqn:Ecw; cbn [fst snd] in H1.
  - exists n1. intros u. now rewrite H1.
  - destruct (Hk a w1) as [n2 H2]. exists (n1 ++ n2)%list. intros u.
    rewrite H1, H2, app_assoc. reflexivity.
Qed.

(** A step that changes the world by a function that leaves [ui] alone and
    does not depend on it. *)
Lemma blind_step {A : Type} (r : World matrix -> exn + A)
      (f : World matrix -> World matrix) :
  (forall u w, r (with_ui u w) = r w) ->
  (forall u w, f (with_ui u w) = with_ui u (f w)) ->
  blind (fun w => (r w, f w)).
Proof.
  intros Hr Hf w. exists []. intros u. cbn [fst snd].
  now rewrite Hr, Hf, app_nil_r.
Qed.

Lemma blind_ret {A : Type} (a : A) : blind (ret (matrix := matrix) a).
Proof. now apply (blind_step (fun _ => inr a) (fun w => w)). Qed.

Lemma blind_lift {A : Type} (r : exn + A) : blind (lift (matrix := matrix) r).
Proof. now apply (blind_step (fun _ => r) (fun w => w)). Qed.

Lemma blind_render (x : Widget matrix) : blind (render x).
Proof. intros w. exists [(container w, x)]. intros u. reflexivity. Qed.

Lemma blind_now : blind (datetime_now (matrix := matrix)).
Proof.
  now apply (blind_step (fun w => inr (calendar (time (observe w)))) observe).
Qed.

Lemma blind_clock : blind (time_time (matrix := matrix)).
Proof. now apply (blind_step (fun w => inr (time (observe w))) observe). Qed.

Lemma blind_sleep (seconds : N) : blind (time_sleep (matrix := matrix) seconds).
Proof.
  now apply (blind_step (fun _ => inr tt)
               (fun w => snd (time_sleep seconds w))).
Qed.

Lemma blind_history_append (e : Entry.t) : blind (history_append (matrix := matrix) e).
Proof.
  now apply (blind_step (fun _ => inr tt)
               (fun w => with_history (history w ++ [e]) w)).
Qed.

Lemma blind_event (e : Event) : blind (log_event (matrix := matrix) e).
Proof.
  now apply (blind_step (fun _ => inr tt)
               (fun w => with_events (events w ++ [e]) (cam_reads w) w)).
Qed.

Lemma blind_read : blind (cap_read (matrix := matrix)).
Proof.
  now apply (blind_step (fun w => fst (cap_read w)) (fun w => snd (cap_read w))).
Qed.

Lemma blind_within {A : Type} (c : Container) (body : M (matrix := matrix) A) :
  blind body -> blind (within c body).
Proof.
  intros Hb w. destruct (Hb (with_container c w)) as [new Hn].
  exists new. intros u. unfold within.
  change (with_container c (with_ui u w)) with (with_ui u (with_container c w)).
  rewrite Hn. destruct (body (with_container c w)) as [r w']. reflexivity.
Qed.

Ltac blind_prim :=
  intros;
  first [ apply blind_ret | apply blind_lift | apply blind_render
        | apply blind_now | apply blind_clock | apply blind_sleep
        | apply blind_history_append | apply blind_event | apply blind_read ].

Lemma blind_for_results (threshold : float) (results : list DetectionResult) :
  forall i frame cards, blind (for_results threshold i results frame cards).
Proof.
  induction results as [|r rest IH]; intros i frame cards; cbn [for_results].
  - blind_prim.
  - apply blind_bind; [blind_prim|]. intros item.
    destruct (PyNum.lt (snd item * 100) threshold); [apply IH|].
    apply blind_bind; [blind_prim|]. intros now.
    apply blind_bind; [blind_prim|]. intros _. apply IH.
Qed.

Lemma blind_analyze (image_bytes : bytes) (frame : option (Frame matrix))
      (threshold : float) :
  blind (analyze_emotions image_bytes frame threshold).
Proof.
  unfold analyze_emotions. apply blind_bind; [blind_prim|]. intros img.
  apply blind_bind; [blind_prim|]. intros results. apply blind_for_results.
Qed.

Lemma blind_display_cards (cards : list Card.t) :
  blind (display_cards (matrix := matrix) cards).
Proof.
  induction cards as [|c rest IH]; cbn [display_cards]; [blind_prim|].
  apply blind_bind; [|intros _; exact IH].
  unfold display_card.
  repeat (apply blind_bind; [blind_prim|]; intros ?).
  blind_prim.
Qed.

Lemma blind_show (image_bytes : bytes) (frame : option (Frame matrix)) :
  blind
    (bind (analyze_emotions image_bytes frame default_threshold)
          (fun r => bind (render (Image (snd r))) (fun _ => display_cards (fst r)))).
Proof.
  apply blind_bind; [apply blind_analyze|]. intros r.
  apply blind_bind; [blind_prim|]. intros _. apply blind_display_cards.
Qed.

Lemma blind_upload (uploaded : option bytes) : blind (upload_tab uploaded).
Proof.
  unfold upload_tab. apply blind_bind; [blind_prim|]. intros _.
  destruct uploaded as [b|]; [|blind_prim].
  apply blind_bind; [blind_prim|]. intros img. apply blind_show.
Qed.

Lemma blind_capture (snap : bool) : blind (capture_tab snap).
Proof.
  unfold capture_tab. apply blind_bind; [blind_prim|]. intros _.
  destruct snap; [|blind_prim].
  unfold video_capture, cap_release.
  apply blind_bind; [blind_prim|]. intros _.
  apply blind_bind; [blind_prim|]. intros _.
  apply blind_bind; [blind_prim|]. intros frame.
  apply blind_bind; [blind_prim|]. intros _.
  destruct frame as [f|]; [apply blind_show | blind_prim].
Qed.

Lemma blind_live_frame (f : Frame matrix) : blind (live_frame f).
Proof.
  unfold live_frame. cbv zeta.
  apply blind_bind; [apply blind_analyze|]. intros r.
  apply blind_bind; [apply blind_within; blind_prim|]. intros _.
  apply blind_bind; [apply blind_within, blind_display_cards|]. intros _.
  blind_prim.
Qed.

Lemma blind_live_loop (start : N) (fuel : nat) : blind (live_loop fuel start).
Proof.
  induction fuel as [|fuel IH]; cbn [live_loop]; [blind_prim|].
  apply blind_bind; [blind_prim|]. intros t.
  destruct (t - start <? live_budget)%N; [|blind_prim].
  apply blind_bind; [blind_prim|]. intros frame.
  destruct frame as [f|].
  - apply blind_bind; [apply blind_live_frame|]. intros _. exact IH.
  - apply blind_bind; blind_prim.
Qed.

Lemma blind_live (start_live : bool) : blind (live_tab start_live).
Proof.
  unfold live_tab. apply blind_bind; [blind_prim|]. intros _.
  destruct start_live; [|blind_prim].
  unfold video_capture, cap_release.
  apply blind_bind; [blind_prim|]. intros _.
  apply blind_bind; [blind_prim|]. intros start.
  apply blind_bind; [apply blind_live_loop|]. intros _.
  apply blind_bind; blind_prim.
Qed.

Lemma blind_home (export : bool) : blind (home_tab (matrix := matrix) export).
Proof.
  unfold home_tab.
  apply blind_bind; [blind_prim|]. intros _.
  apply blind_bind; [blind_prim|]. intros _.
  apply blind_bind.
  { now apply (blind_step (fun w : World matrix => inr (history w)) (fun w => w)). }
  intros h.
  destruct (0 <? Z.of_nat (List.length h)); [|blind_prim].
  destruct export; [|blind_prim].
  apply blind_bind; [|blind_prim].
  unfold write_file, update.
  now apply (blind_step (fun _ => inr tt)
               (fun w : World matrix => with_files
                           (fun q => if String.eqb q export_path
                                     then Some (Pandas.to_csv (history_frame h))
                                     else files w q) w)).
Qed.

(** X16: the dark-mode toggle changes nothing but the look of the page: with
    it on, a run shows the style element and then exactly what it shows with
    it off, and history, files, camera and clock end up the same. *)
Theorem dark_mode_only_adds_style (i : Inputs) (w : World matrix) :
  let light := run (with_dark_mode false i) w in
  let dark := run (with_dark_mode true i) w in
  exists shown,
    ui light = (ui w ++ shown)%list /\
    ui dark = (ui w ++ (container w, Markdown dark_style true) :: shown)%list /\
    history dark = history light /\
    files dark = files light /\
    events dark = events light /\
    cam_reads dark = cam_reads light /\
    time dark = time light.
Proof.
  cbv zeta. unfold run. rewrite !script_preamble.
  unfold preamble, with_dark_mode. cbn [dark_mode tab uploaded snap start_live export map].
  set (block := match tab i with
                | Home => home_tab (export i)
                | Upload => upload_tab (uploaded i)
                | Capture => capture_tab (snap i)
                | Live => live_tab (start_live i)
                end).
  assert (Hb : blind block).
  { subst block. destruct (tab i);
      [apply blind_home | apply blind_upload | apply blind_capture | apply blind_live]. }
  destruct (Hb w) as [new Hn]. rewrite !Hn.
  destruct (fst (block w)) as [e|u].
  - exists (new ++ [(Page, ExceptionBox e)])%list. cbn.
    rewrite app_nil_r, <- !app_assoc. repeat split.
  - exists new. cbn. rewrite app_nil_r, <- !app_assoc. repeat split.
Qed.

End UiIndependence.

(** ** The further properties on concrete inputs *)

Lemma tied_face_well_formed : well_formed tied_face.
Proof. repeat constructor; discriminate. Qed.

Lemma some_emotion_each (results : list DetectionResult) :
  Forall well_formed results -> Forall (fun r => emotions r <> []) results.
Proof. intros Hwf. eapply Forall_impl; [|exact Hwf]. now intros r [Hne _]. Qed.

(** X1, witness: sad and neutral tie at 0.35, and [max] returns sad. *)
Lemma top_is_first_maximum_witness :
  well_formed tied_face /\
  top tied_face = ("sad", 0.35%float) /\
  exists before after,
    emotions tied_face = (before ++ top tied_face :: after)%list /\
    (forall kv, In kv before -> PyNum.gt (snd (top tied_face)) (snd kv) = true) /\
    (forall kv, In kv after -> PyNum.ge (snd (top tied_face)) (snd kv) = true).
Proof.
  split; [exact tied_face_well_formed|]. split; [reflexivity|].
  exact (top_is_first_maximum tied_face tied_face_well_formed).
Defined.

(** X2, witness: the three faces at thresholds 50 and 70. *)
Lemma raising_threshold_filters_cards_witness :
  let env := demo_externals three_faces (fun _ => true) in
  let w := fresh_session unit 0 in
  @detection unit env demo_jpeg = inr three_faces /\
  Forall well_formed three_faces /\
  PyNum.ordered 50 /\
  PyNum.ordered 70 /\
  PyNum.ge 70 50 = true /\
  exists cards_low cards_high frame_low frame_high w_low w_high,
    @analyze_emotions unit env demo_jpeg None 50 w = (inr (cards_low, frame_low), w_low) /\
    @analyze_emotions unit env demo_jpeg None 70 w = (inr (cards_high, frame_high), w_high) /\
    cards_high = filter (fun c => PyNum.ge (Card.confidence c) 70) cards_low /\
    (forall c, In c cards_high -> In c cards_low) /\
    (List.length cards_high <= List.length cards_low)%nat.
Proof.
  cbv zeta.
  split; [reflexivity|]. split; [exact three_faces_well_formed|].
  split; [reflexivity|]. split; [reflexivity|]. split; [reflexivity|].
  apply (@raising_threshold_filters_cards
           unit (demo_externals three_faces (fun _ => true))
           demo_jpeg None 50%float 70%float three_faces (fresh_session unit 0));
    [reflexivity | exact three_faces_well_formed | reflexivity | reflexivity
    | reflexivity].
Defined.

(** X3, witness: entries and cards for the three faces. *)
Lemma history_entries_mirror_cards_witness :
  let env := demo_externals three_faces (fun _ => true) in
  let w := fresh_session unit 0 in
  @detection unit env demo_jpeg = inr three_faces /\
  Forall (fun r => emotions r <> []) three_faces /\
  exists cards frame' w' added,
    @analyze_emotions unit env demo_jpeg None default_threshold w
      = (inr (cards, frame'), w') /\
    history w' = (history w ++ added)%list /\
    Forall2 mirrors added cards /\
    Forall (fun c => Card.message c = get_message (Card.emotion c)) cards.
Proof.
  cbv zeta.
  split; [reflexivity|].
  split; [exact (some_emotion_each three_faces three_faces_well_formed)|].
  apply (@history_entries_mirror_cards
           unit (demo_externals three_faces (fun _ => true))
           demo_jpeg None default_threshold three_faces (fresh_session unit 0));
    [reflexivity | exact (some_emotion_each three_faces three_faces_well_formed)].
Defined.

(** X4, witness: a face whose first probability is NaN, and a happy face. *)
Lemma loop_drops_only_on_less_witness :
  let env := demo_externals [nan_face; happy_face] (fun _ => true) in
  let w := fresh_session unit 0 in
  @detection unit env demo_jpeg = inr [nan_face; happy_face] /\
  Forall (fun r => emotions r <> []) [nan_face; happy_face] /\
  exists cards frame' w',
    @analyze_emotions unit env demo_jpeg None default_threshold w
      = (inr (cards, frame'), w') /\
    (forall (n : nat) (r : DetectionResult),
        nth_error [nan_face; happy_face] n = Some r ->
        (In (card_of (Z.of_nat n, r)) cards <->
         PyNum.lt (top_confidence r) default_threshold = false)) /\
    (forall (n : nat) (r : DetectionResult),
        nth_error [nan_face; happy_face] n = Some r ->
        is_nan (top_confidence r) = true \/ is_nan default_threshold = true ->
        In (card_of (Z.of_nat n, r)) cards) /\
    (forall (r : DetectionResult) (first : string * float) (tl : list (string * float)),
        emotions r = first :: tl ->
        is_nan (snd first) = true ->
        top r = first /\ is_nan (top_confidence r) = true).
Proof.
  cbv zeta.
  assert (Hne : Forall (fun r => emotions r <> []) [nan_face; happy_face])
    by (repeat constructor; discriminate).
  split; [reflexivity|]. split; [exact Hne|].
  apply (@loop_drops_only_on_less
           unit (demo_externals [nan_face; happy_face] (fun _ => true))
           demo_jpeg None default_threshold [nan_face; happy_face]
           (fresh_session unit 0));
    [reflexivity | exact Hne].
Defined.

(** X5, witness: a face without emotions between two others. *)
Lemma analysis_failure_keeps_logged_entries_witness :
  let env := demo_externals [happy_face; blank_face; tied_face] (fun _ => true) in
  let w := fresh_session unit 0 in
  @detection unit env demo_jpeg = inr ([happy_face] ++ blank_face :: [tied_face])%list /\
  Forall (fun r => emotions r <> []) [happy_face] /\
  emotions blank_face = [] /\
  exists w',
    @analyze_emotions unit env demo_jpeg None default_threshold w
    = (inl (ValueError "max() arg is an empty sequence"), w') /\
    history w'
    = (history w ++ @new_entries unit env w (survivors default_threshold 0 [happy_face]))%list /\
    map Entry.face (@new_entries unit env w (survivors default_threshold 0 [happy_face]))
    = map (fun ir => fst ir + 1) (survivors default_threshold 0 [happy_face]) /\
    events w' = events w /\ ui w' = ui w /\ files w' = files w.
Proof.
  cbv zeta.
  assert (Hne : Forall (fun r => emotions r <> []) [happy_face])
    by (repeat constructor; discriminate).
  split; [reflexivity|]. split; [exact Hne|]. split; [reflexivity|].
  apply (@analysis_failure_keeps_logged_entries
           unit (demo_externals [happy_face; blank_face; tied_face] (fun _ => true))
           demo_jpeg None default_threshold [happy_face] blank_face [tied_face]
           (fresh_session unit 0));
    [reflexivity | exact Hne | reflexivity].
Defined.

(** X6, witness: a card with confidence NaN after the card of the happy
    face. *)
Lemma display_cards_stops_at_bad_confidence_witness :
  let shown := [card_of (0, happy_face)] in
  let c := card_of (1, nan_face) in
  let rest := [card_of (2, happy_face)] in
  let e := ValueError "cannot convert float NaN to integer" in
  let w := fresh_session unit 0 in
  Forall (fun c => exists k, PyInt.of_float (Card.confidence c) = inr k) shown /\
  PyInt.of_float (Card.confidence c) = inl e /\
  display_cards (shown ++ c :: rest) w =
  (inl e,
   with_ui
     (ui w ++
      map (pair (container w))
          (flat_map (fun c => card_widgets c (PyInt.trunc (Card.confidence c))) shown ++
           [ Markdown "---" false;
             Markdown ("**Emotion:** `" ++ PyStr.capitalize (Card.emotion c) ++ "`")
                      false ])) w) /\
  ((is_nan (Card.confidence c) = true /\
    e = ValueError "cannot convert float NaN to integer") \/
   ((Card.confidence c = infinity \/ Card.confidence c = neg_infinity) /\
    e = OverflowError "cannot convert float infinity to integer")).
Proof.
  cbv zeta.
  assert (Hshown : Forall (fun c => exists k, PyInt.of_float (Card.confidence c) = inr k)
                          [card_of (0, happy_face)])
    by (repeat constructor; eexists; vm_compute; reflexivity).
  assert (Hbad : PyInt.of_float (Card.confidence (card_of (1, nan_face)))
                 = inl (ValueError "cannot convert float NaN to integer"))
    by (vm_compute; reflexivity).
  split; [exact Hshown|]. split; [exact Hbad|].
  exact (@display_cards_stops_at_bad_confidence
           unit [card_of (0, happy_face)] (card_of (1, nan_face))
           [card_of (2, happy_face)]
           (ValueError "cannot convert float NaN to integer")
           (fresh_session unit 0) Hshown Hbad).
Defined.

(** X10, witness: exporting a history of two entries twice. *)
Lemma export_can_be_repeated_witness :
  let env := demo_externals three_faces (fun _ => true) in
  let i := {| dark_mode := false; tab := Home; uploaded := None;
              snap := false; start_live := false; export := true |} in
  let w := with_history demo_history (fresh_session unit 0) in
  tab i = Home /\
  history (@run unit env i w) = history w /\
  forall q, files (@run unit env i (@run unit env i w)) q = files (@run unit env i w) q.
Proof.
  cbv zeta. split; [reflexivity|].
  apply (@export_can_be_repeated unit (demo_externals three_faces (fun _ => true))).
  reflexivity.
Defined.

(** X11, witness: an upload in which the detector finds the three faces. *)
Lemma upload_shows_image_then_cards_witness :
  let env := demo_externals three_faces (fun _ => true) in
  let w := fresh_session unit 0 in
  let faces := qualifying default_threshold 0 three_faces in
  @imdecode unit env demo_jpeg = inr (Some tt) /\
  @detect_emotions unit env (Some tt) = inr three_faces /\
  Forall well_formed three_faces /\
  Forall presentable three_faces /\
  exists w' added,
    @upload_tab unit env (Some demo_jpeg) w = (inr tt, w') /\
    ui w' =
    (ui w ++
     map (pair (container w))
         (Subheader "🖼 Upload Image" ::
          Image (Some {| pixels := tt; overlay := flat_map drawing_of faces |}) ::
          face_widgets faces))%list /\
    history w' = (history w ++ added)%list /\
    Forall2 mirrors added (map card_of faces) /\
    events w' = events w /\
    files w' = files w.
Proof.
  cbv zeta.
  split; [reflexivity|]. split; [reflexivity|].
  split; [exact three_faces_well_formed|]. split; [exact three_faces_presentable|].
  apply (@upload_shows_image_then_cards
           unit (demo_externals three_faces (fun _ => true))
           demo_jpeg tt three_faces (fresh_session unit 0));
    [reflexivity | reflexivity | exact three_faces_well_formed
    | exact three_faces_presentable].
Defined.

(** X12, witness: a capture in which the detector finds the three faces. *)
Lemma capture_tab_outcome_witness :
  let env := demo_externals three_faces (fun _ => true) in
  let w := fresh_session unit 0 in
  let faces := qualifying default_threshold 0 three_faces in
  @camera unit env (cam_reads w) = Some tt /\
  @detection unit env (@imencode_jpg unit env (fresh_frame tt)) = inr three_faces /\
  Forall well_formed three_faces /\
  Forall presentable three_faces /\
  exists w' added,
    @capture_tab unit env true w = (inr tt, w') /\
    ui w' =
    (ui w ++
     map (pair (container w))
         (Subheader "📷 Capture Image" ::
          Image (Some {| pixels := tt; overlay := flat_map drawing_of faces |}) ::
          face_widgets faces))%list /\
    history w' = (history w ++ added)%list /\
    Forall2 mirrors added (map card_of faces) /\
    events w' = (events w ++ [CamOpen; Sleep 1; CamRead true; CamRelease])%list /\
    files w' = files w.
Proof.
  cbv zeta.
  split; [reflexivity|]. split; [reflexivity|].
  split; [exact three_faces_well_formed|]. split; [exact three_faces_presentable|].
  apply (proj1 (proj2 (@capture_tab_outcome
                         unit (demo_externals three_faces (fun _ => true))
                         (fresh_session unit 0)))
               tt three_faces);
    [reflexivity | reflexivity | exact three_faces_well_formed
    | exact three_faces_presentable].
Defined.

(** X13, witness: a camera whose fourth read fails. *)
Lemma live_shows_in_placeholders_witness :
  let env := demo_externals three_faces (fun k => (k <? 3)%nat) in
  let w := fresh_session unit 0 in
  @camera_analysable unit env /\
  exists n exit w' shown,
    @live_tab unit env true w = (inr tt, w') /\
    exit <> Unfinished /\
    events w' = (events w ++ CamOpen :: passes n ++ leaving exit ++ [CamRelease])%list /\
    ui w' =
    (ui w ++
     (container w, Subheader "🎥 Live Webcam Feed (60 sec)") ::
     shown ++
     map (pair (container w))
         (failure_notice exit ++ [SuccessBox "✅ Live analysis ended."]))%list /\
    forallb in_placeholder shown = true /\
    List.length (filter shows_frame shown) = n /\
    container w' = container w.
Proof.
  cbv zeta. split; [apply demo_camera_analysable|].
  apply (@live_shows_in_placeholders
           unit (demo_externals three_faces (fun k => (k <? 3)%nat))
           (fresh_session unit 0)).
  apply demo_camera_analysable.
Defined.

(** X14, witness: a camera that always delivers, the three faces in every
    frame. *)
Lemma live_logs_every_pass_witness :
  let env := demo_externals three_faces (fun _ => true) in
  let w := fresh_session unit 0 in
  let numbers := map (fun ir => fst ir + 1) (qualifying default_threshold 0 three_faces) in
  (forall f : Frame unit, @detection unit env (@imencode_jpg unit env f) = inr three_faces) /\
  Forall well_formed three_faces /\
  Forall presentable three_faces /\
  exists n exit w' added,
    @live_tab unit env true w = (inr tt, w') /\
    events w' = (events w ++ CamOpen :: passes n ++ leaving exit ++ [CamRelease])%list /\
    history w' = (history w ++ added)%list /\
    map Entry.face added = List.concat (repeat numbers n) /\
    List.length added = (n * List.length numbers)%nat /\
    (n <= 12)%nat.
Proof.
  cbv zeta.
  split; [intros f; reflexivity|].
  split; [exact three_faces_well_formed|]. split; [exact three_faces_presentable|].
  apply (@live_logs_every_pass
           unit (demo_externals three_faces (fun _ => true))
           three_faces (fresh_session unit 0));
    [intros f; reflexivity | exact three_faces_well_formed
    | exact three_faces_presentable].
Defined.

(** X15, witness: the bars of the cards for the three faces. *)
Lemma shown_bars_are_at_least_half_wide_witness :
  let env := demo_externals three_faces (fun _ => true) in
  let w := fresh_session unit 0 in
  @detection unit env demo_jpeg = inr three_faces /\
  Forall well_formed three_faces /\
  Forall presentable three_faces /\
  exists cards frame' w1 w2,
    @analyze_emotions unit env demo_jpeg None default_threshold w
      = (inr (cards, frame'), w1) /\
    display_cards cards w1 = (inr tt, w2) /\
    ui w2 =
    (ui w1 ++
     map (pair (container w1))
         (flat_map (fun c => card_widgets c (PyInt.trunc (Card.confidence c))) cards))%list /\
    Forall (fun c => 50 <= PyInt.trunc (Card.confidence c)) cards.
Proof.
  cbv zeta.
  split; [reflexivity|].
  split; [exact three_faces_well_formed|]. split; [exact three_faces_presentable|].
  apply (@shown_bars_are_at_least_half_wide
           unit (demo_externals three_faces (fun _ => true))
           demo_jpeg None three_faces (fresh_session unit 0));
    [reflexivity | exact three_faces_well_formed | exact three_faces_presentable].
Defined.

(** X17, witness: an upload and then an export, in a session that has just
    started. *)
Lemma history_holds_well_formed_entries_witness :
  let env := demo_externals three_faces (fun _ => true) in
  let inputs :=
    [ {| dark_mode := false; tab := Upload; uploaded := Some demo_jpeg;
         snap := false; start_live := false; export := false |};
      {| dark_mode := true; tab := Home; uploaded := None;
         snap := false; start_live := false; export := true |} ] in
  let w := fresh_session unit 0 in
  (forall t, valid_datetime (@calendar unit env t)) /\
  (exists added,
      history (@session unit env inputs w) = (history w ++ added)%list /\
      Forall logged_well added) /\
  (Forall logged_well (history w) ->
   Forall logged_well (history (@session unit env inputs w))).
Proof.
  cbv zeta. split; [exact demo_calendar_valid|].
  apply (@history_holds_well_formed_entries
           unit (demo_externals three_faces (fun _ => true))).
  exact demo_calendar_valid.
Defined.
